(** * SSESIS orchestration engines: a shallow embedding

    Two files of the repository are embedded here:

    - [MAS.py]: the stage pipeline ([Module MAS]);
    - [MultiAgentSystem.py]: the recursive decomposition engine
      ([Module MultiAgentSystem]).

    Both define the same [CoreEngine] (model handle and session map) and a
    generator [process_pipeline] that yields wire events.  A generator is
    embedded as a function from the engine state to a result, the new engine
    state and the trace of what the generator did (events yielded, prompts
    handed to the gateway); the run of a generator is the generator drained
    by its consumer.  The [while] loop of the decomposition engine takes a
    bound on its iterations, and is proved to end within some bound.

    Python [str] is embedded as [string], a sequence of characters of which
    [len], slicing, [in], [find] and [replace] never ask what they are.
    [str.upper] and [str.lower] follow the Unicode tables and are parameters,
    like the model, the clock and the JSON decoder ([Externals]); the
    white space of [str.strip] is that of the code points below 256. *)

From Stdlib Require Import QArith Ascii String.
From stdpp Require Import gmap strings list fin_maps sorting.
From Stdlib Require Import DecimalString.

Local Open Scope string_scope.
Local Open Scope list_scope.

(** ** Python string operations used by the two files *)

Module Py.

Definition chars (s : string) : list ascii := list_ascii_of_string s.
Definition str (l : list ascii) : string := string_of_list_ascii l.

(** [len(s)] *)
Definition len (s : string) : Z := Z.of_nat (String.length s).

(** Normalisation of one slice bound against a sequence of length [n]:
    a negative bound counts from the end, and both are clipped. *)
Definition bound (n i : Z) : Z :=
  if (i <? 0)%Z then Z.max 0 (i + n) else Z.min i n.

(** [s[start:stop]] *)
Definition slice (s : string) (start stop : Z) : string :=
  let a := bound (len s) start in
  let b := bound (len s) stop in
  substring (Z.to_nat a) (Z.to_nat (b - a)) s.

(** [s[start:]] *)
Definition slice_from (s : string) (start : Z) : string :=
  let a := bound (len s) start in
  substring (Z.to_nat a) (Z.to_nat (len s - a)) s.

(** [l[-n:]] on a list, for a literal [n > 0]: the last [n] elements. *)
Definition last_n {A} (n : nat) (l : list A) : list A :=
  drop (length l - n) l.

Definition upper_ascii (c : ascii) : ascii :=
  let n := nat_of_ascii c in
  if (97 <=? n)%nat && (n <=? 122)%nat then ascii_of_nat (n - 32) else c.

Definition lower_ascii (c : ascii) : ascii :=
  let n := nat_of_ascii c in
  if (65 <=? n)%nat && (n <=? 90)%nat then ascii_of_nat (n + 32) else c.

(** [s.upper()] and [s.lower()] on ASCII text: the letters a to z and A
    to Z are mapped, every other character is kept.  The two engines do
    not use these: they take the case mapping as a parameter; the
    scripted gateway of the examples, whose texts are ASCII, passes
    these. *)
Definition upper (s : string) : string := str (map upper_ascii (chars s)).
Definition lower (s : string) : string := str (map lower_ascii (chars s)).

(** [sub in s] *)
Fixpoint contains (sub s : string) : bool :=
  String.prefix sub s ||
  match s with
  | EmptyString => false
  | String _ s' => contains sub s'
  end.

(** [s.find(c)] and [s.rfind(c)] for a one-character needle; [-1] when
    the character does not occur. *)
Fixpoint find_from (c : ascii) (s : string) (i : Z) : Z :=
  match s with
  | EmptyString => (-1)%Z
  | String d s' => if Ascii.eqb c d then i else find_from c s' (i + 1)%Z
  end.
Definition find (c : ascii) (s : string) : Z := find_from c s 0.

Fixpoint rfind_from (c : ascii) (s : string) (i : Z) (seen : Z) : Z :=
  match s with
  | EmptyString => seen
  | String d s' => rfind_from c s' (i + 1)%Z (if Ascii.eqb c d then i else seen)
  end.
Definition rfind (c : ascii) (s : string) : Z := rfind_from c s 0 (-1).

(** [s.replace(old, new)] for a non-empty [old]: occurrences are replaced
    left to right, without overlap. *)
Fixpoint replace_fuel (fuel : nat) (old new s : string) : string :=
  match fuel with
  | O => s
  | S fuel' =>
      if String.prefix old s
      then new +:+ replace_fuel fuel' old new
                     (substring (String.length old)
                                (String.length s - String.length old) s)
      else match s with
           | EmptyString => EmptyString
           | String c s' => String c (replace_fuel fuel' old new s')
           end
  end.
Definition replace (old new s : string) : string :=
  replace_fuel (S (String.length s)) old new s.

(** White space as [str.strip()] sees it, among the characters this
    embedding has (the code points below 256): U+0009 to U+000D, U+001C
    to U+0020, U+0085 and U+00A0. *)
Definition is_ws (c : ascii) : bool :=
  let n := nat_of_ascii c in
  ((9 <=? n)%nat && (n <=? 13)%nat) ||
  ((28 <=? n)%nat && (n <=? 32)%nat) ||
  (n =? 133)%nat || (n =? 160)%nat.

Fixpoint lstrip_chars (l : list ascii) : list ascii :=
  match l with
  | c :: l' => if is_ws c then lstrip_chars l' else l
  | [] => []
  end.

(** [s.strip()] *)
Definition strip (s : string) : string :=
  str (rev (lstrip_chars (rev (lstrip_chars (chars s))))).

(** [sep.join(l)] on a list of [str] *)
Fixpoint join (sep : string) (l : list string) : string :=
  match l with
  | [] => EmptyString
  | [x] => x
  | x :: l' => x +:+ sep +:+ join sep l'
  end.

(** A string literal between double quotes, as it appears in JSON text. *)
Definition quoted (s : string) : string :=
  String "034"%char (s +:+ String "034"%char EmptyString).

(** [s * n] *)
Fixpoint times (s : string) (n : nat) : string :=
  match n with
  | O => EmptyString
  | S n' => s +:+ times s n'
  end.

(** [str(n)] for a non-negative [int] *)
Definition str_of_nat (n : nat) : string :=
  NilEmpty.string_of_uint (Nat.to_uint n).

(** [re.search(r'\[.*\]', txt, re.DOTALL)]: the leftmost [[] and, the star
    being greedy and the dot matching newlines, the last []] after it.
    [None] when there is no such pair; otherwise [match.group()]. *)
Definition search_brackets (txt : string) : option string :=
  let i := find "["%char txt in
  let j := rfind "]"%char txt in
  if (0 <=? i)%Z && (i <? j)%Z
  then Some (substring (Z.to_nat i) (Z.to_nat (j - i + 1)) txt)
  else None.

End Py.

(** ** Data shared by the two files *)

(** The line feed, written [\n] in the Python literals. *)
Definition nl : string := String "010"%char EmptyString.

(** A turn of a session history: [{"role": ..., "content": ...}]. *)
Record Turn := mkTurn { role : string; content : string }.

(** The event handed to [json.dumps] by [msg]: [{"type": t, "content": c,
    "target": tgt}].  [json.dumps] of three strings (or [None]) cannot fail
    and the wire line determines the dictionary, so the event is kept as the
    dictionary. *)
Record Event := mkEvent {
  ev_type : string;
  ev_content : string;
  ev_target : option string
}.

(** [msg(t, c, tgt=None)] *)
Definition msg (t c : string) (tgt : option string) : Event :=
  {| ev_type := t; ev_content := c; ev_target := tgt |}.

(** The keyword arguments of [Llama.create_completion]. *)
Record Request := mkRequest {
  rq_prompt : string;
  rq_temperature : Q;
  rq_max_tokens : Z;
  rq_stop : list string;
  rq_stream : bool
}.

(** A value decoded from JSON, as far as the engine looks at it: it is a
    [str], or it is something else, of which only [str(v)] (through an
    f-string) is ever taken. *)
Inductive PyVal :=
| PyStr (s : string)
| PyOther (shown : string).

(** [f"{v}"] *)
Definition fmt (v : PyVal) : string :=
  match v with
  | PyStr s => s
  | PyOther shown => shown
  end.

(** [sep.join(l)]: a [TypeError] ([None]) unless every item is a [str]. *)
Fixpoint join_vals (l : list PyVal) : option (list string) :=
  match l with
  | [] => Some []
  | PyStr s :: l' => cons s <$> join_vals l'
  | PyOther _ :: _ => None
  end.

(** A dictionary of protocol flags, in insertion order; each value is kept
    as its truth value, the only thing [feats.get(k)] and [if v] observe. *)
Definition Flags := list (string * bool).

(** [bool(feats.get(k))] *)
Fixpoint flag (feats : Flags) (k : string) : bool :=
  match feats with
  | [] => false
  | (k', v) :: feats' => if String.eqb k k' then v else flag feats' k
  end.

(** What a call of the library gives: it returns, or it raises an
    exception, kept as its message (llama.cpp raises, for one, on a prompt
    that does not fit the context window). *)
Inductive Reply (A : Type) :=
| Returned (a : A)
| Raised (message : string).
Global Arguments Returned {A} a.
Global Arguments Raised {A} message.

(** What the engine consumes and does not implement: the loaded model
    ([llama_cpp.Llama]), the clock, the JSON decoder and the case mapping
    of [str].

    - [create_completion m rq] is the call [m.create_completion] with the
      keyword arguments [rq], without [stream]: the text of [choices[0]] of the completion, or the
      exception the call raises; and the model afterwards;
    - [create_stream m rq] is the same call with [stream=True], and the
      stream drained to its end: the exception the call raises, or the
      text of each chunk and the message of the exception that ended the
      iteration, if one did;
    - [json_loads_object] is [json.loads] on a span cut from the first [{]
      to the last [}]: a [dict] or an exception ([None]);
    - [json_loads_array] is [json.loads] on a span cut from the first [[]
      to the last []]: a [list] or an exception ([None]);
    - [upper] and [lower] are [str.upper] and [str.lower].

    Nothing is assumed of any of them: every property below is proved for
    all models, all decoders and all case mappings. *)
Class Externals := {
  Llama : Type;
  timestamp : Type;
  create_completion : Llama -> Request -> Reply string * Llama;
  create_stream : Llama -> Request -> Reply (list string * option string) * Llama;
  json_loads_object : string -> option Flags;
  json_loads_array : string -> option (list PyVal);
  upper : string -> string;
  lower : string -> string
}.

Section Engine.
Context `{Ext : Externals}.

(** A value of [ENGINE.sessions]. *)
Record Session := mkSession {
  id : string;
  title : string;
  history : list Turn;
  created : timestamp
}.

(** [CoreEngine]: the fields the pipelines read or write. *)
Record CoreEngine := mkEngine {
  model : option Llama;
  sessions : gmap string Session
}.

(** [ENGINE.get_session(uid)] *)
Definition get_session (E : CoreEngine) (uid : string) : option Session :=
  sessions E !! uid.

(** [sess['history'].append(turn)], [sess] being the dictionary stored
    under [uid]. *)
Definition history_append (uid : string) (t : Turn) (E : CoreEngine) : CoreEngine :=
  {| model := model E;
     sessions := alter (fun s => {| id := id s; title := title s;
                                    history := history s ++ [t];
                                    created := created s |}) uid (sessions E) |}.

(** What a generator does, in order: it yields an event, or it hands a
    prompt to the gateway ([ENGINE.inference], or the model directly).
    [site] names the call site, by the variable of the source that holds
    the prompt or receives the result; it is a label of the embedding. *)
Inductive Action :=
| Yield (e : Event)
| Ask (site prompt : string).

Definition Trace := list Action.

(** The events of a trace, in order: the stream the client receives. *)
Fixpoint events (tr : Trace) : list Event :=
  match tr with
  | [] => []
  | Yield e :: tr' => e :: events tr'
  | Ask _ _ :: tr' => events tr'
  end.

(** The call sites that reached the gateway, in order. *)
Fixpoint sites (tr : Trace) : list string :=
  match tr with
  | [] => []
  | Yield _ :: tr' => sites tr'
  | Ask site _ :: tr' => site :: sites tr'
  end.

(** Exceptions that leave a generator. *)
Inductive Exn :=
| TypeError            (* subscripting [None] *)
| AttributeError       (* [None.create_completion] *)
| StreamError (message : string)       (* raised while a stream is iterated *)
| CompletionError (message : string).  (* raised by a call of [create_completion] *)

(** How a piece of generator code ends.  [OutOfFuel] is not a behaviour
    of the program: it says that the bound this embedding puts on the
    number of iterations of a [while] loop was reached. *)
Inductive Res (A : Type) :=
| Ok (a : A)
| Raise (e : Exn)
| OutOfFuel.
Global Arguments Ok {A} a.
Global Arguments Raise {A} e.
Global Arguments OutOfFuel {A}.

(** A piece of generator code: from the engine state to its result, the
    engine state afterwards and its trace.  After [Raise] nothing more is
    done. *)
Definition Gen (A : Type) : Type := CoreEngine -> Res A * CoreEngine * Trace.

Definition ret {A} (a : A) : Gen A := fun E => (Ok a, E, []).

Definition bind {A B} (m : Gen A) (k : A -> Gen B) : Gen B :=
  fun E =>
    match m E with
    | (Ok a, E1, tr1) =>
        match k a E1 with
        | (r, E2, tr2) => (r, E2, tr1 ++ tr2)
        end
    | (Raise e, E1, tr1) => (Raise e, E1, tr1)
    | (OutOfFuel, E1, tr1) => (OutOfFuel, E1, tr1)
    end.

Definition raise {A} (e : Exn) : Gen A := fun E => (Raise e, E, []).
Definition out_of_fuel {A} : Gen A := fun E => (OutOfFuel, E, []).

(** [yield e] *)
Definition yield (e : Event) : Gen unit := fun E => (Ok tt, E, [Yield e]).

Definition ask (site prompt : string) : Gen unit :=
  fun E => (Ok tt, E, [Ask site prompt]).

(** Reads [ENGINE]. *)
Definition get_engine : Gen CoreEngine := fun E => (Ok E, E, []).

(** What [ENGINE.inference] does with the model: [None] when no model is
    loaded, otherwise the call [f] on [ENGINE.model], which returns or
    raises; the model is left in its new state. *)
Definition on_model {A} (f : Llama -> Reply A * Llama) : Gen (option A) :=
  fun E =>
    match model E with
    | None => (Ok None, E, [])
    | Some m =>
        let '(reply, m') := f m in
        let E' := {| model := Some m'; sessions := sessions E |} in
        match reply with
        | Returned a => (Ok (Some a), E', [])
        | Raised message => (Raise (CompletionError message), E', [])
        end
    end.

(** The call [f] made on [ENGINE.model] directly, with [prompt]: when no
    model is loaded no call is made ([None]; the caller is about to take
    an attribute of [None]), otherwise the gateway is reached at [site]
    and the call returns or raises. *)
Definition call_model {A} (site prompt : string) (f : Llama -> Reply A * Llama)
    : Gen (option A) :=
  fun E =>
    match model E with
    | None => (Ok None, E, [])
    | Some m =>
        let '(reply, m') := f m in
        let E' := {| model := Some m'; sessions := sessions E |} in
        match reply with
        | Returned a => (Ok (Some a), E', [Ask site prompt])
        | Raised message => (Raise (CompletionError message), E', [Ask site prompt])
        end
    end.

(** [ENGINE.sessions[uid]['history'].append(t)] *)
Definition append_turn (uid : string) (t : Turn) : Gen unit :=
  fun E => (Ok tt, history_append uid t E, []).

End Engine.

Declare Scope gen_scope.
Delimit Scope gen_scope with gen.
Notation "'let*' x ':=' m 'in' k" := (bind m (fun x => k))
  (at level 10, x pattern, m at level 100, k at level 200) : gen_scope.
Notation "m ';;' k" := (bind m (fun _ => k))
  (at level 100, k at level 200, right associativity) : gen_scope.

(** ** MultiAgentSystem.py: the recursive decomposition engine *)

Module MultiAgentSystem.
Section Defs.
Context `{Ext : Externals}.
Local Open Scope gen_scope.

(** The keyword arguments [CoreEngine.inference] passes on; an empty
    [stop] stands for [None], which like the empty list gives way to the
    default. *)
Definition request (prompt : string) (temp : Q) (max_tokens : Z) (stop : list string)
    : Request :=
  let full_prompt :=
    "### Instruction:" +:+ nl +:+ prompt +:+ nl +:+ nl +:+ "### Response:" +:+ nl in
  {| rq_prompt := full_prompt;
     rq_temperature := temp;
     rq_max_tokens := max_tokens;
     rq_stop := match stop with
                | [] => ["###"; "User:"; nl +:+ nl]
                | _ => stop
                end;
     rq_stream := false |}.

(** [CoreEngine.inference(prompt, temp=0.1, max_tokens=2048, stop=None)]:
    [None] when no model is loaded, otherwise the text of the completion. *)
Definition inference (site prompt : string) (temp : Q) (max_tokens : Z)
    (stop : list string) : Gen (option string) :=
  ask site prompt;;
  on_model (fun m => create_completion m (request prompt temp max_tokens stop)).

(** [clean_resp(text)] *)
Definition clean_resp (text : string) : string :=
  if String.eqb text EmptyString then EmptyString
  else
    let text := Py.replace "`" EmptyString text in
    let text := Py.replace "'" EmptyString text in
    let text := Py.replace (String "034"%char EmptyString) EmptyString text in
    let bad := ["SYSTEM:"; "GLOBAL CONTEXT:"; "Instruction:"; "Context:"; "Response:"] in
    let text := fold_left (fun t b => Py.replace b EmptyString t) bad text in
    Py.strip text.

Definition truncation_marker : string := "...(truncated)" +:+ nl.

(** [prune_context(ctx, limit=4000)] *)
Definition prune_context_limit (ctx : string) (limit : Z) : string :=
  if (limit <? Py.len ctx)%Z
  then truncation_marker +:+ Py.slice_from ctx (- limit)
  else ctx.

Definition prune_context (ctx : string) : string := prune_context_limit ctx 4000.

Definition MAX_DEPTH : nat := 3.

Inductive NodeType := MAIN | SUB | RESUME.

(** An entry of [task_stack]: [{"depth": d, "task": t, "type": ty}]. *)
Record TaskNode := mkNode {
  depth : nat;
  task : PyVal;
  type : NodeType
  }.

(** [task_stack.pop()]: the stack is a Python list, its top is the last
    element. *)
Definition pop (task_stack : list TaskNode) : option (TaskNode * list TaskNode) :=
  match rev task_stack with
  | [] => None
  | item :: below => Some (item, rev below)
  end.

(** [f"[{'>>' * depth}] D{depth}"] *)
Definition prefix (depth : nat) : string :=
  "[" +:+ Py.times ">>" depth +:+ "] D" +:+ Py.str_of_nat depth.

(** Lines 125-164: the three cards W, H and I of a MAIN or SUB node; the
    result is [(val_w, val_h, val_i)]. *)
Definition whi_analysis (depth : nat) (task : PyVal) (global_context : string)
    : Gen (string * string * string) :=
  let prefix := prefix depth in
  yield (msg "status" (prefix +:+ " WHI Analysis...") None);;
  let p_router := "Input: " +:+ fmt task +:+ nl +:+
                  "Question: Is this a complex task requiring a plan? Answer YES or NO." in
  let* res_router := inference "p_router" p_router (1 # 10) 10 [nl] in
  let is_complex := match res_router with
                    | Some text => Py.contains "YES" (upper text)
                    | None => true
                    end in
  if negb is_complex then
    let val_w := "Chat with user" in
    yield (msg "card" ("W: " +:+ val_w) (Some (prefix +:+ " WHI")));;
    let val_h := "Reply naturally" in
    yield (msg "card" ("H: " +:+ val_h) (Some (prefix +:+ " WHI")));;
    let val_i := "YES" in
    yield (msg "card" ("I: " +:+ val_i) (Some (prefix +:+ " WHI")));;
    ret (val_w, val_h, val_i)
  else
    let p_what := "Input: " +:+ fmt task +:+ nl +:+
                  "Context: " +:+ prune_context global_context +:+ nl +:+
                  "Task: Identify the specific goal." in
    let* res_w := inference "p_what" p_what (1 # 10) 64 [nl +:+ nl; "###"] in
    let val_w := match res_w with Some text => clean_resp text | None => EmptyString end in
    let val_w := if String.eqb val_w EmptyString
                    || Py.contains "sorry" (lower val_w)
                    || Py.contains "understand" (lower val_w)
                 then "Execute task" else val_w in
    yield (msg "card" ("W: " +:+ val_w) (Some (prefix +:+ " WHI")));;
    let p_how := "Input: " +:+ fmt task +:+ nl +:+
                 "Goal: " +:+ val_w +:+ nl +:+
                 "Task: List brief steps to achieve this." in
    let* res_h := inference "p_how" p_how (1 # 10) 128 [nl +:+ nl; "###"] in
    let val_h := match res_h with Some text => clean_resp text | None => EmptyString end in
    let val_h := if String.eqb val_h EmptyString then "Execute immediately" else val_h in
    yield (msg "card" ("H: " +:+ val_h) (Some (prefix +:+ " WHI")));;
    let* val_i :=
      if (depth <? MAX_DEPTH)%nat then
        let p_is := "Steps: " +:+ val_h +:+ nl +:+
                    "Question: Is this a single step task? YES or NO." in
        let* res_i := inference "p_is" p_is (1 # 10) 10 [] in
        match res_i with
        | Some text => if Py.contains "NO" (upper text) then ret "NO" else ret "YES"
        | None => ret "YES"
        end
      else ret "YES" in
    yield (msg "card" ("I: " +:+ val_i) (Some (prefix +:+ " WHI")));;
    ret (val_w, val_h, val_i).

(** How the [if val_i == "NO":] block (lines 166-183) is left: by
    [continue], or by falling through to line 185 with the current
    [val_i]; in both cases with the stack as the block left it. *)
Inductive SplitExit :=
  | Continue (task_stack : list TaskNode)
  | FallThrough (task_stack : list TaskNode) (val_i : string).

(** Line 169 *)
Definition p_split (val_w val_h : string) : string :=
  "Goal: " +:+ val_w +:+ nl +:+
  "Steps: " +:+ val_h +:+ nl +:+
  "Task: Return a JSON list of sub-tasks. Example: [" +:+
  Py.quoted "Step1" +:+ ", " +:+ Py.quoted "Step2" +:+ "]".

(** Lines 167-183, entered with [val_i == "NO"].  The body of the [try]
    raises when [res_split] is [None] (subscripting it), when
    [json.loads] rejects the span, and when [join] meets an item that is
    not a [str]; the bare [except] then sets [val_i = "YES"].  Without a
    match nothing is raised and [val_i] stays ["NO"]. *)
Definition split_block (depth : nat) (task : PyVal) (val_w val_h : string)
    (task_stack : list TaskNode) : Gen SplitExit :=
  let prefix := prefix depth in
  yield (msg "status" (prefix +:+ " Status: COMPLEX. Splitting...") None);;
  let p_split := p_split val_w val_h in
  let* res_split := inference "p_split" p_split (1 # 10) 2048 [] in
  match res_split with
  | None => ret (FallThrough task_stack "YES")
  | Some txt =>
      match Py.search_brackets txt with
      | None => ret (FallThrough task_stack "NO")
      | Some span =>
          match json_loads_array span with
          | None => ret (FallThrough task_stack "YES")
          | Some sub_tasks =>
              let task_stack :=
                task_stack ++ [{| depth := depth; task := task; type := RESUME |}] in
              let task_stack :=
                task_stack ++ map (fun st => {| depth := depth + 1; task := st; type := SUB |})
                                  (rev sub_tasks) in
              match join_vals sub_tasks with
              | None => ret (FallThrough task_stack "YES")
              | Some lines =>
                  yield (msg "card" (Py.join nl lines) (Some (prefix +:+ " Split Plan")));;
                  ret (Continue task_stack)
              end
          end
      end
  end.

(** [for chunk in stream: ... yield msg("token", txt)] *)
Fixpoint yield_tokens (chunks : list string) : Gen unit :=
  match chunks with
  | [] => ret tt
  | txt :: chunks' => yield (msg "token" txt None);; yield_tokens chunks'
  end.

(** [f"\nUser: {task}\nAI: {content_chunk}\n"] *)
Definition transcript (task : PyVal) (content_chunk : string) : string :=
  nl +:+ "User: " +:+ fmt task +:+ nl +:+ "AI: " +:+ content_chunk +:+ nl.

(** Line 188: the prompt of a leaf; the context goes in pruned. *)
Definition prompt_exec (global_context : string) (task : PyVal) (val_w val_h : string)
    : string :=
  "Context: " +:+ prune_context global_context +:+ nl +:+
  "Request: " +:+ fmt task +:+ nl +:+
  "Goal: " +:+ val_w +:+ nl +:+
  "Plan: " +:+ val_h +:+ nl +:+ nl +:+
  "Task: Write the response now.".

(** Lines 191-197: the keyword arguments of the call that executes a
    leaf. *)
Definition leaf_request (prompt_exec : string) : Request :=
  {| rq_prompt := "### Instruction:" +:+ nl +:+ prompt_exec +:+ nl +:+ nl +:+
                  "### Response:" +:+ nl;
     rq_temperature := 7 # 10;
     rq_max_tokens := 2048;
     rq_stop := ["###"];
     rq_stream := true |}.

(** Lines 186-208, entered with [val_i == "YES"]; the result is the new
    [global_context].  [ENGINE.model.create_completion] is an attribute
    access on [None] when no model is loaded, and the call stands outside
    the [try]; the iteration over the stream stands inside. *)
Definition execute_leaf (depth : nat) (task : PyVal) (val_w val_h : string)
    (global_context : string) : Gen string :=
  let prefix := prefix depth in
  yield (msg "status" (prefix +:+ " Status: CLEAR. Executing...") None);;
  let prompt_exec := prompt_exec global_context task val_w val_h in
  let* stream :=
    call_model "prompt_exec" prompt_exec
      (fun m => create_stream m (leaf_request prompt_exec)) in
  match stream with
  | None => raise AttributeError
  | Some (chunks, error) =>
      yield_tokens chunks;;
      let content_chunk := fold_left String.app chunks EmptyString in
      match error with
      | Some e => yield (msg "token" (nl +:+ "[Error: " +:+ e +:+ "]") None)
      | None => ret tt
      end;;
      ret (global_context +:+ transcript task content_chunk)
  end.

(** One iteration of [while task_stack:] (lines 114-208), after
    [item = task_stack.pop()]; the result is the stack and the context
    at the end of the iteration. *)
Definition loop_body (item : TaskNode) (task_stack : list TaskNode)
    (global_context : string) : Gen (list TaskNode * string) :=
  let depth := depth item in
  let task := task item in
  let prefix := prefix depth in
  match type item with
  | RESUME =>
      yield (msg "status" (prefix +:+ " Context Aggregation...") None);;
      yield (msg "card" ("Sub-tasks completed for: " +:+ fmt task)
                 (Some (prefix +:+ " Context")));;
      ret (task_stack, global_context)
  | _ =>
      let* (val_w, val_h, val_i) := whi_analysis depth task global_context in
      let* exit :=
        if String.eqb val_i "NO"
        then split_block depth task val_w val_h task_stack
        else ret (FallThrough task_stack val_i) in
      match exit with
      | Continue task_stack => ret (task_stack, global_context)
      | FallThrough task_stack val_i =>
          if String.eqb val_i "YES"
          then let* global_context := execute_leaf depth task val_w val_h global_context in
               ret (task_stack, global_context)
          else ret (task_stack, global_context)
      end
  end.

(** [while task_stack:], at most [fuel] iterations; the result is the
    final [global_context]. *)
Fixpoint while_stack (fuel : nat) (task_stack : list TaskNode)
    (global_context : string) : Gen string :=
  match pop task_stack with
  | None => ret global_context
  | Some (item, task_stack) =>
      match fuel with
      | O => out_of_fuel
      | S fuel' =>
          let* (task_stack, global_context) := loop_body item task_stack global_context in
          while_stack fuel' task_stack global_context
      end
  end.

(** Lines 104-108: the context a run starts from. *)
Definition initial_context (history : list Turn) : string :=
  match history with
  | [] => EmptyString
  | _ =>
      fold_left
        (fun ctx m =>
           ctx +:+ (if String.eqb (role m) "user" then "User" else "AI") +:+ ": " +:+
           content m +:+ nl)
        (Py.last_n 6 history)
        ("Prior Chat History:" +:+ nl)
  end.

(** [process_pipeline(original_prompt, session_id, settings)]; [settings]
    is not read.  [fuel] bounds the iterations of the loop. *)
Definition process_pipeline (fuel : nat) (original_prompt session_id : string) : Gen unit :=
  let* E := get_engine in
  match get_session E session_id with
  | None => ret tt
  | Some sess =>
      yield (msg "status" "Initializing WHIS-ReAct Protocol..." None);;
      let global_context := initial_context (history sess) in
      let task_stack := [{| depth := 1; task := PyStr original_prompt; type := MAIN |}] in
      let* _ := while_stack fuel task_stack global_context in
      append_turn session_id {| role := "user"; content := original_prompt |};;
      yield (msg "done" "Ready" None)
  end.

End Defs.
End MultiAgentSystem.

(** ** MAS.py: the stage pipeline *)

Module MAS.
Section Defs.
Context `{Ext : Externals}.
Local Open Scope gen_scope.

(** The [settings] dictionary of a request; a key may be absent. *)
Record Settings := mkSettings {
  auto_mode : bool;
  temp : option Q;
  manual_protocols : option Flags
  }.

(** The keyword arguments [CoreEngine.inference] passes on; every call
    site leaves [max_tokens] and [stop] at their defaults. *)
Definition request (prompt : string) (temp : Q) (stream : bool) : Request :=
  let sys_p := "<|system|>" +:+ nl +:+ "System" +:+ nl +:+ "<|user|>" +:+ nl in
  {| rq_prompt := sys_p +:+ prompt +:+ nl +:+ "<|assistant|>" +:+ nl;
     rq_temperature := temp;
     rq_max_tokens := 4096;
     rq_stop := ["<|user|>"];
     rq_stream := stream |}.

(** [CoreEngine.inference(prompt, temp)] with [stream=False]: [None] when
    no model is loaded, otherwise the text of the completion. *)
Definition inference (site prompt : string) (temp : Q) : Gen (option string) :=
  ask site prompt;;
  on_model (fun m => create_completion m (request prompt temp false)).

(** [CoreEngine.inference(prompt, temp, stream=True)]: [None] when no
    model is loaded, otherwise the chunks of the stream and the exception
    that ends it, if any. *)
Definition inference_stream (site prompt : string) (temp : Q)
    : Gen (option (list string * option string)) :=
  ask site prompt;;
  on_model (fun m => create_stream m (request prompt temp true)).

Definition default_flags : Flags :=
  [("facts", true); ("plan", true); ("simulation", true)].

(** [[k for k, v in j.items() if v]] *)
Definition selected (j : Flags) : list string :=
  map fst (filter (fun kv => Is_true (snd kv)) j).

(** Lines 96-102 *)
Definition selector (prompt : string) : string :=
  "Task: " +:+ prompt +:+ nl +:+
  "Identify required protocols. Output JSON boolean." +:+ nl +:+
  "Keys: facts, deep, topology, plan, debate, simulation, audit." +:+ nl +:+
  "Example: {" +:+ Py.quoted "facts" +:+ ": true, " +:+ Py.quoted "deep" +:+ ": false}" +:+ nl +:+
  "JSON:".

(** Lines 92-111: the flags of the run. *)
Definition select_features (prompt : string) (settings : Settings) : Gen Flags :=
  let feats := match manual_protocols settings with Some f => f | None => [] end in
  if auto_mode settings then
    yield (msg "status" "Dynamic Protocol Selection..." None);;
    let selector := selector prompt in
    let* res := inference "selector" selector (1 # 10) in
    match res with
    | Some txt =>
        match json_loads_object
                (Py.slice txt (Py.find "{"%char txt) (Py.rfind "}"%char txt + 1)) with
        | Some j =>
            yield (msg "log" ("Auto-Selected: " +:+ Py.join ", " (selected j)) None);;
            ret j
        | None => ret default_flags
        end
    | None => ret feats
    end
  else ret feats.

(** Lines 113-116 *)
Definition history_txt (history : list Turn) : string :=
  fold_left
    (fun txt m =>
       txt +:+ (if String.eqb (role m) "user" then "User" else "Assistant") +:+ ": " +:+
       content m +:+ nl)
    (Py.last_n 4 history) EmptyString.

(** Lines 123-128; the result is [cfs]. *)
Definition facts_stage (prompt : string) (feats : Flags) : Gen string :=
  if flag feats "facts" then
    yield (msg "status" "0.0 Parmenides (Facts)" None);;
    let* r := inference "facts" ("Extract Axioms & Constraints:" +:+ nl +:+ prompt) (1 # 10) in
    match r with
    | Some text =>
        let cfs := Py.strip text in
        yield (msg "card" cfs (Some "Facts"));;
        ret cfs
    | None => ret EmptyString
    end
  else ret EmptyString.

(** Lines 130-133 *)
Definition deep_stage (prompt : string) (feats : Flags) (cfs : string) : Gen unit :=
  if flag feats "deep" then
    yield (msg "status" "14.0 Noesis (Deep Analysis)" None);;
    let* r := inference "deep" ("Deep Analysis:" +:+ nl +:+ prompt +:+ nl +:+ "Context: " +:+ cfs)
                        (6 # 10) in
    match r with
    | Some text => yield (msg "card" (Py.strip text) (Some "Analysis"))
    | None => ret tt
    end
  else ret tt.

(** Lines 135-138 *)
Definition topology_stage (prompt : string) (feats : Flags) : Gen unit :=
  if flag feats "topology" then
    yield (msg "status" "16.0 Utias (Topology)" None);;
    let* r := inference "topology" ("Dependency Mapping:" +:+ nl +:+ prompt) (2 # 10) in
    match r with
    | Some text => yield (msg "card" (Py.strip text) (Some "Topology"))
    | None => ret tt
    end
  else ret tt.

(** Lines 140-144; the result is [feb]. *)
Definition blueprint_stage (prompt cfs : string) : Gen string :=
  yield (msg "status" "0-Phase Prometheus (Blueprint)" None);;
  let* r := inference "blueprint" ("Execution Blueprint:" +:+ nl +:+ prompt +:+ nl +:+ "Facts: " +:+ cfs)
                      (3 # 10) in
  match r with
  | Some text =>
      let feb := Py.strip text in
      yield (msg "card" feb (Some "Blueprint"));;
      ret feb
  | None => ret EmptyString
  end.

(** [ENGINE.inference(...)['choices'][0]['text']]: the result is
    subscripted as it comes. *)
Definition inference_text (site prompt : string) (temp : Q) : Gen string :=
  let* r := inference site prompt temp in
  match r with
  | Some text => ret text
  | None => raise TypeError
  end.

(** Lines 146-158; the result is [final_plan]. *)
Definition debate_stage (feats : Flags) (feb : string) : Gen string :=
  let final_plan := feb in
  if flag feats "debate" then
    yield (msg "status" "5.0 Agon (Multi-Agent)" None);;
    yield (msg "log" "Strategos Alpha..." None);;
    let* p1 := inference_text "p1" ("Safe Plan:" +:+ nl +:+ feb) (2 # 10) in
    yield (msg "log" "Strategos Beta..." None);;
    let* p2 := inference_text "p2" ("Risky Plan:" +:+ nl +:+ feb) (8 # 10) in
    yield (msg "log" "Dikastes Verdict..." None);;
    let* v := inference "v" ("Select Best:" +:+ nl +:+ "A: " +:+ p1 +:+ nl +:+ "B: " +:+ p2)
                        (1 # 10) in
    match v with
    | Some text =>
        let final_plan := Py.strip text in
        yield (msg "card" final_plan (Some "Verdict"));;
        ret final_plan
    | None => ret final_plan
    end
  else ret final_plan.

(** [for chunk in stream: ... yield msg("token", txt)] *)
Fixpoint yield_tokens (chunks : list string) : Gen unit :=
  match chunks with
  | [] => ret tt
  | txt :: chunks' => yield (msg "token" txt None);; yield_tokens chunks'
  end.

(** Lines 160-173; the result is [full_resp].  The loop over the stream
    is not inside a [try]: an exception of the stream leaves the
    generator. *)
Definition execution_stage (prompt final_plan history_txt : string)
    (settings : Settings) : Gen string :=
  yield (msg "status" "19.0 Hephaestus (Execution)" None);;
  let* stream :=
    inference_stream "stream"
      ("Task: " +:+ prompt +:+ nl +:+ "Plan: " +:+ final_plan +:+ nl +:+
       "History: " +:+ history_txt +:+ nl +:+ "Execute.")
      (match temp settings with Some t => t | None => 7 # 10 end) in
  match stream with
  | Some (chunks, error) =>
      yield_tokens chunks;;
      match error with
      | Some e => raise (StreamError e)
      | None => ret (fold_left String.app chunks EmptyString)
      end
  | None => ret EmptyString
  end.

(** Lines 175-187; the result is [full_resp]. *)
Definition simulation_stage (feats : Flags) (full_resp : string) : Gen string :=
  if flag feats "simulation" && Py.contains "```" full_resp then
    yield (msg "status" "26.0 Basanos (Simulation)" None);;
    let* r := inference "simulation" ("Simulate code execution. Output Logs:" +:+ nl +:+ full_resp)
                        (1 # 10) in
    match r with
    | Some text =>
        let logs := Py.strip text in
        yield (msg "card" logs (Some "Sim Logs"));;
        if Py.contains "Error" logs || Py.contains "Traceback" logs then
          yield (msg "status" "4.5 Anakainosis (Repair)" None);;
          let* f := inference "f" ("Fix code using logs:" +:+ nl +:+ "Code: " +:+ full_resp +:+ nl +:+
                               "Logs: " +:+ logs) (1 # 10) in
          match f with
          | Some text =>
              let fix_ := Py.strip text in
              let repair := nl +:+ nl +:+ "### Auto-Repair" +:+ nl +:+ fix_ in
              yield (msg "token" repair None);;
              ret (full_resp +:+ repair)
          | None => ret full_resp
          end
        else ret full_resp
    | None => ret full_resp
    end
  else ret full_resp.

(** Lines 189-192 *)
Definition audit_stage (feats : Flags) (full_resp : string) : Gen unit :=
  if flag feats "audit" then
    yield (msg "status" "29.0 Praetorian (Audit)" None);;
    let* r := inference "audit" ("Security Audit:" +:+ nl +:+ full_resp) (1 # 10) in
    match r with
    | Some text => yield (msg "card" (Py.strip text) (Some "Audit"))
    | None => ret tt
    end
  else ret tt.

(** Lines 194-197 *)
Definition finalize (prompt session_id full_resp : string) : Gen unit :=
  yield (msg "status" "10.0 Kerberos (Final Gateway)" None);;
  append_turn session_id {| role := "user"; content := prompt |};;
  append_turn session_id {| role := "assistant"; content := full_resp |};;
  yield (msg "done" "Ready" None).

(** [process_pipeline(prompt, session_id, settings)] *)
Definition process_pipeline (prompt session_id : string) (settings : Settings) : Gen unit :=
  let* E := get_engine in
  match get_session E session_id with
  | None => ret tt
  | Some sess =>
      yield (msg "status" "Initializing SSESIS v1.0..." None);;
      let* feats := select_features prompt settings in
      let history_txt := history_txt (history sess) in
      yield (msg "status" "Apollo Integrity Check" None);;
      let* cfs := facts_stage prompt feats in
      deep_stage prompt feats cfs;;
      topology_stage prompt feats;;
      let* feb := blueprint_stage prompt cfs in
      let* final_plan := debate_stage feats feb in
      let* full_resp := execution_stage prompt final_plan history_txt settings in
      let* full_resp := simulation_stage feats full_resp in
      audit_stage feats full_resp;;
      finalize prompt session_id full_resp
  end.

End Defs.
End MAS.

(** ** A scripted gateway, to run the two pipelines on concrete inputs *)

Module Scripted.

(** The replies the model will give: the texts of its next non-streaming
    completions and its next streams, in order.  A model whose script is
    used up answers with the empty text, or the empty stream; on the
    strict gateway below its call raises instead. *)
Record Script := mkScript {
  texts : list string;
  streams : list (list string * option string)
}.

Definition next_text (m : Script) (rq : Request) : string * Script :=
  match texts m with
  | [] => (EmptyString, m)
  | t :: ts => (t, {| texts := ts; streams := streams m |})
  end.

Definition next_stream (m : Script) (rq : Request)
    : list string * option string * Script :=
  match streams m with
  | [] => ([], None, m)
  | (chunks, error) :: ss => (chunks, error, {| texts := texts m; streams := ss |})
  end.

Definition two_subtasks : string :=
  "[" +:+ Py.quoted "Design schema" +:+ ", " +:+ Py.quoted "Write handlers" +:+ "]".

Definition two_flags : string :=
  "{" +:+ Py.quoted "facts" +:+ ":true," +:+ Py.quoted "debate" +:+ ":true}".

(** A decoder that knows the JSON texts of the examples and rejects
    every other span. *)
Definition loads_array (span : string) : option (list PyVal) :=
  if String.eqb span two_subtasks
  then Some [PyStr "Design schema"; PyStr "Write handlers"]
  else if String.eqb span "[1, 2]" then Some [PyOther "1"; PyOther "2"]
  else if String.eqb span "[]" then Some []
  else None.

Definition loads_object (span : string) : option Flags :=
  if String.eqb span two_flags then Some [("facts", true); ("debate", true)]
  else if String.eqb span "{}" then Some []
  else None.

(** The case mappings are the ASCII ones, which is what [str.upper] and
    [str.lower] do on the ASCII texts of the examples. *)
Definition ext : Externals :=
  {| Llama := Script;
     timestamp := Z;
     create_completion := fun m rq => let '(t, m') := next_text m rq in (Returned t, m');
     create_stream := fun m rq =>
       let '(chunks, error, m') := next_stream m rq in (Returned (chunks, error), m');
     json_loads_object := loads_object;
     json_loads_array := loads_array;
     upper := Py.upper;
     lower := Py.lower |}.

(** The message of the exception of a call. *)
Definition overflow : string := "Requested tokens exceed context window".

(** The same gateway, but for a script that is used up: there the call
    raises. *)
Definition strict : Externals :=
  {| Llama := Script;
     timestamp := Z;
     create_completion := fun m rq =>
       match texts m with
       | [] => (Raised overflow, m)
       | _ => let '(t, m') := next_text m rq in (Returned t, m')
       end;
     create_stream := fun m rq =>
       match streams m with
       | [] => (Raised overflow, m)
       | _ => let '(chunks, error, m') := next_stream m rq in (Returned (chunks, error), m')
       end;
     json_loads_object := loads_object;
     json_loads_array := loads_array;
     upper := Py.upper;
     lower := Py.lower |}.

(** An engine with one session, [sid], and the given model. *)
Definition engine (m : option Script) (sid : string) (h : list Turn)
    : @CoreEngine ext :=
  @mkEngine ext m {[ sid := @mkSession ext sid "New Operation" h 0%Z ]}.

(** The engine before any model is loaded. *)
Definition no_model : @CoreEngine ext := engine None "s1" [].

(** An engine on the strict gateway, with one session, [sid]. *)
Definition strict_engine (m : option Script) (sid : string) (h : list Turn)
    : @CoreEngine strict :=
  @mkEngine strict m {[ sid := @mkSession strict sid "New Operation" h 0%Z ]}.

(** A model that finds the request simple and streams the answer. *)
Definition simple_model : Script :=
  {| texts := ["NO"]; streams := [(["4"], None)] |}.

(** A model that wants a plan, says the task is not a single step, and
    answers the request for sub-tasks with [reply]; its next two router
    answers are NO, its second stream breaks. *)
Definition splitting_model (reply : string) : Script :=
  {| texts := ["YES"; "Build it"; "design; write"; "NO"; reply; "NO"; "NO"];
     streams := [(["a"], None); (["b"; "c"], Some "boom")] |}.

(** A model whose answer to the selector holds no JSON. *)
Definition vague_model : Script :=
  {| texts := ["I would use facts."]; streams := [] |}.

(** Settings of the pipeline used in the examples. *)
Definition debate_only : MAS.Settings :=
  {| MAS.auto_mode := false; MAS.temp := None;
     MAS.manual_protocols := Some [("debate", true)] |}.

Definition auto_audit : MAS.Settings :=
  {| MAS.auto_mode := true; MAS.temp := None;
     MAS.manual_protocols := Some [("audit", true)] |}.

End Scripted.

(** ** The session store: the other methods of [CoreEngine], and the
    routes on them *)

Section SessionStore.
Context `{Ext : Externals}.

(** [CoreEngine.create_session(title)]; [uid] is the value of
    [str(uuid.uuid4())] and [now] the value of [time.time()] in the call.
    An entry already stored under [uid] is replaced. *)
Definition create_session (uid : string) (now : timestamp) (title : string)
    (E : CoreEngine) : string * CoreEngine :=
  (uid,
   {| model := model E;
      sessions := <[uid := {| id := uid; title := title; history := [];
                              created := now |}]> (sessions E) |}).

(** [CoreEngine.delete_session(uid)] *)
Definition delete_session (uid : string) (E : CoreEngine) : CoreEngine :=
  match sessions E !! uid with
  | Some _ => {| model := model E; sessions := delete uid (sessions E) |}
  | None => E
  end.

(** The route [/get_history] of MAS.py: [s['history'] if s else []]. *)
Definition get_history (uid : string) (E : CoreEngine) : list Turn :=
  match get_session E uid with
  | Some s => history s
  | None => []
  end.

(** Python's [<] on two values of [time.time()]. *)
Variable created_lt : timestamp -> timestamp -> bool.

(** One step of the stable descending sort: [x], which stood before the
    sessions of [l] in the input, goes before the first of them that is not
    strictly newer. *)
Fixpoint insert_newest_first (x : Session) (l : list Session) : list Session :=
  match l with
  | [] => [x]
  | y :: l' =>
      if created_lt (created x) (created y)
      then y :: insert_newest_first x l'
      else x :: l
  end.

(** [CoreEngine.list_sessions()]:
    [sorted(values, key=lambda x: x['created'], reverse=True)].  [values]
    is [self.sessions.values()], in the insertion order of the dictionary,
    which the finite map of this embedding does not keep.  [sorted]
    compares keys with [<] only and is stable, also under [reverse=True]:
    sessions with equal keys stay in the order of [values]. *)
Definition list_sessions (values : list Session) : list Session :=
  foldr insert_newest_first [] values.

End SessionStore.

(** ** The vocabulary of the properties *)

Section Vocabulary.
Context `{Ext : Externals}.
Import MultiAgentSystem.

(** An event that is not the terminal one and, when it is a card, names
    its target. *)
Definition Quiet (e : Event) : Prop :=
  ev_type e <> "done" /\ (ev_type e = "card" -> ev_target e <> None).

(** Engine states that differ at most in the state of a loaded model. *)
Definition same_store (E E' : CoreEngine) : Prop :=
  sessions E' = sessions E /\ (model E' = None <-> model E = None).

(** [m], started in [E], leaves the session map alone, neither loads nor
    unloads the model, and yields quiet events only. *)
Definition tame_at {A} (m : Gen A) (E : CoreEngine) : Prop :=
  forall r E' tr, m E = (r, E', tr) ->
    same_store E E' /\ Forall Quiet (events tr).

(** The same from every state. *)
Definition tame {A} (m : Gen A) : Prop := forall E, tame_at m E.

(** The stream of a run: at most one [done] event, nothing after a [done]
    event, and a target on every card. *)
Definition well_formed (evs : list Event) : Prop :=
  length (filter (fun e => ev_type e = "done") evs) <= 1 /\
  (forall before e after,
     evs = before ++ e :: after -> ev_type e = "done" -> after = []) /\
  (forall e, e ∈ evs -> ev_type e = "card" -> ev_target e <> None).

(** [m] yields quiet events and then, at most, one final [done]. *)
Definition closing {A} (m : Gen A) : Prop :=
  forall E r E' tr, m E = (r, E', tr) ->
    Forall Quiet (events tr) \/
    exists evs d, events tr = evs ++ [d] /\ Forall Quiet evs /\ ev_type d = "done".

(** From [E] to [E'] nothing happened to the session map but turns being
    appended to the history of [sid]. *)
Definition only_appends (sid : string) (E E' : CoreEngine) : Prop :=
  (forall uid, uid <> sid -> sessions E' !! uid = sessions E !! uid) /\
  (forall s, sessions E !! sid = Some s ->
     exists s' turns,
       sessions E' !! sid = Some s' /\
       id s' = id s /\ title s' = title s /\ created s' = created s /\
       history s' = history s ++ turns).

(** Every run of [m] relates the state it starts from to the state it
    ends in by [R]. *)
Definition preserves (R : CoreEngine -> CoreEngine -> Prop) {A} (m : Gen A) : Prop :=
  forall E r E' tr, m E = (r, E', tr) -> R E E'.

(** The store after a run on the session [sess] stored under [sid]. *)
Definition history_extended (sid : string) (sess : Session) (E E' : CoreEngine) : Prop :=
  (forall uid, uid <> sid -> sessions E' !! uid = sessions E !! uid) /\
  exists sess' turns,
    sessions E' !! sid = Some sess' /\
    id sess' = id sess /\ title sess' = title sess /\ created sess' = created sess /\
    history sess' = history sess ++ turns.

(** [Q] holds of what [m] does when started in [E]. *)
Definition wp {A} (m : Gen A) (E : CoreEngine)
    (Q : Res A -> CoreEngine -> Trace -> Prop) : Prop :=
  let '(r, E', tr) := m E in Q r E' tr.

(** The status event that opens the execution of a leaf. *)
Definition executing (d : nat) : Action :=
  Yield (msg "status" (prefix d +:+ " Status: CLEAR. Executing...") None).

(** The token events of a stream. *)
Definition tokens (chunks : list string) : Trace :=
  map (fun txt => Yield (msg "token" txt None)) chunks.

(** The token that reports an exception of the stream, if there was one. *)
Definition error_token (error : option string) : Trace :=
  match error with
  | Some e => [Yield (msg "token" (nl +:+ "[Error: " +:+ e +:+ "]") None)]
  | None => []
  end.

(** The result of an iteration on a stack, had [below] lain under that
    stack. *)
Definition under (below : list TaskNode) (r : Res (list TaskNode * string))
    : Res (list TaskNode * string) :=
  match r with
  | Ok (stack, ctx) => Ok (below ++ stack, ctx)
  | Raise e => Raise e
  | OutOfFuel => OutOfFuel
  end.

(** The same for the exits of the split block. *)
Definition under_exit (below : list TaskNode) (x : SplitExit) : SplitExit :=
  match x with
  | Continue stack => Continue (below ++ stack)
  | FallThrough stack val_i => FallThrough (below ++ stack) val_i
  end.

(** A model is loaded. *)
Definition loaded (E : CoreEngine) : Prop := model E <> None.

(** How far a node is from being worked off: a RESUME node is, at once;
    another node may be split as long as its depth is below [MAX_DEPTH]. *)
Definition height (node : TaskNode) : nat :=
  match type node with
  | RESUME => 0
  | _ => S (MAX_DEPTH - depth node)
  end.



End Vocabulary.

(** ** More vocabulary *)

Section MoreVocabulary.
Context `{Ext : Externals}.

(** The terminal event. *)
Definition done_event : Event := msg "done" "Ready" None.

(** [m] ends with the terminal event when it returns, and yields none
    when it does not. *)
Definition finishing {A} (m : Gen A) : Prop :=
  forall E r E' tr, m E = (r, E', tr) ->
    match r with
    | Ok _ => last (events tr) = Some done_event
    | _ => Forall Quiet (events tr)
    end.

(** The text of the token events of a trace, in order: what the client
    has been shown of the response. *)
Fixpoint spoken (tr : Trace) : string :=
  match tr with
  | [] => EmptyString
  | Yield e :: tr' =>
      if String.eqb (ev_type e) "token" then ev_content e +:+ spoken tr' else spoken tr'
  | Ask _ _ :: tr' => spoken tr'
  end.

(** [m] yields no token. *)
Definition silent {A} (m : Gen A) : Prop :=
  forall E, wp m E (fun _ _ tr => spoken tr = EmptyString).

(** The call sites [m] reaches are among [L], in the order of [L], each
    at most once. *)
Definition asks_within {A} (L : list string) (m : Gen A) : Prop :=
  forall E, wp m E (fun _ _ tr => sublist (sites tr) L).

(** The ways the gateway makes a run of the pipeline fail: a [TypeError]
    from subscripting the [None] it returns without a model, and the
    exceptions of the library, raised by a call or while a stream is
    iterated, which take a model. *)
Definition failure_of_gateway {A} (E : CoreEngine) (r : Res A) : Prop :=
  match r with
  | Ok _ => True
  | Raise TypeError => model E = None
  | Raise (StreamError _) => model E <> None
  | Raise (CompletionError _) => model E <> None
  | Raise AttributeError => False
  | OutOfFuel => False
  end.

Definition fails_by_gateway {A} (m : Gen A) : Prop :=
  forall E, wp m E (fun r _ _ => failure_of_gateway E r).

(** The keys of the flags the stages look up. *)
Definition read_flags : list string :=
  ["facts"; "deep"; "topology"; "debate"; "simulation"; "audit"].

(** Two sets of flags that agree on those keys. *)
Definition agree (f1 f2 : Flags) : Prop :=
  Forall (fun k => flag f1 k = flag f2 k) read_flags.

(** What [finalize] leaves in the store when the response so far is
    [pre] followed by the tokens of the rest of the run. *)
Definition stored (sid : string) (before : list Turn) (p pre : string)
    (r : Res unit) (E' : CoreEngine) (tr : Trace) : Prop :=
  r = Ok tt ->
  get_history sid E' =
    before ++ [mkTurn "user" p; mkTurn "assistant" (pre +:+ spoken tr)].

(** The call sites of the pipeline after the selection of the flags, in
    the order of the stages, each under its flag. *)
Definition gated (feats : Flags) : list string :=
  (if flag feats "facts" then ["facts"] else []) ++
  (if flag feats "deep" then ["deep"] else []) ++
  (if flag feats "topology" then ["topology"] else []) ++
  ["blueprint"] ++
  (if flag feats "debate" then ["p1"; "p2"; "v"] else []) ++
  ["stream"] ++
  (if flag feats "simulation" then ["simulation"; "f"] else []) ++
  (if flag feats "audit" then ["audit"] else []).

(** The call sites of one iteration of the decomposition engine, in the
    order of the source. *)
Definition node_sites : list string :=
  ["p_router"; "p_what"; "p_how"; "p_is"; "p_split"; "prompt_exec"].

(** The depths a node of the stack may have. *)
Definition depth_ok (node : MultiAgentSystem.TaskNode) : Prop :=
  1 <= MultiAgentSystem.depth node <= MultiAgentSystem.MAX_DEPTH.

(** Without a model [m] returns [a], leaves the state as it was and
    yields no token. *)
Definition idle {A} (m : Gen A) (a : A) : Prop :=
  forall ss, exists tr,
    m (mkEngine None ss) = (Ok a, mkEngine None ss, tr) /\ spoken tr = EmptyString.

(** A run of [m] that does not return leaves the session map as it
    was. *)
Definition all_or_nothing {A} (m : Gen A) : Prop :=
  forall E r E' tr, m E = (r, E', tr) ->
    (forall a, r <> Ok a) -> sessions E' = sessions E.

End MoreVocabulary.

(** * Properties *)

(** ** The string operations *)

Example upper_yes : Py.upper "Yes, it is." = "YES, IT IS.".
Proof. reflexivity. Qed.

Example contains_no : Py.contains "NO" (Py.upper "I do not know") = true.
Proof. reflexivity. Qed.

Example replace_ticks : Py.replace "`" EmptyString "a`b``c" = "abc".
Proof. reflexivity. Qed.

Example replace_word : Py.replace "Context:" EmptyString "x Context: y Context:" = "x  y ".
Proof. reflexivity. Qed.

Example strip_both : Py.strip "  a b
 " = "a b".
Proof. reflexivity. Qed.

Example slice_neg : Py.slice "ab}" (Py.find "{"%char "ab}") (Py.rfind "}"%char "ab}" + 1) = "}".
Proof. reflexivity. Qed.

Example slice_obj : Py.slice "x {a} y" (Py.find "{"%char "x {a} y") (Py.rfind "}"%char "x {a} y" + 1) = "{a}".
Proof. reflexivity. Qed.

Example search_two : Py.search_brackets "a [1] b [2] c" = Some "[1] b [2]".
Proof. reflexivity. Qed.

Example search_none : Py.search_brackets "not json" = None.
Proof. reflexivity. Qed.

Example search_truncated :
  Py.search_brackets ("[" +:+ Py.quoted "a" +:+ ", " +:+ Py.quoted "b") = None.
Proof. reflexivity. Qed.

Example str_of_nat_12 : Py.str_of_nat 12 = "12".
Proof. reflexivity. Qed.

Section StringFacts.

Lemma app_empty (t : string) : EmptyString +:+ t = t.
Proof. reflexivity. Qed.

Lemma app_String (c : ascii) (s t : string) :
  String c s +:+ t = String c (s +:+ t).
Proof. reflexivity. Qed.

Lemma substring_all (s : string) : substring 0 (String.length s) s = s.
Proof. induction s as [|c s IH]; simpl; [reflexivity | by f_equal]. Qed.

Lemma substring_split (s : string) (n : nat) :
  n <= String.length s ->
  s = substring 0 n s +:+ substring n (String.length s - n) s.
Proof.
  revert n; induction s as [|c s IH]; intros [|n] Hn; simpl in *; try lia;
    rewrite ?app_empty, ?app_String; try reflexivity.
  - by rewrite substring_all.
  - f_equal. apply IH. lia.
Qed.

Lemma substring_length (s : string) (n m : nat) :
  n + m <= String.length s -> String.length (substring n m s) = m.
Proof.
  revert n m; induction s as [|c s IH]; intros [|n] [|m] Hn; simpl in *;
    try lia; try reflexivity.
  - f_equal. apply IH. lia.
  - apply IH. lia.
  - apply IH. lia.
Qed.

Lemma app_length (s t : string) :
  String.length (s +:+ t) = String.length s + String.length t.
Proof.
  induction s as [|c s IH]; rewrite ?app_empty, ?app_String; simpl;
    [reflexivity | by rewrite IH].
Qed.

Lemma app_assoc_s (s t u : string) : (s +:+ t) +:+ u = s +:+ (t +:+ u).
Proof.
  induction s as [|c s IH]; rewrite ?app_empty, ?app_String;
    [reflexivity | by rewrite IH].
Qed.

End StringFacts.

(** ** The context aggregator of the decomposition engine *)

Section PruneContext.
Import MultiAgentSystem.

Lemma prune_context_long (ctx : string) (limit : nat) :
  0 < limit -> limit < String.length ctx ->
  exists dropped kept,
    ctx = dropped +:+ kept /\ String.length kept = limit /\
    prune_context_limit ctx (Z.of_nat limit) = truncation_marker +:+ kept.
Proof.
  intros Hpos Hlong.
  exists (substring 0 (String.length ctx - limit) ctx),
         (substring (String.length ctx - limit) limit ctx).
  split; [|split].
  - rewrite (substring_split ctx (String.length ctx - limit)) at 1 by lia.
    do 2 f_equal. lia.
  - apply substring_length. lia.
  - unfold prune_context_limit, Py.slice_from, Py.bound, Py.len.
    destruct (Z.ltb_spec (Z.of_nat limit) (Z.of_nat (String.length ctx))); [|lia].
    destruct (Z.ltb_spec (- Z.of_nat limit) 0); [|lia].
    do 2 f_equal; lia.
Qed.

Lemma prune_context_short (ctx : string) (limit : Z) :
  (Py.len ctx <= limit)%Z -> prune_context_limit ctx limit = ctx.
Proof.
  intros H. unfold prune_context_limit.
  destruct (Z.ltb_spec limit (Py.len ctx)); [lia | reflexivity].
Qed.

(** C8.  A context longer than 4000 characters is pruned to the marker
    "...(truncated)" and a line feed followed by exactly its last 4000
    characters: the pruned copy holds 4015 characters and begins with the
    marker, it is never the bare trailing slice.  A context of at most
    4000 characters is returned as it is. *)
Theorem prune_context_trailing (ctx : string) :
  ((4000 < Py.len ctx)%Z ->
     exists dropped kept,
       ctx = dropped +:+ kept /\ String.length kept = 4000 /\
       prune_context ctx = "...(truncated)" +:+ String "010"%char kept /\
       String.length (prune_context ctx) = 4015 /\
       prune_context ctx <> kept) /\
  ((Py.len ctx <= 4000)%Z -> prune_context ctx = ctx).
Proof.
  split.
  - intros H.
    destruct (prune_context_long ctx 4000) as (dropped & kept & Hctx & Hk & Hp);
      [lia | unfold Py.len in H; lia |].
    exists dropped, kept. split; [exact Hctx |]. split; [exact Hk |].
    assert (prune_context ctx = "...(truncated)" +:+ String "010"%char kept) as Heq.
    { change (prune_context ctx) with (prune_context_limit ctx (Z.of_nat 4000)).
      rewrite Hp. unfold truncation_marker, nl. by rewrite app_assoc_s. }
    assert (String.length (prune_context ctx) = 4015) as Hlen.
    { rewrite Heq, app_length. simpl. lia. }
    split; [exact Heq |]. split; [exact Hlen |].
    intros Hbare. rewrite Hbare in Hlen. lia.
  - apply prune_context_short.
Qed.

End PruneContext.

(** ** Generators: what every piece of either pipeline preserves *)

Section GenFacts.
Context `{Ext : Externals}.

Lemma events_app (tr1 tr2 : Trace) : events (tr1 ++ tr2) = events tr1 ++ events tr2.
Proof.
  induction tr1 as [|[e|site p] tr1 IH]; simpl; [reflexivity | by rewrite IH | exact IH].
Qed.

Lemma sites_app (tr1 tr2 : Trace) : sites (tr1 ++ tr2) = sites tr1 ++ sites tr2.
Proof.
  induction tr1 as [|[e|site p] tr1 IH]; simpl; [reflexivity | exact IH | by rewrite IH].
Qed.

Lemma same_store_refl (E : CoreEngine) : same_store E E.
Proof. by split. Qed.

Lemma same_store_trans (E1 E2 E3 : CoreEngine) :
  same_store E1 E2 -> same_store E2 E3 -> same_store E1 E3.
Proof. intros [H1 H2] [H3 H4]. split; [congruence | tauto]. Qed.

Lemma tame_ret {A} (a : A) : tame (ret a).
Proof. intros E r E' tr [= <- <- <-]. split; [apply same_store_refl | constructor]. Qed.

Lemma tame_raise {A} (e : Exn) : tame (@raise _ A e).
Proof. intros E r E' tr [= <- <- <-]. split; [apply same_store_refl | constructor]. Qed.

Lemma tame_out_of_fuel {A} : tame (@out_of_fuel _ A).
Proof. intros E r E' tr [= <- <- <-]. split; [apply same_store_refl | constructor]. Qed.

Lemma tame_ask (site p : string) : tame (ask site p).
Proof. intros E r E' tr [= <- <- <-]. split; [apply same_store_refl | constructor]. Qed.

Lemma tame_yield (e : Event) : Quiet e -> tame (yield e).
Proof.
  intros He E r E' tr [= <- <- <-]. split; [apply same_store_refl |].
  simpl. by constructor.
Qed.

Lemma tame_at_bind {A B} (m : Gen A) (k : A -> Gen B) (E : CoreEngine) :
  tame_at m E -> (forall a, tame (k a)) -> tame_at (bind m k) E.
Proof.
  intros Hm Hk r E' tr. unfold bind.
  destruct (m E) as [[r1 E1] tr1] eqn:Em.
  destruct (Hm _ _ _ Em) as [Hs1 Hq1].
  destruct r1 as [a|e|].
  - destruct (k a E1) as [[r2 E2] tr2] eqn:Ek.
    destruct (Hk a E1 _ _ _ Ek) as [Hs2 Hq2].
    intros [= <- <- <-]. split; [by eapply same_store_trans |].
    rewrite events_app. by apply Forall_app.
  - by intros [= <- <- <-].
  - by intros [= <- <- <-].
Qed.

Lemma tame_bind {A B} (m : Gen A) (k : A -> Gen B) :
  tame m -> (forall a, tame (k a)) -> tame (bind m k).
Proof. intros Hm Hk E. by apply tame_at_bind. Qed.

Lemma tame_get_engine : tame get_engine.
Proof. intros E r E' tr [= <- <- <-]. split; [apply same_store_refl | constructor]. Qed.

Lemma tame_on_model {A} (f : Llama -> Reply A * Llama) : tame (on_model f).
Proof.
  intros E r E' tr. unfold on_model.
  destruct (model E) as [m|] eqn:Hm.
  - destruct (f m) as [[a|message] m']; intros [= <- <- <-].
    all: split; [|constructor]; split; simpl; [reflexivity | by rewrite Hm].
  - intros [= <- <- <-]. split; [apply same_store_refl | constructor].
Qed.

Lemma tame_call_model {A} (site p : string) (f : Llama -> Reply A * Llama) :
  tame (call_model site p f).
Proof.
  intros E r E' tr. unfold call_model.
  destruct (model E) as [m|] eqn:Hm.
  - destruct (f m) as [[a|message] m']; intros [= <- <- <-].
    all: split; [|constructor]; split; simpl; [reflexivity | by rewrite Hm].
  - intros [= <- <- <-]. split; [apply same_store_refl | constructor].
Qed.

End GenFacts.

(** Steps through a goal [tame m], [m] built from binds, conditionals and
    the primitives. *)
Ltac quiet_event :=
  split; simpl; [discriminate | first [ intros ?; discriminate ]].

Ltac tame_step :=
  lazymatch goal with
  | |- tame (bind _ _) => apply tame_bind; [| intros ?]
  | |- tame (ret _) => apply tame_ret
  | |- tame (raise _) => apply tame_raise
  | |- tame out_of_fuel => apply tame_out_of_fuel
  | |- tame (ask _ _) => apply tame_ask
  | |- tame get_engine => apply tame_get_engine
  | |- tame (on_model _) => apply tame_on_model
  | |- tame (call_model _ _ _) => apply tame_call_model
  | |- tame (yield _) => apply tame_yield; quiet_event
  | |- tame (if ?b then _ else _) => destruct b
  | |- tame (match ?x with _ => _ end) => destruct x
  | |- tame (let (_, _) := ?x in _) => destruct x
  end.

Ltac tame_auto := repeat tame_step.

(** ** The decomposition engine leaves the store alone and yields no
    terminal event before its last line *)

Section DecompositionTame.
Context `{Ext : Externals}.
Import MultiAgentSystem.

Lemma tame_inference (site p : string) (t : Q) (mt : Z) (stop : list string) :
  tame (inference site p t mt stop).
Proof. unfold inference. tame_auto. Qed.

Lemma tame_yield_tokens (chunks : list string) : tame (yield_tokens chunks).
Proof.
  induction chunks as [|txt chunks IH]; simpl; [apply tame_ret |].
  apply tame_bind; [apply tame_yield; quiet_event | by intros _].
Qed.

Lemma tame_whi_analysis (d : nat) (t : PyVal) (ctx : string) :
  tame (whi_analysis d t ctx).
Proof.
  unfold whi_analysis.
  repeat first [ apply tame_inference | tame_step ].
Qed.

Lemma tame_split_block (d : nat) (t : PyVal) (w h : string) (stack : list TaskNode) :
  tame (split_block d t w h stack).
Proof.
  unfold split_block.
  repeat first [ apply tame_inference | tame_step ].
Qed.

Lemma tame_execute_leaf (d : nat) (t : PyVal) (w h ctx : string) :
  tame (execute_leaf d t w h ctx).
Proof.
  unfold execute_leaf.
  repeat first [ apply tame_yield_tokens | tame_step ].
Qed.

Lemma tame_loop_body (item : TaskNode) (stack : list TaskNode) (ctx : string) :
  tame (loop_body item stack ctx).
Proof.
  unfold loop_body.
  repeat first [ apply tame_whi_analysis | apply tame_split_block
               | apply tame_execute_leaf | tame_step ].
Qed.

Lemma tame_while_stack (fuel : nat) (stack : list TaskNode) (ctx : string) :
  tame (while_stack fuel stack ctx).
Proof.
  revert stack ctx; induction fuel as [|fuel IH]; intros stack ctx; simpl;
    destruct (pop stack) as [[item below]|]; try apply tame_ret;
    [apply tame_out_of_fuel|].
  apply tame_bind; [apply tame_loop_body | intros [stack' ctx']; apply IH].
Qed.

End DecompositionTame.

(** ** The stages of the pipeline do the same *)

Section PipelineTame.
Context `{Ext : Externals}.
Import MAS.

Lemma tame_inference_mas (site p : string) (t : Q) : tame (inference site p t).
Proof. unfold inference. tame_auto. Qed.

Lemma tame_inference_stream (site p : string) (t : Q) : tame (inference_stream site p t).
Proof. unfold inference_stream. tame_auto. Qed.

Lemma tame_inference_text (site p : string) (t : Q) : tame (inference_text site p t).
Proof. unfold inference_text. repeat first [ apply tame_inference_mas | tame_step ]. Qed.

Lemma tame_yield_tokens_mas (chunks : list string) : tame (yield_tokens chunks).
Proof.
  induction chunks as [|txt chunks IH]; simpl; [apply tame_ret |].
  apply tame_bind; [apply tame_yield; quiet_event | by intros _].
Qed.

Ltac stage :=
  repeat first [ apply tame_inference_mas | apply tame_inference_stream
               | apply tame_inference_text | apply tame_yield_tokens_mas
               | tame_step ].

Lemma tame_select_features (p : string) (st : Settings) : tame (select_features p st).
Proof. unfold select_features. stage. Qed.

Lemma tame_facts_stage (p : string) (feats : Flags) : tame (facts_stage p feats).
Proof. unfold facts_stage. stage. Qed.

Lemma tame_deep_stage (p : string) (feats : Flags) (cfs : string) :
  tame (deep_stage p feats cfs).
Proof. unfold deep_stage. stage. Qed.

Lemma tame_topology_stage (p : string) (feats : Flags) : tame (topology_stage p feats).
Proof. unfold topology_stage. stage. Qed.

Lemma tame_blueprint_stage (p cfs : string) : tame (blueprint_stage p cfs).
Proof. unfold blueprint_stage. stage. Qed.

Lemma tame_debate_stage (feats : Flags) (feb : string) : tame (debate_stage feats feb).
Proof. unfold debate_stage. stage. Qed.

Lemma tame_execution_stage (p plan h : string) (st : Settings) :
  tame (execution_stage p plan h st).
Proof. unfold execution_stage. stage. Qed.

Lemma tame_simulation_stage (feats : Flags) (full_resp : string) :
  tame (simulation_stage feats full_resp).
Proof. unfold simulation_stage. stage. Qed.

Lemma tame_audit_stage (feats : Flags) (full_resp : string) :
  tame (audit_stage feats full_resp).
Proof. unfold audit_stage. stage. Qed.

End PipelineTame.

(** ** Well-formed event streams (C7) *)

Section WellFormed.
Context `{Ext : Externals}.

Lemma quiet_no_done (evs : list Event) :
  Forall Quiet evs -> filter (fun e => ev_type e = "done") evs = [].
Proof.
  induction 1 as [|e evs [He _] _ IH]; [reflexivity |].
  rewrite filter_cons. destruct (decide (ev_type e = "done")); [done | exact IH].
Qed.

Lemma well_formed_quiet (evs : list Event) : Forall Quiet evs -> well_formed evs.
Proof.
  intros Hq. split; [|split].
  - rewrite quiet_no_done by done. simpl. lia.
  - intros before e after -> He.
    apply Forall_app in Hq as [_ Hq]. apply Forall_cons in Hq as [[Hd _] _]. done.
  - intros e He Hc. rewrite Forall_forall in Hq. by apply (Hq e He).
Qed.

Lemma well_formed_closed (evs : list Event) (d : Event) :
  Forall Quiet evs -> ev_type d = "done" -> well_formed (evs ++ [d]).
Proof.
  intros Hq Hd. split; [|split].
  - rewrite filter_app, quiet_no_done by done. simpl.
    rewrite filter_cons. destruct (decide (ev_type d = "done")); simpl; lia.
  - intros before e after Heq He.
    destruct after as [|a after] using rev_ind; [reflexivity |].
    exfalso. clear IHafter.
    rewrite app_comm_cons, app_assoc in Heq.
    apply app_inj_tail in Heq as [-> _].
    apply Forall_app in Hq as [_ Hq]. apply Forall_cons in Hq as [[Hn _] _]. done.
  - intros e He Hc. apply elem_of_app in He as [He|He].
    + rewrite Forall_forall in Hq. by apply (Hq e He).
    + apply list_elem_of_singleton in He as ->. congruence.
Qed.

Lemma closing_tame {A} (m : Gen A) : tame m -> closing m.
Proof. intros Hm E r E' tr Hrun. left. by destruct (Hm _ _ _ _ Hrun). Qed.

Lemma closing_bind {A B} (m : Gen A) (k : A -> Gen B) :
  tame m -> (forall a, closing (k a)) -> closing (bind m k).
Proof.
  intros Hm Hk E r E' tr. unfold bind.
  destruct (m E) as [[r1 E1] tr1] eqn:Em.
  destruct (Hm _ _ _ _ Em) as [_ Hq1].
  destruct r1 as [a|e|]; [|intros [= <- <- <-]; by left..].
  destruct (k a E1) as [[r2 E2] tr2] eqn:Ek.
  intros [= <- <- <-]. rewrite events_app.
  destruct (Hk _ _ _ _ _ Ek) as [Hq2|(evs & d & -> & Hq2 & Hd)].
  - left. by apply Forall_app.
  - right. exists (events tr1 ++ evs), d. rewrite app_assoc.
    split; [done | split; [by apply Forall_app | done]].
Qed.

Lemma closing_well_formed {A} (m : Gen A) :
  closing m -> forall E r E' tr, m E = (r, E', tr) -> well_formed (events tr).
Proof.
  intros Hm E r E' tr Hrun.
  destruct (Hm _ _ _ _ Hrun) as [Hq|(evs & d & -> & Hq & Hd)].
  - by apply well_formed_quiet.
  - by apply well_formed_closed.
Qed.

Lemma closing_append_done (uid : string) (t : Turn) :
  closing (bind (append_turn uid t) (fun _ => yield (msg "done" "Ready" None))).
Proof.
  intros E r E' tr [= <- <- <-]. right. exists [], (msg "done" "Ready" None).
  by repeat split.
Qed.

Lemma closing_finalize (p sid full_resp : string) : closing (MAS.finalize p sid full_resp).
Proof.
  unfold MAS.finalize. apply closing_bind; [apply tame_yield; quiet_event | intros _].
  intros E r E' tr [= <- <- <-]. right. exists [], (msg "done" "Ready" None).
  by repeat split.
Qed.

Lemma closing_pipeline (p sid : string) (st : MAS.Settings) :
  closing (MAS.process_pipeline p sid st).
Proof.
  unfold MAS.process_pipeline.
  apply closing_bind; [apply tame_get_engine | intros E].
  destruct (get_session E sid) as [sess|]; [|apply closing_tame, tame_ret].
  apply closing_bind; [apply tame_yield; quiet_event | intros _].
  apply closing_bind; [apply tame_select_features | intros feats].
  apply closing_bind; [apply tame_yield; quiet_event | intros _].
  apply closing_bind; [apply tame_facts_stage | intros cfs].
  apply closing_bind; [apply tame_deep_stage | intros _].
  apply closing_bind; [apply tame_topology_stage | intros _].
  apply closing_bind; [apply tame_blueprint_stage | intros feb].
  apply closing_bind; [apply tame_debate_stage | intros final_plan].
  apply closing_bind; [apply tame_execution_stage | intros full_resp].
  apply closing_bind; [apply tame_simulation_stage | intros full_resp'].
  apply closing_bind; [apply tame_audit_stage | intros _].
  apply closing_finalize.
Qed.

Lemma closing_decomposition (fuel : nat) (p sid : string) :
  closing (MultiAgentSystem.process_pipeline fuel p sid).
Proof.
  unfold MultiAgentSystem.process_pipeline.
  apply closing_bind; [apply tame_get_engine | intros E].
  destruct (get_session E sid) as [sess|]; [|apply closing_tame, tame_ret].
  apply closing_bind; [apply tame_yield; quiet_event | intros _].
  apply closing_bind; [apply tame_while_stack | intros _].
  apply closing_append_done.
Qed.

(** C7.  In either mode the events of a run, complete or cut short by an
    exception or by the bound on the loop, hold at most one [done] event,
    hold nothing after a [done] event, and every card among them has a
    target. *)
Theorem event_stream_well_formed :
  (forall (prompt session_id : string) (settings : MAS.Settings) (E : CoreEngine),
     well_formed (events (MAS.process_pipeline prompt session_id settings E).2)) /\
  (forall (fuel : nat) (original_prompt session_id : string) (E : CoreEngine),
     well_formed
       (events (MultiAgentSystem.process_pipeline fuel original_prompt session_id E).2)).
Proof.
  split.
  - intros p sid st E.
    destruct (MAS.process_pipeline p sid st E) as [[r E'] tr] eqn:Hrun.
    exact (closing_well_formed _ (closing_pipeline p sid st) _ _ _ _ Hrun).
  - intros fuel p sid E.
    destruct (MultiAgentSystem.process_pipeline fuel p sid E) as [[r E'] tr] eqn:Hrun.
    exact (closing_well_formed _ (closing_decomposition fuel p sid) _ _ _ _ Hrun).
Qed.

End WellFormed.

(** ** What a run does to the session store (C6, C9) *)

Section Store.
Context `{Ext : Externals}.

Lemma only_appends_same (sid : string) (E E' : CoreEngine) :
  same_store E E' -> only_appends sid E E'.
Proof.
  intros [Hs _]. split; [by rewrite Hs |].
  intros s Hl. exists s, []. rewrite Hs, app_nil_r. by repeat split.
Qed.

Lemma only_appends_trans (sid : string) (E1 E2 E3 : CoreEngine) :
  only_appends sid E1 E2 -> only_appends sid E2 E3 -> only_appends sid E1 E3.
Proof.
  intros [Ho1 Hs1] [Ho2 Hs2]. split.
  - intros uid Hne. by rewrite Ho2, Ho1.
  - intros s Hl.
    destruct (Hs1 s Hl) as (s1 & t1 & Hl1 & ? & ? & ? & Hh1).
    destruct (Hs2 s1 Hl1) as (s2 & t2 & Hl2 & ? & ? & ? & Hh2).
    exists s2, (t1 ++ t2). rewrite Hh2, Hh1, app_assoc.
    repeat split; congruence.
Qed.

Lemma only_appends_history_append (sid : string) (t : Turn) (E : CoreEngine) :
  only_appends sid E (history_append sid t E).
Proof.
  split; simpl.
  - intros uid Hne. by rewrite lookup_alter_ne.
  - intros s Hl. eexists _, [t]. rewrite lookup_alter_eq, Hl. simpl.
    by repeat split.
Qed.

Lemma preserves_bind (R : CoreEngine -> CoreEngine -> Prop) {A B}
    (m : Gen A) (k : A -> Gen B) :
  (forall E1 E2 E3, R E1 E2 -> R E2 E3 -> R E1 E3) ->
  preserves R m -> (forall a, preserves R (k a)) -> preserves R (bind m k).
Proof.
  intros Htrans Hm Hk E r E' tr. unfold bind.
  destruct (m E) as [[r1 E1] tr1] eqn:Em.
  pose proof (Hm _ _ _ _ Em) as H1.
  destruct r1 as [a|e|]; [|by intros [= <- <- <-]..].
  destruct (k a E1) as [[r2 E2] tr2] eqn:Ek.
  pose proof (Hk _ _ _ _ _ Ek) as H2.
  intros [= <- <- <-]. by eapply Htrans.
Qed.

Lemma preserves_tame (sid : string) {A} (m : Gen A) :
  tame m -> preserves (only_appends sid) m.
Proof.
  intros Hm E r E' tr Hrun. apply only_appends_same. by destruct (Hm _ _ _ _ Hrun).
Qed.

Lemma preserves_append_turn (sid : string) (t : Turn) :
  preserves (only_appends sid) (append_turn sid t).
Proof. intros E r E' tr [= <- <- <-]. apply only_appends_history_append. Qed.

Ltac frame_step sid tac :=
  apply (preserves_bind (only_appends sid));
    [apply only_appends_trans | apply preserves_tame; tac | intros ?].

Lemma preserves_append_done (sid : string) (t : Turn) :
  preserves (only_appends sid)
    (bind (append_turn sid t) (fun _ => yield (msg "done" "Ready" None))).
Proof. intros E r E' tr [= <- <- <-]. apply only_appends_history_append. Qed.

Lemma finalize_only_appends (p sid full_resp : string) :
  preserves (only_appends sid) (MAS.finalize p sid full_resp).
Proof.
  unfold MAS.finalize. intros E r E' tr [= <- <- <-].
  eapply only_appends_trans; apply only_appends_history_append.
Qed.

Lemma pipeline_only_appends (p sid : string) (st : MAS.Settings) :
  preserves (only_appends sid) (MAS.process_pipeline p sid st).
Proof.
  unfold MAS.process_pipeline.
  frame_step sid ltac:(apply tame_get_engine).
  destruct (get_session _ sid) as [sess|]; [|apply preserves_tame, tame_ret].
  frame_step sid ltac:(apply tame_yield; quiet_event).
  frame_step sid ltac:(apply tame_select_features).
  frame_step sid ltac:(apply tame_yield; quiet_event).
  frame_step sid ltac:(apply tame_facts_stage).
  frame_step sid ltac:(apply tame_deep_stage).
  frame_step sid ltac:(apply tame_topology_stage).
  frame_step sid ltac:(apply tame_blueprint_stage).
  frame_step sid ltac:(apply tame_debate_stage).
  frame_step sid ltac:(apply tame_execution_stage).
  frame_step sid ltac:(apply tame_simulation_stage).
  frame_step sid ltac:(apply tame_audit_stage).
  apply finalize_only_appends.
Qed.

Lemma decomposition_only_appends (fuel : nat) (p sid : string) :
  preserves (only_appends sid) (MultiAgentSystem.process_pipeline fuel p sid).
Proof.
  unfold MultiAgentSystem.process_pipeline.
  frame_step sid ltac:(apply tame_get_engine).
  destruct (get_session _ sid) as [sess|]; [|apply preserves_tame, tame_ret].
  frame_step sid ltac:(apply tame_yield; quiet_event).
  frame_step sid ltac:(apply tame_while_stack).
  apply preserves_append_done.
Qed.

(** C9.  A run of either pipeline on an existing session leaves every
    other session as it was and, of that session, changes nothing but the
    history, to which it appends. *)
Theorem run_only_appends_to_history
    (prompt session_id : string) (E : CoreEngine) (sess : Session) :
  get_session E session_id = Some sess ->
  (forall settings,
     history_extended session_id sess E
       (MAS.process_pipeline prompt session_id settings E).1.2) /\
  (forall fuel,
     history_extended session_id sess E
       (MultiAgentSystem.process_pipeline fuel prompt session_id E).1.2).
Proof.
  intros Hsess. split.
  - intros st.
    destruct (MAS.process_pipeline prompt session_id st E) as [[r E'] tr] eqn:Hrun.
    destruct (pipeline_only_appends _ _ _ _ _ _ _ Hrun) as [Hother Hsid].
    split; [exact Hother | exact (Hsid sess Hsess)].
  - intros fuel.
    destruct (MultiAgentSystem.process_pipeline fuel prompt session_id E)
      as [[r E'] tr] eqn:Hrun.
    destruct (decomposition_only_appends _ _ _ _ _ _ _ Hrun) as [Hother Hsid].
    split; [exact Hother | exact (Hsid sess Hsess)].
Qed.

End Store.

(** ** Running a generator step by step *)

Section Stepping.
Context `{Ext : Externals}.

Lemma wp_run {A} (m : Gen A) (E : CoreEngine) (Q : Res A -> CoreEngine -> Trace -> Prop) :
  wp m E Q <-> forall r E' tr, m E = (r, E', tr) -> Q r E' tr.
Proof.
  unfold wp. destruct (m E) as [[r E'] tr]. split.
  - by intros HQ ? ? ? [= <- <- <-].
  - intros H. by apply H.
Qed.

Lemma wp_mono {A} (m : Gen A) (E : CoreEngine) (Q Q' : Res A -> CoreEngine -> Trace -> Prop) :
  wp m E Q -> (forall r E' tr, Q r E' tr -> Q' r E' tr) -> wp m E Q'.
Proof. unfold wp. destruct (m E) as [[r E'] tr]. auto. Qed.

Lemma wp_ret {A} (a : A) (E : CoreEngine) Q : Q (Ok a) E [] -> wp (ret a) E Q.
Proof. done. Qed.

Lemma wp_raise {A} (e : Exn) (E : CoreEngine) Q : Q (Raise e) E [] -> wp (@raise _ A e) E Q.
Proof. done. Qed.

Lemma wp_yield (e : Event) (E : CoreEngine) Q : Q (Ok tt) E [Yield e] -> wp (yield e) E Q.
Proof. done. Qed.

Lemma wp_ask (site p : string) (E : CoreEngine) Q :
  Q (Ok tt) E [Ask site p] -> wp (ask site p) E Q.
Proof. done. Qed.

Lemma wp_get_engine (E : CoreEngine) Q : Q (Ok E) E [] -> wp get_engine E Q.
Proof. done. Qed.

Lemma wp_append_turn (uid : string) (t : Turn) (E : CoreEngine) Q :
  Q (Ok tt) (history_append uid t E) [] -> wp (append_turn uid t) E Q.
Proof. done. Qed.

Lemma wp_on_model_none {A} (f : Llama -> Reply A * Llama) ss Q :
  Q (Ok None) (mkEngine None ss) [] -> wp (on_model f) (mkEngine None ss) Q.
Proof. done. Qed.

Lemma wp_on_model_some {A} (f : Llama -> Reply A * Llama) m ss Q :
  (forall a m', f m = (Returned a, m') -> Q (Ok (Some a)) (mkEngine (Some m') ss) []) ->
  (forall message m',
     f m = (Raised message, m') ->
     Q (Raise (CompletionError message)) (mkEngine (Some m') ss) []) ->
  wp (on_model f) (mkEngine (Some m) ss) Q.
Proof.
  intros Hret Hraise. unfold wp, on_model. simpl.
  destruct (f m) as [[a|message] m'] eqn:Hf; [by apply Hret | by apply Hraise].
Qed.

Lemma wp_call_model_none {A} (site p : string) (f : Llama -> Reply A * Llama) ss Q :
  Q (Ok None) (mkEngine None ss) [] -> wp (call_model site p f) (mkEngine None ss) Q.
Proof. done. Qed.

Lemma wp_call_model_some {A} (site p : string) (f : Llama -> Reply A * Llama) m ss Q :
  (forall a m',
     f m = (Returned a, m') -> Q (Ok (Some a)) (mkEngine (Some m') ss) [Ask site p]) ->
  (forall message m',
     f m = (Raised message, m') ->
     Q (Raise (CompletionError message)) (mkEngine (Some m') ss) [Ask site p]) ->
  wp (call_model site p f) (mkEngine (Some m) ss) Q.
Proof.
  intros Hret Hraise. unfold wp, call_model. simpl.
  destruct (f m) as [[a|message] m'] eqn:Hf; [by apply Hret | by apply Hraise].
Qed.

Lemma wp_bind {A B} (m : Gen A) (k : A -> Gen B) (E : CoreEngine) Q :
  wp m E (fun r E1 tr1 =>
            match r with
            | Ok a => wp (k a) E1 (fun r2 E2 tr2 => Q r2 E2 (tr1 ++ tr2))
            | Raise e => Q (Raise e) E1 tr1
            | OutOfFuel => Q OutOfFuel E1 tr1
            end) ->
  wp (bind m k) E Q.
Proof.
  unfold wp, bind. destruct (m E) as [[[a|e|] E1] tr1]; [|done..].
  by destruct (k a E1) as [[r2 E2] tr2].
Qed.

End Stepping.

Ltac wp_step :=
  lazymatch goal with
  | |- wp (bind _ _) _ _ => apply wp_bind
  | |- wp (ret _) _ _ => apply wp_ret
  | |- wp (raise _) _ _ => apply wp_raise
  | |- wp (yield _) _ _ => apply wp_yield
  | |- wp (ask _ _) _ _ => apply wp_ask
  | |- wp get_engine _ _ => apply wp_get_engine
  | |- wp (append_turn _ _) _ _ => apply wp_append_turn
  | |- wp (on_model _) (mkEngine None _) _ => apply wp_on_model_none
  | |- wp (on_model _) (mkEngine (Some _) _) _ =>
      apply wp_on_model_some; intros ? ? ?
  | |- wp (call_model _ _ _) (mkEngine None _) _ => apply wp_call_model_none
  | |- wp (call_model _ _ _) (mkEngine (Some _) _) _ =>
      apply wp_call_model_some; intros ? ? ?
  | |- wp (if String.eqb ?x ?y then _ else _) _ _ =>
      let v := eval vm_compute in (String.eqb x y) in
      lazymatch v with
      | true => change (String.eqb x y) with true
      | false => change (String.eqb x y) with false
      | _ => destruct (String.eqb x y) eqn:?
      end
  | |- wp (if ?b then _ else _) _ _ => destruct b eqn:?
  | |- wp (match ?x with _ => _ end) _ _ => destruct x eqn:?
  end.

Ltac wp_auto := repeat (wp_step; lazy beta iota).


Ltac among :=
  simpl; repeat first [ apply list_elem_of_here | apply list_elem_of_further ].


(** ** The decomposition engine, node by node *)

Section Decomposition.
Context `{Ext : Externals}.
Import MultiAgentSystem.

Lemma yield_tokens_run (chunks : list string) (E : CoreEngine) :
  yield_tokens chunks E = (Ok tt, E, tokens chunks).
Proof.
  induction chunks as [|txt chunks IH]; [reflexivity |].
  simpl. unfold bind, yield. by rewrite IH.
Qed.

Lemma wp_yield_tokens (chunks : list string) (E : CoreEngine) Q :
  Q (Ok tt) E (tokens chunks) -> wp (yield_tokens chunks) E Q.
Proof.
  intros HQ. apply wp_run. intros r E' tr. rewrite yield_tokens_run.
  by intros [= <- <- <-].
Qed.

Lemma sites_tokens (chunks : list string) : sites (tokens chunks) = [].
Proof. induction chunks; [reflexivity | done]. Qed.

Ltac run := repeat (first [ apply wp_yield_tokens | wp_step ]; lazy beta iota).


(** *** The analysis of a node *)


(** *** The execution of a leaf *)

(** Lines 186-208, call by call. *)
Lemma execute_leaf_run (d : nat) (t : PyVal) (w h ctx : string) (E : CoreEngine) :
  wp (execute_leaf d t w h ctx) E (fun r E' tr =>
    let prompt := prompt_exec ctx t w h in
    match model E with
    | None => r = Raise AttributeError /\ E' = E /\ tr = [executing d]
    | Some m =>
        match create_stream m (leaf_request prompt) with
        | (Returned (chunks, error), m') =>
            r = Ok (ctx +:+ transcript t (fold_left String.app chunks EmptyString)) /\
            E' = mkEngine (Some m') (sessions E) /\
            tr = executing d :: Ask "prompt_exec" prompt :: tokens chunks ++ error_token error
        | (Raised message, m') =>
            r = Raise (CompletionError message) /\
            E' = mkEngine (Some m') (sessions E) /\
            tr = [executing d; Ask "prompt_exec" prompt]
        end
    end).
Proof.
  unfold execute_leaf. destruct E as [[m|] ss]; run; cbv zeta; simpl.
  all: try match goal with H : create_stream _ _ = _ |- _ => rewrite H end.
  all: repeat split; simpl; by rewrite ?app_nil_r.
Qed.

End Decomposition.

(** ** One iteration of the loop: the bound on the depth and the context *)

Section Iteration.
Context `{Ext : Externals}.
Import MultiAgentSystem.

Ltac run := repeat (first [ apply wp_yield_tokens | wp_step ]; lazy beta iota).

Lemma loop_body_node (item : TaskNode) (stack : list TaskNode) (ctx : string) :
  type item <> RESUME ->
  loop_body item stack ctx = loop_body (mkNode (depth item) (task item) MAIN) stack ctx.
Proof. unfold loop_body. by destruct (type item). Qed.




(** *** The work stack *)

Lemma pop_nil : pop [] = None.
Proof. reflexivity. Qed.

Lemma pop_snoc (stack : list TaskNode) (item : TaskNode) :
  pop (stack ++ [item]) = Some (item, stack).
Proof. unfold pop. by rewrite rev_unit, rev_involutive. Qed.

Lemma pop_None (stack : list TaskNode) : pop stack = None -> stack = [].
Proof.
  destruct stack as [|item stack _] using rev_ind; [done |].
  by rewrite pop_snoc.
Qed.

Lemma pop_Some (stack below : list TaskNode) (item : TaskNode) :
  pop stack = Some (item, below) -> stack = below ++ [item].
Proof.
  destruct stack as [|top stack _] using rev_ind; [done |].
  rewrite pop_snoc. by intros [= -> ->].
Qed.

Lemma while_stack_step (fuel : nat) (stack : list TaskNode) (item : TaskNode)
    (ctx : string) (E : CoreEngine) :
  while_stack (S fuel) (stack ++ [item]) ctx E =
  bind (loop_body item stack ctx) (fun '(stack', ctx') => while_stack fuel stack' ctx') E.
Proof. simpl. by rewrite pop_snoc. Qed.

(** *** The context *)



End Iteration.

(** ** The loop: order and termination *)

Section Loop.
Context `{Ext : Externals}.
Import MultiAgentSystem.

Ltac run := repeat (first [ apply wp_yield_tokens | wp_step ]; lazy beta iota).

Lemma split_block_frame (d : nat) (t : PyVal) (w h : string)
    (below stack : list TaskNode) (E : CoreEngine) :
  split_block d t w h (below ++ stack) E =
  let '(r, E', tr) := split_block d t w h stack E in
  (match r with Ok x => Ok (under_exit below x) | Raise e => Raise e | OutOfFuel => OutOfFuel end,
   E', tr).
Proof.
  unfold split_block, bind.
  destruct (yield _ E) as [[[[]|e|] E0] tr0]; [|reflexivity..].
  destruct (inference _ _ _ _ _ E0) as [[[res|e|] E1] tr1]; [|reflexivity..].
  destruct res as [txt|]; [|reflexivity].
  destruct (Py.search_brackets txt) as [span|]; [|reflexivity].
  destruct (json_loads_array span) as [sub_tasks|]; [|reflexivity].
  rewrite <- !app_assoc.
  destruct (join_vals sub_tasks) as [lines|]; reflexivity.
Qed.

Lemma loop_body_frame (item : TaskNode) (below stack : list TaskNode)
    (ctx : string) (E : CoreEngine) :
  loop_body item (below ++ stack) ctx E =
  let '(r, E', tr) := loop_body item stack ctx E in (under below r, E', tr).
Proof.
  unfold loop_body. destruct (type item); [| |reflexivity].
  all: unfold bind.
  all: destruct (whi_analysis _ _ _ E) as [[[[[w h] i]|e|] E0] tr0]; [|reflexivity..].
  all: destruct (String.eqb i "NO").
  all: rewrite ?split_block_frame.
  all: try destruct (split_block _ _ _ _ stack E0) as [[[[s1|s1 i1]|e|] E1] tr1].
  all: cbn [under_exit ret]; try reflexivity.
  all: match goal with
       | |- context [String.eqb ?x "YES"] => destruct (String.eqb x "YES")
       end; try reflexivity.
  all: match goal with
       | |- context [execute_leaf ?d ?t ?w ?h ?c ?E] =>
           destruct (execute_leaf d t w h c E) as [[[?|?|] ?] ?]
       end; reflexivity.
Qed.

(** More fuel does not change a run that came to its end. *)
Lemma while_stack_mono (f g : nat) (stack : list TaskNode) (ctx : string)
    (E : CoreEngine) r E' tr :
  while_stack f stack ctx E = (r, E', tr) -> r <> OutOfFuel -> f <= g ->
  while_stack g stack ctx E = (r, E', tr).
Proof.
  revert g stack ctx E r E' tr.
  induction f as [|f IH]; intros g stack ctx E r E' tr Hrun Hr Hle.
  - destruct (pop stack) as [[item below]|] eqn:Hpop.
    + simpl in Hrun. rewrite Hpop in Hrun. by injection Hrun as <- <- <-.
    + apply pop_None in Hpop as ->. by destruct g.
  - destruct (pop stack) as [[item below]|] eqn:Hpop.
    + apply pop_Some in Hpop as ->. destruct g as [|g]; [lia |].
      rewrite while_stack_step in *. unfold bind in *.
      destruct (loop_body item below ctx E) as [[[[s1 c1]|e|] E1] tr1]; [|done..].
      destruct (while_stack f s1 c1 E1) as [[r2 E2] tr2] eqn:Hrest.
      injection Hrun as <- <- <-.
      by rewrite (IH g _ _ _ _ _ _ Hrest Hr ltac:(lia)).
    + apply pop_None in Hpop as ->. by destruct g.
Qed.

(** The stack is worked off from the top: what lies below is reached once
    everything above it, and everything pushed in the meantime, is gone. *)
Lemma while_stack_app (f g : nat) (below above : list TaskNode) (ctx : string)
    (E : CoreEngine) ctx1 E1 tr1 r E2 tr2 :
  while_stack f above ctx E = (Ok ctx1, E1, tr1) ->
  while_stack g below ctx1 E1 = (r, E2, tr2) -> r <> OutOfFuel ->
  while_stack (f + g) (below ++ above) ctx E = (r, E2, tr1 ++ tr2).
Proof.
  revert above ctx E tr1.
  induction f as [|f IH]; intros above ctx E tr1 Habove Hbelow Hr.
  - destruct (pop above) as [[item s]|] eqn:Hpop.
    + simpl in Habove. by rewrite Hpop in Habove.
    + apply pop_None in Hpop as ->. injection Habove as <- <- <-.
      by rewrite app_nil_r.
  - destruct (pop above) as [[item s]|] eqn:Hpop.
    + apply pop_Some in Hpop as ->.
      rewrite app_assoc. change (S f + g) with (S (f + g)).
      rewrite while_stack_step in *. unfold bind in *.
      rewrite loop_body_frame.
      destruct (loop_body item s ctx E) as [[[[s1 c1]|e|] E0] tr0]; [|done..].
      destruct (while_stack f s1 c1 E0) as [[r1 E1'] tr1'] eqn:Hrest.
      injection Habove as -> <- <-. simpl.
      rewrite (IH _ _ _ _ Hrest Hbelow Hr). by rewrite app_assoc.
    + apply pop_None in Hpop as ->. injection Habove as <- <- <-.
      rewrite app_nil_r. simpl app.
      eapply while_stack_mono; [exact Hbelow | exact Hr | lia].
Qed.

(** An exception above leaves the loop, whatever lies below. *)
Lemma while_stack_app_raise (f : nat) (below above : list TaskNode) (ctx : string)
    (E : CoreEngine) e E1 tr1 :
  while_stack f above ctx E = (Raise e, E1, tr1) ->
  while_stack f (below ++ above) ctx E = (Raise e, E1, tr1).
Proof.
  revert above ctx E tr1.
  induction f as [|f IH]; intros above ctx E tr1 Habove.
  - destruct (pop above) as [[item s]|] eqn:Hpop.
    + simpl in Habove. by rewrite Hpop in Habove.
    + by apply pop_None in Hpop as ->.
  - destruct (pop above) as [[item s]|] eqn:Hpop.
    + apply pop_Some in Hpop as ->.
      rewrite app_assoc. rewrite while_stack_step in *. unfold bind in *.
      rewrite loop_body_frame.
      destruct (loop_body item s ctx E) as [[[[s1 c1]|e0|] E0] tr0]; [| done..].
      destruct (while_stack f s1 c1 E0) as [[r1 E1'] tr1'] eqn:Hrest.
      injection Habove as -> <- <-. simpl.
      by rewrite (IH _ _ _ _ Hrest).
    + by apply pop_None in Hpop as ->.
Qed.

(** *** Termination *)

(** An iteration pushes only nodes that are nearer to being worked off
    than the node it took. *)
Lemma loop_body_pushes (item : TaskNode) (ctx : string) (E : CoreEngine) :
  wp (loop_body item [] ctx) E (fun r E1 tr =>
    match r with
    | Ok (pushed, ctx1) => Forall (fun node => height node < height item) pushed
    | Raise _ => True
    | OutOfFuel => False
    end).
Proof.
  unfold loop_body, whi_analysis, split_block, execute_leaf, inference, height.
  destruct E as [[m|] ss]; destruct (type item) eqn:Hty; run.
  all: try done.
  all: try by constructor.
  all: simpl; constructor; [simpl; lia |].
  all: apply Forall_map, Forall_forall; intros st _; simpl.
  all: match goal with H : (_ <? _)%nat = true |- _ => apply Nat.ltb_lt in H end; lia.
Qed.

Lemma while_stack_terminates_below (n : nat) (stack : list TaskNode) :
  Forall (fun node => height node < n) stack ->
  forall ctx E,
    exists fuel r E' tr, while_stack fuel stack ctx E = (r, E', tr) /\ r <> OutOfFuel.
Proof.
  revert stack. induction n as [|n IHn]; intros stack Hh.
  { destruct stack as [|node stack]; [|apply Forall_cons in Hh as [? _]; lia].
    intros ctx E. by exists 0, (Ok ctx), E, []. }
  induction stack as [|item below IHbelow] using rev_ind; intros ctx E.
  { by exists 0, (Ok ctx), E, []. }
  apply Forall_app in Hh as [Hbelow Hitem]. apply Forall_cons in Hitem as [Hitem _].
  pose proof (loop_body_pushes item ctx E) as Hbody.
  destruct (loop_body item [] ctx E) as [[r1 E1] tr1] eqn:Hrun.
  rewrite wp_run in Hbody. specialize (Hbody _ _ _ Hrun).
  assert (forall f, while_stack (S f) [item] ctx E =
                    match r1 with
                    | Ok (pushed, ctx1) =>
                        let '(r2, E2, tr2) := while_stack f pushed ctx1 E1 in (r2, E2, tr1 ++ tr2)
                    | Raise e => (Raise e, E1, tr1)
                    | OutOfFuel => (OutOfFuel, E1, tr1)
                    end) as Hstep.
  { intros f. change [item] with ([] ++ [item]). rewrite while_stack_step.
    unfold bind. rewrite Hrun. by destruct r1 as [[pushed ctx1]|e|]. }
  destruct r1 as [[pushed ctx1]|e|]; [| | done].
  2: { exists 1, (Raise e), E1, tr1. split; [| done].
       apply while_stack_app_raise. by rewrite Hstep. }
  destruct (IHn pushed) with (ctx := ctx1) (E := E1) as (f1 & r2 & E2 & tr2 & Hrun2 & Hr2).
  { eapply Forall_impl; [exact Hbody | simpl; intros; lia]. }
  destruct r2 as [ctx2|e|]; [| | done].
  2: { exists (S f1), (Raise e), E2, (tr1 ++ tr2). split; [| done].
       apply while_stack_app_raise. by rewrite Hstep, Hrun2. }
  destruct (IHbelow Hbelow ctx2 E2) as (f2 & r3 & E3 & tr3 & Hrun3 & Hr3).
  exists (S f1 + f2), r3, E3, ((tr1 ++ tr2) ++ tr3). split; [| done].
  eapply while_stack_app; [| exact Hrun3 | done].
  by rewrite Hstep, Hrun2.
Qed.

Lemma height_bound (node : TaskNode) : height node < S (S MAX_DEPTH).
Proof. unfold height. destruct (type node); lia. Qed.

(** The loop comes to its end, whatever the stack, the context and the
    state: it returns, or it is left by an exception. *)
Lemma while_stack_terminates (stack : list TaskNode) (ctx : string) (E : CoreEngine) :
  exists fuel r E' tr, while_stack fuel stack ctx E = (r, E', tr) /\ r <> OutOfFuel.
Proof.
  apply (while_stack_terminates_below (S (S MAX_DEPTH))).
  apply Forall_forall. intros node _. apply height_bound.
Qed.

(** *** The order of a split (C2) *)






(** *** The exits of the split block (C4) *)

(** A span that the decoder rejects sends the node to the leaf, as the
    [except] clause has it. *)
Lemma split_rejected_span (d : nat) (t : PyVal) (w h : string)
    (stack : list TaskNode) m ss txt m' span :
  create_completion m (request (p_split w h) (1 # 10) 2048 []) = (Returned txt, m') ->
  Py.search_brackets txt = Some span -> json_loads_array span = None ->
  split_block d t w h stack (mkEngine (Some m) ss)
    = (Ok (FallThrough stack "YES"), mkEngine (Some m') ss,
       [Yield (msg "status" (prefix d +:+ " Status: COMPLEX. Splitting...") None);
        Ask "p_split" (p_split w h)]).
Proof.
  intros Hc Hs Hj. unfold split_block, inference, bind, on_model, ask, yield. simpl.
  by rewrite Hc, Hs, Hj.
Qed.

(** An answer without a bracketed span raises nothing: the block is left
    with [val_i] still "NO". *)
Lemma split_without_brackets (d : nat) (t : PyVal) (w h : string)
    (stack : list TaskNode) m ss txt m' :
  create_completion m (request (p_split w h) (1 # 10) 2048 []) = (Returned txt, m') ->
  Py.search_brackets txt = None ->
  split_block d t w h stack (mkEngine (Some m) ss)
    = (Ok (FallThrough stack "NO"), mkEngine (Some m') ss,
       [Yield (msg "status" (prefix d +:+ " Status: COMPLEX. Splitting...") None);
        Ask "p_split" (p_split w h)]).
Proof.
  intros Hc Hs. unfold split_block, inference, bind, on_model, ask, yield. simpl.
  by rewrite Hc, Hs.
Qed.

(** Without a model the leaf is an attribute access on [None]. *)
Lemma leaf_without_model (d : nat) (t : PyVal) (w h ctx : string) ss :
  execute_leaf d t w h ctx (mkEngine None ss)
    = (Raise AttributeError, mkEngine None ss, [executing d]).
Proof. reflexivity. Qed.

(** *** Whole runs *)

(** A run on an existing session comes to its end: with enough fuel it
    returns, and then [done] is its last event, or it is left by an
    exception. *)
Lemma decomposition_completes (p sid : string) (E : CoreEngine) :
  is_Some (get_session E sid) ->
  exists fuel r E' tr,
    process_pipeline fuel p sid E = (r, E', tr) /\ r <> OutOfFuel /\
    (r = Ok tt -> last (events tr) = Some (msg "done" "Ready" None)).
Proof.
  intros [sess Hsess].
  destruct (while_stack_terminates [mkNode 1 (PyStr p) MAIN]
              (initial_context (history sess)) E)
    as (fuel & r & E1 & tr1 & Hrun & Hr).
  exists fuel. unfold process_pipeline, bind, get_engine, yield, append_turn.
  rewrite Hsess, Hrun. destruct r as [c|e|]; [| | done].
  - eexists _, _, _. split; [reflexivity |]. split; [done |]. intros _.
    simpl. rewrite !events_app. simpl. rewrite app_comm_cons. apply last_snoc.
  - eexists _, _, _. split; [reflexivity |]. by split.
Qed.

(** A run that comes to its end appends one turn, the prompt. *)
Lemma decomposition_history (fuel : nat) (p sid : string) (E E' : CoreEngine)
    (sess : Session) tr :
  get_session E sid = Some sess ->
  process_pipeline fuel p sid E = (Ok tt, E', tr) ->
  history <$> get_session E' sid = Some (history sess ++ [mkTurn "user" p]).
Proof.
  intros Hsess. unfold process_pipeline, bind, get_engine, yield, append_turn.
  rewrite Hsess.
  destruct (while_stack fuel _ _ E) as [[[c|e|] E1] tr1] eqn:Hloop; [|done..].
  destruct (tame_while_stack _ _ _ _ _ _ _ Hloop) as [[Hs _] _].
  intros [= <- <-]. unfold get_session in *. simpl.
  by rewrite Hs, lookup_alter_eq, Hsess.
Qed.

End Loop.

(** ** The stage pipeline: selector, debate, final exchange (C5, C1, C6) *)

Section Pipeline.
Context `{Ext : Externals}.
Import MAS.

(** The selector of lines 92-111 in auto mode, case by case.  The
    fallback to the flags facts, plan and simulation is taken when the
    span cut from the answer does not decode.  It is not taken when no
    model is loaded, where the flags stay the ones the caller supplied,
    nor when the call raises, where the exception leaves the selector. *)
Lemma select_features_run (prompt : string) (settings : Settings) (E : CoreEngine) :
  auto_mode settings = true ->
  wp (select_features prompt settings) E (fun r E' tr =>
    match model E with
    | None =>
        r = Ok (match manual_protocols settings with Some f => f | None => [] end)
    | Some m =>
        match (create_completion m (request (selector prompt) (1 # 10) false)).1 with
        | Returned txt =>
            match json_loads_object
                    (Py.slice txt (Py.find "{"%char txt) (Py.rfind "}"%char txt + 1)) with
            | Some j => r = Ok j
            | None => r = Ok [("facts", true); ("plan", true); ("simulation", true)]
            end
        | Raised message => r = Raise (CompletionError message)
        end
    end).
Proof.
  intros Hauto. unfold select_features, inference. rewrite Hauto.
  destruct E as [[m|] ss]; wp_auto; simpl.
  all: try match goal with H : create_completion _ _ = _ |- _ => rewrite H; simpl end.
  all: try match goal with H : json_loads_object _ = _ |- _ => rewrite H end.
  all: reflexivity.
Qed.

Lemma wp_bind_tame {A B} (m : Gen A) (k : A -> Gen B) (E0 E : CoreEngine)
    (Q : Res B -> CoreEngine -> Prop) :
  tame m -> same_store E0 E ->
  (forall e E1, Q (Raise e) E1) -> (forall E1, Q OutOfFuel E1) ->
  (forall a E1, same_store E0 E1 -> wp (k a) E1 (fun r E2 _ => Q r E2)) ->
  wp (bind m k) E (fun r E2 _ => Q r E2).
Proof.
  intros Hm Hs Hraise Hfuel Hk. apply wp_bind, wp_run. intros r E1 tr1 Hrun.
  destruct (Hm _ _ _ _ Hrun) as [Hs1 _].
  destruct r as [a|e|]; [|done..].
  eapply wp_mono; [apply Hk; by eapply same_store_trans | done].
Qed.

(** A run of the pipeline that comes to its end appends two turns: the
    prompt and the response. *)
Lemma pipeline_history (p sid : string) (st : Settings) (E : CoreEngine)
    (sess : Session) :
  get_session E sid = Some sess ->
  wp (process_pipeline p sid st) E (fun r E' _ =>
    r = Ok tt ->
    exists full_resp,
      history <$> get_session E' sid
        = Some (history sess ++ [mkTurn "user" p; mkTurn "assistant" full_resp])).
Proof.
  intros Hsess. unfold process_pipeline.
  apply wp_bind, wp_get_engine. lazy beta iota. rewrite Hsess.
  pose proof (same_store_refl E) as Hs. revert Hs. generalize E at 2 3 as E1.
  intros E1 Hs.
  eapply (wp_bind_tame _ _ E); [apply tame_yield; quiet_event | done..|].
  clear E1 Hs. intros _ E1 Hs.
  eapply (wp_bind_tame _ _ E); [apply tame_select_features | done..|].
  clear E1 Hs. intros feats E1 Hs.
  eapply (wp_bind_tame _ _ E); [apply tame_yield; quiet_event | done..|].
  clear E1 Hs. intros _ E1 Hs.
  eapply (wp_bind_tame _ _ E); [apply tame_facts_stage | done..|].
  clear E1 Hs. intros cfs E1 Hs.
  eapply (wp_bind_tame _ _ E); [apply tame_deep_stage | done..|].
  clear E1 Hs. intros _ E1 Hs.
  eapply (wp_bind_tame _ _ E); [apply tame_topology_stage | done..|].
  clear E1 Hs. intros _ E1 Hs.
  eapply (wp_bind_tame _ _ E); [apply tame_blueprint_stage | done..|].
  clear E1 Hs. intros feb E1 Hs.
  eapply (wp_bind_tame _ _ E); [apply tame_debate_stage | done..|].
  clear E1 Hs. intros final_plan E1 Hs.
  eapply (wp_bind_tame _ _ E); [apply tame_execution_stage | done..|].
  clear E1 Hs. intros full_resp E1 Hs.
  eapply (wp_bind_tame _ _ E); [apply tame_simulation_stage | done..|].
  clear E1 Hs. intros full_resp' E1 Hs.
  eapply (wp_bind_tame _ _ E); [apply tame_audit_stage | done..|].
  clear E1 Hs. intros _ E1 [Hs _].
  unfold finalize. wp_auto. intros _. exists full_resp'.
  unfold get_session in *. simpl.
  rewrite !lookup_alter_eq, Hs, Hsess. simpl. by rewrite <- app_assoc.
Qed.

(** Without a model the debate stage subscripts [None]. *)
Lemma debate_without_model (feats : Flags) (feb : string) ss :
  flag feats "debate" = true ->
  (debate_stage feats feb (mkEngine None ss)).1.1 = Raise TypeError.
Proof. intros Hf. unfold debate_stage. rewrite Hf. reflexivity. Qed.

End Pipeline.

(** ** Concrete runs *)

Section ConcreteRuns.
#[local] Existing Instance Scripted.ext.
Import Scripted.

(** C1, at the inputs where the code departs from it.  With no model
    loaded and the debate flag set, the pipeline is left by a [TypeError]
    at the first plan of the debate; with no model loaded the decomposition
    engine is left by an [AttributeError] at its first leaf.  Neither run
    reaches [done] or the session store. *)
Theorem null_result_aborts_run :
  let pipeline := MAS.process_pipeline "Plan" "s1" debate_only no_model in
  let engine := MultiAgentSystem.process_pipeline 1 "What is 2+2?" "s1" no_model in
  (pipeline.1.1 = Raise TypeError /\
   sites pipeline.2 = ["blueprint"; "p1"] /\
   map ev_type (events pipeline.2) = ["status"; "status"; "status"; "status"; "log"] /\
   history <$> (sessions pipeline.1.2 !! "s1") = Some []) /\
  (engine.1.1 = Raise AttributeError /\
   sites engine.2 = ["p_router"; "p_what"; "p_how"; "p_is"] /\
   map ev_type (events engine.2)
     = ["status"; "status"; "card"; "card"; "card"; "status"] /\
   history <$> (sessions engine.1.2 !! "s1") = Some []).
Proof. cbv zeta. repeat split; vm_compute; reflexivity. Qed.

(** Scenario 4: with no model loaded and only the audit flag set, every
    stage is skipped without its card and the run reaches [done]. *)
Example audit_without_model :
  let st := {| MAS.auto_mode := false; MAS.temp := None;
               MAS.manual_protocols := Some [("audit", true)] |} in
  let run := MAS.process_pipeline "Plan" "s1" st no_model in
  run.1.1 = Ok tt /\
  map ev_type (events run.2) = ["status"; "status"; "status"; "status"; "status"; "status"; "done"].
Proof. cbv zeta. split; vm_compute; reflexivity. Qed.

(** C4, at the input where the code departs from it.  The answer to the
    request for sub-tasks is the text "not json": the search finds no
    bracketed span, nothing is raised, [val_i] stays "NO", and the node is
    neither split nor executed: the run goes from the splitting status
    straight to [done]. *)
Theorem unbracketed_split_drops_node :
  let E := engine (Some (splitting_model "not json")) "s1" [] in
  let run := MultiAgentSystem.process_pipeline 2 "Plan and build a REST API" "s1" E in
  run.1.1 = Ok tt /\
  sites run.2 = ["p_router"; "p_what"; "p_how"; "p_is"; "p_split"] /\
  map (fun e => (ev_type e, ev_content e)) (events run.2) =
    [("status", "Initializing WHIS-ReAct Protocol...");
     ("status", "[>>] D1 WHI Analysis...");
     ("card", "W: Build it");
     ("card", "H: design; write");
     ("card", "I: NO");
     ("status", "[>>] D1 Status: COMPLEX. Splitting...");
     ("done", "Ready")].
Proof. cbv zeta. repeat split; vm_compute; reflexivity. Qed.

(** Scenario 3: a split into two sub-tasks at depth 1. *)
Example split_in_two :
  let E := engine (Some (splitting_model ("Sure: " +:+ two_subtasks))) "s1" [] in
  let run := MultiAgentSystem.process_pipeline 4 "Plan and build a REST API" "s1" E in
  run.1.1 = Ok tt /\
  filter (fun e => bool_decide (e.1 <> "card" /\ e.1 <> "token"))
         (map (fun e => (ev_type e, ev_content e)) (events run.2)) =
    [("status", "Initializing WHIS-ReAct Protocol...");
     ("status", "[>>] D1 WHI Analysis...");
     ("status", "[>>] D1 Status: COMPLEX. Splitting...");
     ("status", "[>>>>] D2 WHI Analysis...");
     ("status", "[>>>>] D2 Status: CLEAR. Executing...");
     ("status", "[>>>>] D2 WHI Analysis...");
     ("status", "[>>>>] D2 Status: CLEAR. Executing...");
     ("status", "[>>] D1 Context Aggregation...");
     ("done", "Ready")].
Proof. cbv zeta. split; vm_compute; reflexivity. Qed.

(** C5, at the inputs where the code departs from it.  In auto mode an
    answer that holds no JSON sends the selector to the flags facts, plan
    and simulation, as the [except] clause has it.  With no model loaded
    the gateway returns nothing, the guard of line 104 skips the whole
    block, and the flags stay the ones of the caller: the facts stage does
    not run.  With a call that raises, the exception leaves the selector
    and the pipeline: no stage runs, there is no [done] event, and nothing
    is stored. *)
Theorem selector_misses_fallback :
  let answered := MAS.select_features "Plan" auto_audit (engine (Some vague_model) "s1" []) in
  let unloaded := MAS.process_pipeline "Plan" "s1" auto_audit no_model in
  let raising :=
    @MAS.process_pipeline strict "Plan" "s1" auto_audit
      (strict_engine (Some {| texts := []; streams := [] |}) "s1" []) in
  answered.1.1 = Ok [("facts", true); ("plan", true); ("simulation", true)] /\
  ((MAS.select_features "Plan" auto_audit no_model).1.1 = Ok [("audit", true)] /\
   unloaded.1.1 = Ok tt /\
   sites unloaded.2 = ["selector"; "blueprint"; "stream"; "audit"]) /\
  (raising.1.1 = Raise (CompletionError overflow) /\
   sites raising.2 = ["selector"] /\
   map ev_type (events raising.2) = ["status"; "status"] /\
   @history strict <$> @get_session strict raising.1.2 "s1" = Some []).
Proof. cbv zeta. repeat split; vm_compute; reflexivity. Qed.

(** C6, at the input where the code departs from it.  A complete run of
    the decomposition engine streams the answer "4" and appends one turn,
    the prompt of the user; the answer is not appended. *)
Theorem decomposition_appends_prompt_only :
  let E := engine (Some simple_model) "s1" [] in
  let run := MultiAgentSystem.process_pipeline 1 "What is 2+2?" "s1" E in
  run.1.1 = Ok tt /\
  map (fun e => (ev_type e, ev_content e)) (events run.2) =
    [("status", "Initializing WHIS-ReAct Protocol...");
     ("status", "[>>] D1 WHI Analysis...");
     ("card", "W: Chat with user");
     ("card", "H: Reply naturally");
     ("card", "I: YES");
     ("status", "[>>] D1 Status: CLEAR. Executing...");
     ("token", "4");
     ("done", "Ready")] /\
  history <$> (sessions run.1.2 !! "s1") = Some [mkTurn "user" "What is 2+2?"].
Proof. cbv zeta. repeat split; vm_compute; reflexivity. Qed.

(** The pipeline, on the same kind of input, appends both turns. *)
Example pipeline_appends_both :
  let E := engine (Some {| texts := ["bp"]; streams := [(["4"], None)] |}) "s1" [] in
  let st := {| MAS.auto_mode := false; MAS.temp := None; MAS.manual_protocols := None |} in
  let run := MAS.process_pipeline "What is 2+2?" "s1" st E in
  run.1.1 = Ok tt /\
  history <$> (sessions run.1.2 !! "s1")
    = Some [mkTurn "user" "What is 2+2?"; mkTurn "assistant" "4"].
Proof. cbv zeta. repeat split; vm_compute; reflexivity. Qed.

Lemma prune_context_trailing_witness :
  ((4000 < Py.len (Py.times "ab" 2001))%Z /\
     exists dropped kept,
       Py.times "ab" 2001 = dropped +:+ kept /\ String.length kept = 4000 /\
       MultiAgentSystem.prune_context (Py.times "ab" 2001)
         = "...(truncated)" +:+ String "010"%char kept /\
       String.length (MultiAgentSystem.prune_context (Py.times "ab" 2001)) = 4015 /\
       MultiAgentSystem.prune_context (Py.times "ab" 2001) <> kept) /\
  ((Py.len "short" <= 4000)%Z /\ MultiAgentSystem.prune_context "short" = "short").
Proof.
  split; split.
  - vm_compute; reflexivity.
  - apply (proj1 (prune_context_trailing (Py.times "ab" 2001))). vm_compute; reflexivity.
  - vm_compute; discriminate.
  - apply (proj2 (prune_context_trailing "short")). vm_compute; discriminate.
Defined.



(** The run of that witness: the router finds the task complex, and at
    depth 3 the node is executed all the same. *)
Example bounded_depth_complex_run :
  let item := MultiAgentSystem.mkNode 3 (PyStr "Write handlers") MultiAgentSystem.SUB in
  let E := engine (Some {| texts := ["YES"; "Serve requests"; "route; reply"];
                           streams := [(["ok"], None)] |}) "s1" [] in
  let run := MultiAgentSystem.loop_body item [] EmptyString E in
  sites run.2 = ["p_router"; "p_what"; "p_how"; "prompt_exec"] /\
  map (fun e => (ev_type e, ev_content e)) (events run.2) =
    [("status", "[>>>>>>] D3 WHI Analysis...");
     ("card", "W: Serve requests");
     ("card", "H: route; reply");
     ("card", "I: YES");
     ("status", "[>>>>>>] D3 Status: CLEAR. Executing...");
     ("token", "ok")].
Proof. cbv zeta. split; vm_compute; reflexivity. Qed.

Lemma run_only_appends_to_history_witness :
  let E := engine (Some simple_model) "s1" [mkTurn "user" "Hello"] in
  let sess := @mkSession ext "s1" "New Operation" [mkTurn "user" "Hello"] 0%Z in
  get_session E "s1" = Some sess /\
  (forall settings,
     history_extended "s1" sess E
       (MAS.process_pipeline "What is 2+2?" "s1" settings E).1.2) /\
  (forall fuel,
     history_extended "s1" sess E
       (MultiAgentSystem.process_pipeline fuel "What is 2+2?" "s1" E).1.2).
Proof.
  cbv zeta. split; [vm_compute; reflexivity |].
  apply run_only_appends_to_history. vm_compute; reflexivity.
Defined.

(** The stored context does pass the limit: a leaf run on a context of
    4002 characters stores these and the 15 of the transcript, where a
    pruned copy holds 4015, marker included. *)
Example stored_context_exceeds_limit :
  let E := engine (Some simple_model) "s1" [] in
  let ctx := Py.times "ab" 2001 in
  exists ctx',
    (MultiAgentSystem.execute_leaf 1 (PyStr "q") "w" "h" ctx E).1.1 = Ok ctx' /\
    Py.len ctx' = 4017%Z /\
    Py.len (MultiAgentSystem.prune_context ctx') = 4015%Z.
Proof. cbv zeta. eexists. repeat split; vm_compute; reflexivity. Qed.

End ConcreteRuns.

(** * Further properties *)

(** ** The session store *)

Section SessionStoreFacts.
Context `{Ext : Externals}.

(** After [create_session] the new id holds a session with that id,
    the given title and an empty history, every other id holds what it
    held, and the model is the same. *)
Theorem create_session_lookup (uid : string) (now : timestamp) (title : string)
    (E : CoreEngine) :
  let '(uid', E') := create_session uid now title E in
  uid' = uid /\
  get_session E' uid = Some (mkSession uid title [] now) /\
  get_history uid E' = [] /\
  (forall other, other <> uid -> get_session E' other = get_session E other) /\
  model E' = model E.
Proof.
  unfold create_session, get_history, get_session. simpl.
  rewrite lookup_insert_eq. repeat split.
  intros other Hne. by rewrite lookup_insert_ne.
Qed.

(** After [delete_session] the id is unknown and every other id holds
    what it held; deleting an id that is not stored changes nothing. *)
Theorem delete_session_lookup (uid : string) (E : CoreEngine) :
  get_session (delete_session uid E) uid = None /\
  (forall other, other <> uid ->
     get_session (delete_session uid E) other = get_session E other) /\
  (get_session E uid = None -> delete_session uid E = E).
Proof.
  unfold delete_session, get_session.
  destruct (sessions E !! uid) as [s|] eqn:Hs; simpl.
  - split; [apply lookup_delete_eq |]. split; [|done].
    intros other Hne. by rewrite lookup_delete_ne.
  - by repeat split.
Qed.

(** X1.  Creating a session under an unused id and deleting it again gives
    back the store as it was. *)
Theorem delete_created_session (uid : string) (now : timestamp) (title : string)
    (E : CoreEngine) :
  get_session E uid = None ->
  delete_session uid (create_session uid now title E).2 = E.
Proof.
  unfold delete_session, create_session, get_session. simpl. intros Hfresh.
  rewrite lookup_insert_eq. destruct E as [m ss]. simpl in *. f_equal.
  rewrite delete_insert_eq. by apply delete_id.
Qed.

Section Listing.
Variable created_lt : timestamp -> timestamp -> bool.

Lemma insert_newest_first_perm (x : Session) (l : list Session) :
  insert_newest_first created_lt x l ≡ₚ x :: l.
Proof.
  induction l as [|y l IH]; simpl; [done |].
  destruct (created_lt (created x) (created y)); [|done].
  rewrite IH. apply Permutation_swap.
Qed.

Lemma insert_newest_first_head (x : Session) (l : list Session) (z : Session) :
  (forall a b, created_lt a b = true -> created_lt b a = false) ->
  created_lt (created z) (created x) = false ->
  match l with [] => True | y :: _ => created_lt (created z) (created y) = false end ->
  match insert_newest_first created_lt x l with
  | [] => True
  | y :: _ => created_lt (created z) (created y) = false
  end.
Proof.
  intros Hasym Hzx Hzl. destruct l as [|y l]; simpl; [done |].
  by destruct (created_lt (created x) (created y)).
Qed.

Lemma insert_newest_first_sorted (x : Session) (l : list Session) :
  (forall a b, created_lt a b = true -> created_lt b a = false) ->
  Sorted (fun a b => created_lt (created a) (created b) = false) l ->
  Sorted (fun a b => created_lt (created a) (created b) = false)
         (insert_newest_first created_lt x l).
Proof.
  intros Hasym. induction 1 as [|y l Hl IH Hhd]; simpl.
  { repeat constructor. }
  destruct (created_lt (created x) (created y)) eqn:Hxy.
  - constructor; [exact IH |].
    pose proof (insert_newest_first_head x l y Hasym (Hasym _ _ Hxy)) as Hhead.
    destruct (insert_newest_first created_lt x l) as [|w r]; constructor.
    apply Hhead. by destruct Hhd.
  - constructor; [by constructor | by constructor].
Qed.

(** X2.  [list_sessions] returns every session of [values] exactly once,
    and in its result no session is followed by a strictly newer one. *)
Theorem list_sessions_newest_first (values : list Session) :
  (forall a b, created_lt a b = true -> created_lt b a = false) ->
  list_sessions created_lt values ≡ₚ values /\
  Sorted (fun a b => created_lt (created a) (created b) = false)
         (list_sessions created_lt values).
Proof.
  intros Hasym. unfold list_sessions. induction values as [|x l [IHp IHs]]; simpl.
  { split; [done | constructor]. }
  split.
  - rewrite insert_newest_first_perm. by f_equiv.
  - by apply insert_newest_first_sorted.
Qed.

End Listing.

End SessionStoreFacts.

(** ** The context aggregator, again *)

Section ContextFacts.
Import MultiAgentSystem.

Lemma app_inv_length_r (a b c d : string) :
  a +:+ b = c +:+ d -> String.length b = String.length d -> b = d.
Proof.
  revert c. induction a as [|x a IH]; intros [|y c].
  - done.
  - rewrite app_empty. intros -> Hlen. rewrite app_length in Hlen. simpl in Hlen. lia.
  - rewrite app_empty. intros <- Hlen. rewrite app_length in Hlen. simpl in Hlen. lia.
  - rewrite (app_String x a), (app_String y c). intros [= _ Heq] Hlen. by apply (IH c).
Qed.

Lemma truncation_marker_length : String.length truncation_marker = 15.
Proof. reflexivity. Qed.

(** X3.  Whatever the context, its pruned copy holds at most 4015
    characters: the 4000 kept and the 15 of the marker. *)
Theorem prune_context_bounded (ctx : string) :
  (Py.len (prune_context ctx) <= 4015)%Z.
Proof.
  unfold Py.len. destruct (Z.le_gt_cases (Py.len ctx) 4000) as [Hs|Hl].
  - unfold prune_context. rewrite prune_context_short by done. unfold Py.len in Hs. lia.
  - destruct (prune_context_long ctx 4000) as (dropped & kept & _ & Hk & Hp);
      [lia | unfold Py.len in Hl; lia |].
    change (prune_context_limit ctx (Z.of_nat 4000)) with (prune_context ctx) in Hp.
    rewrite Hp, app_length, Hk, truncation_marker_length. lia.
Qed.

(** X4.  Pruning a pruned context changes nothing. *)
Theorem prune_context_idempotent (ctx : string) :
  prune_context (prune_context ctx) = prune_context ctx.
Proof.
  destruct (Z.le_gt_cases (Py.len ctx) 4000) as [Hs|Hl].
  - unfold prune_context. by rewrite !(prune_context_short ctx) by done.
  - destruct (prune_context_long ctx 4000) as (dropped & kept & _ & Hk & Hp);
      [lia | unfold Py.len in Hl; lia |].
    change (prune_context_limit ctx (Z.of_nat 4000)) with (prune_context ctx) in Hp.
    rewrite Hp.
    destruct (prune_context_long (truncation_marker +:+ kept) 4000)
      as (dropped' & kept' & Hsplit & Hk' & Hp'); [lia | |].
    { rewrite app_length, Hk, truncation_marker_length. lia. }
    change (prune_context_limit (truncation_marker +:+ kept) (Z.of_nat 4000))
      with (prune_context (truncation_marker +:+ kept)) in Hp'.
    rewrite Hp'. f_equal. symmetry.
    eapply app_inv_length_r; [exact Hsplit | congruence].
Qed.

Lemma last_n_app {A} (n : nat) (old recent : list A) :
  n <= length recent -> Py.last_n n (old ++ recent) = Py.last_n n recent.
Proof.
  intros Hn. unfold Py.last_n. rewrite length_app.
  replace (length old + length recent - n) with (length old + (length recent - n)) by lia.
  by rewrite drop_app_add.
Qed.

(** X5.  The context a run starts from is built from the last turns of the
    history only: the last six in the decomposition engine, the last four
    in the pipeline.  Older turns do not change it. *)
Theorem history_window (old recent : list Turn) :
  (6 <= length recent -> initial_context (old ++ recent) = initial_context recent) /\
  (4 <= length recent -> MAS.history_txt (old ++ recent) = MAS.history_txt recent).
Proof.
  split; intros Hn.
  - unfold initial_context. rewrite last_n_app by done.
    destruct recent as [|r recent]; [simpl in Hn; lia |].
    by destruct old.
  - unfold MAS.history_txt. by rewrite last_n_app.
Qed.

End ContextFacts.

(** ** The sanitizing filter of the decomposition engine *)

Section CleanResp.
Import MultiAgentSystem.

Lemma chars_app (s t : string) : Py.chars (s +:+ t) = Py.chars s ++ Py.chars t.
Proof.
  induction s as [|c s IH]; [reflexivity |].
  rewrite app_String. simpl. by rewrite <- IH.
Qed.

Lemma chars_str (l : list ascii) : Py.chars (Py.str l) = l.
Proof. apply list_ascii_of_string_of_list_ascii. Qed.

Lemma substring_chars (n m : nat) (s : string) (x : ascii) :
  x ∈ Py.chars (substring n m s) -> x ∈ Py.chars s.
Proof.
  revert n m. induction s as [|c s IH]; intros [|n] [|m]; simpl;
    try (by intros ?%elem_of_nil).
  - intros [->|Hx]%elem_of_cons; [left | right; by eapply IH].
  - intros Hx. right. by eapply IH.
  - intros Hx. right. by eapply IH.
Qed.

(** Replacing by the empty string only deletes. *)
Lemma replace_fuel_chars (fuel : nat) (old s : string) (x : ascii) :
  x ∈ Py.chars (Py.replace_fuel fuel old EmptyString s) -> x ∈ Py.chars s.
Proof.
  revert s. induction fuel as [|fuel IH]; intros s; simpl; [done |].
  destruct (String.prefix old s).
  - rewrite app_empty. intros Hx%IH. by eapply substring_chars.
  - destruct s as [|c s]; [done |]. simpl.
    intros [->|Hx]%elem_of_cons; [left | right; by apply IH].
Qed.

Lemma replace_chars (old s : string) (x : ascii) :
  x ∈ Py.chars (Py.replace old EmptyString s) -> x ∈ Py.chars s.
Proof. apply replace_fuel_chars. Qed.

(** Replacing one character by the empty string deletes all of it. *)
Lemma replace_fuel_char_gone (fuel : nat) (c : ascii) (s : string) :
  String.length s < fuel ->
  c ∉ Py.chars (Py.replace_fuel fuel (String c EmptyString) EmptyString s).
Proof.
  revert s. induction fuel as [|fuel IH]; intros s Hlen; [lia |].
  destruct s as [|d s]; simpl.
  { apply not_elem_of_nil. }
  destruct (Ascii.ascii_dec c d) as [->|Hne].
  - replace (String.prefix EmptyString s) with true by (by destruct s).
    rewrite app_empty, Nat.sub_0_r, substring_all.
    apply IH. simpl in Hlen. lia.
  - simpl. apply not_elem_of_cons. split; [done |].
    apply IH. simpl in Hlen. lia.
Qed.

Lemma replace_char_gone (c : ascii) (s : string) :
  c ∉ Py.chars (Py.replace (String c EmptyString) EmptyString s).
Proof. apply replace_fuel_char_gone. lia. Qed.

Lemma lstrip_chars_incl (l : list ascii) (x : ascii) :
  x ∈ Py.lstrip_chars l -> x ∈ l.
Proof.
  induction l as [|c l IH]; simpl; [done |].
  destruct (Py.is_ws c); [|done]. intros Hx. right. by apply IH.
Qed.

Lemma lstrip_chars_head (l : list ascii) (c : ascii) :
  head (Py.lstrip_chars l) = Some c -> Py.is_ws c = false.
Proof.
  induction l as [|d l IH]; simpl; [done |].
  destruct (Py.is_ws d) eqn:Hd; [exact IH |]. simpl. by intros [= <-].
Qed.

Lemma lstrip_chars_snoc (l : list ascii) (x : ascii) :
  Py.is_ws x = false -> Py.lstrip_chars (l ++ [x]) = Py.lstrip_chars l ++ [x].
Proof.
  intros Hx. induction l as [|d l IH]; simpl; [by rewrite Hx |].
  by destruct (Py.is_ws d).
Qed.

Lemma elem_of_rev (l : list ascii) (x : ascii) : x ∈ rev l -> x ∈ l.
Proof. rewrite !list_elem_of_In. apply in_rev. Qed.

Lemma strip_chars (s : string) (x : ascii) : x ∈ Py.chars (Py.strip s) -> x ∈ Py.chars s.
Proof.
  unfold Py.strip. rewrite chars_str.
  intros Hx. apply elem_of_rev, lstrip_chars_incl, elem_of_rev, lstrip_chars_incl in Hx.
  exact Hx.
Qed.

(** [strip] leaves no white space at either end. *)
Lemma strip_ends (s : string) (c : ascii) :
  head (Py.chars (Py.strip s)) = Some c \/ last (Py.chars (Py.strip s)) = Some c ->
  Py.is_ws c = false.
Proof.
  unfold Py.strip. rewrite chars_str.
  destruct (Py.lstrip_chars (Py.chars s)) as [|x l] eqn:Hl; [by intros [|] |].
  assert (Py.is_ws x = false) as Hx by (apply (lstrip_chars_head (Py.chars s)); by rewrite Hl).
  assert (rev (Py.lstrip_chars (rev (x :: l))) = x :: rev (Py.lstrip_chars (rev l))) as ->.
  { simpl. rewrite lstrip_chars_snoc by done. by rewrite rev_app_distr. }
  intros [[= <-]|Hlast]; [done |].
  destruct (Py.lstrip_chars (rev l)) as [|y r] eqn:Hr.
  - simpl in Hlast. by simplify_eq.
  - assert (Py.is_ws y = false) as Hy by (apply (lstrip_chars_head (rev l)); by rewrite Hr).
    change (x :: rev (y :: r)) with ([x] ++ rev (y :: r)) in Hlast.
    simpl rev in Hlast. rewrite app_assoc, last_snoc in Hlast. by simplify_eq.
Qed.

(** X6.  [clean_resp] only deletes characters; what it returns holds no
    backtick, no single quote and no double quote, and neither begins nor
    ends with white space. *)
Theorem clean_resp_sanitized (text : string) :
  let cleaned := Py.chars (clean_resp text) in
  (forall x, x ∈ cleaned -> x ∈ Py.chars text) /\
  ("`"%char ∉ cleaned) /\ ("'"%char ∉ cleaned) /\ ("034"%char ∉ cleaned) /\
  (forall c, head cleaned = Some c \/ last cleaned = Some c -> Py.is_ws c = false).
Proof.
  cbv zeta. unfold clean_resp.
  destruct (String.eqb text EmptyString) eqn:Hempty.
  { simpl. split; [by intros x ?%elem_of_nil |].
    repeat (split; [apply not_elem_of_nil |]). by intros c [|]. }
  set (t1 := Py.replace "`" EmptyString text).
  set (t2 := Py.replace "'" EmptyString t1).
  set (t3 := Py.replace (String "034"%char EmptyString) EmptyString t2).
  assert (forall bad t x,
            x ∈ Py.chars (fold_left (fun t b => Py.replace b EmptyString t) bad t) ->
            x ∈ Py.chars t) as Hfold.
  { induction bad as [|b bad IH]; intros t x; simpl; [done |].
    intros Hx%IH. by eapply replace_chars. }
  assert (forall x,
            x ∈ Py.chars (Py.strip
                  (fold_left (fun t b => Py.replace b EmptyString t)
                     ["SYSTEM:"; "GLOBAL CONTEXT:"; "Instruction:"; "Context:"; "Response:"]
                     t3)) ->
            x ∈ Py.chars t3) as H3.
  { intros x Hx%strip_chars. by eapply Hfold. }
  split; [|split; [|split; [|split]]].
  - intros x Hx%H3. subst t3 t2 t1. by do 3 apply replace_chars in Hx.
  - intros Hx%H3. subst t3 t2. do 2 apply replace_chars in Hx.
    by apply (replace_char_gone "`"%char text).
  - intros Hx%H3. subst t3. apply replace_chars in Hx.
    by apply (replace_char_gone "'"%char t1).
  - intros Hx%H3. by apply (replace_char_gone "034"%char t2).
  - apply strip_ends.
Qed.

End CleanResp.

(** ** How a run ends *)

Section Endings.
Context `{Ext : Externals}.

Lemma finishing_bind {A B} (m : Gen A) (k : A -> Gen B) :
  tame m -> (forall a, finishing (k a)) -> finishing (bind m k).
Proof.
  intros Hm Hk E r E' tr. unfold bind.
  destruct (m E) as [[r1 E1] tr1] eqn:Em.
  destruct (Hm _ _ _ _ Em) as [_ Hq1].
  destruct r1 as [a|e|]; [|by intros [= <- <- <-]..].
  destruct (k a E1) as [[r2 E2] tr2] eqn:Ek.
  intros [= <- <- <-]. pose proof (Hk _ _ _ _ _ Ek) as H2.
  rewrite events_app.
  destruct r2; [apply last_app_Some; by left | by apply Forall_app..].
Qed.

Lemma finishing_finalize (p sid full_resp : string) :
  finishing (MAS.finalize p sid full_resp).
Proof. by intros E r E' tr [= <- <- <-]. Qed.

Lemma finishing_append_done (sid : string) (t : Turn) :
  finishing (bind (append_turn sid t) (fun _ => yield (msg "done" "Ready" None))).
Proof. by intros E r E' tr [= <- <- <-]. Qed.

Lemma finishing_pipeline (p sid : string) (st : MAS.Settings) (sess : Session) (E : CoreEngine) :
  get_session E sid = Some sess ->
  forall r E' tr, MAS.process_pipeline p sid st E = (r, E', tr) ->
    match r with
    | Ok _ => last (events tr) = Some done_event
    | _ => Forall Quiet (events tr)
    end.
Proof.
  intros Hsess r E' tr. unfold MAS.process_pipeline.
  unfold bind at 1, get_engine. rewrite Hsess.
  match goal with |- context [(let (p, tr2) := ?m E in _)] => set (body := m) end.
  assert (finishing body) as Hbody.
  { subst body.
    apply finishing_bind; [apply tame_yield; quiet_event | intros _].
    apply finishing_bind; [apply tame_select_features | intros feats].
    apply finishing_bind; [apply tame_yield; quiet_event | intros _].
    apply finishing_bind; [apply tame_facts_stage | intros cfs].
    apply finishing_bind; [apply tame_deep_stage | intros _].
    apply finishing_bind; [apply tame_topology_stage | intros _].
    apply finishing_bind; [apply tame_blueprint_stage | intros feb].
    apply finishing_bind; [apply tame_debate_stage | intros final_plan].
    apply finishing_bind; [apply tame_execution_stage | intros full_resp].
    apply finishing_bind; [apply tame_simulation_stage | intros full_resp'].
    apply finishing_bind; [apply tame_audit_stage | intros _].
    apply finishing_finalize. }
  destruct (body E) as [[r2 E2] tr2] eqn:Hrun. intros [= <- <- <-].
  exact (Hbody _ _ _ _ Hrun).
Qed.

Lemma finishing_decomposition (fuel : nat) (p sid : string) (sess : Session) (E : CoreEngine) :
  get_session E sid = Some sess ->
  forall r E' tr, MultiAgentSystem.process_pipeline fuel p sid E = (r, E', tr) ->
    match r with
    | Ok _ => last (events tr) = Some done_event
    | _ => Forall Quiet (events tr)
    end.
Proof.
  intros Hsess r E' tr. unfold MultiAgentSystem.process_pipeline.
  unfold bind at 1, get_engine. rewrite Hsess.
  match goal with |- context [(let (p, tr2) := ?m E in _)] => set (body := m) end.
  assert (finishing body) as Hbody.
  { subst body.
    apply finishing_bind; [apply tame_yield; quiet_event | intros _].
    apply finishing_bind; [apply tame_while_stack | intros _].
    apply finishing_append_done. }
  destruct (body E) as [[r2 E2] tr2] eqn:Hrun. intros [= <- <- <-].
  exact (Hbody _ _ _ _ Hrun).
Qed.

(** X7.  On an existing session a run of either pipeline that returns has
    [done] as its last event, and a run that is left by an exception, or
    cut by the bound on the loop, has yielded no [done] event at all. *)
Theorem done_marks_completion (p sid : string) (E : CoreEngine) :
  is_Some (get_session E sid) ->
  (forall st,
     let run := MAS.process_pipeline p sid st E in
     match run.1.1 with
     | Ok _ => last (events run.2) = Some done_event
     | _ => Forall (fun e => ev_type e <> "done") (events run.2)
     end) /\
  (forall fuel,
     let run := MultiAgentSystem.process_pipeline fuel p sid E in
     match run.1.1 with
     | Ok _ => last (events run.2) = Some done_event
     | _ => Forall (fun e => ev_type e <> "done") (events run.2)
     end).
Proof.
  intros [sess Hsess]. split.
  - intros st. cbv zeta.
    destruct (MAS.process_pipeline p sid st E) as [[r E'] tr] eqn:Hrun.
    pose proof (finishing_pipeline p sid st sess E Hsess _ _ _ Hrun) as H.
    simpl. destruct r; [done | |]; (eapply Forall_impl; [exact H | by intros ev []]).
  - intros fuel. cbv zeta.
    destruct (MultiAgentSystem.process_pipeline fuel p sid E) as [[r E'] tr] eqn:Hrun.
    pose proof (finishing_decomposition fuel p sid sess E Hsess _ _ _ Hrun) as H.
    simpl. destruct r; [done | |]; (eapply Forall_impl; [exact H | by intros ev []]).
Qed.

(** X8.  For an id that is not in the store, a run of either pipeline
    yields nothing, asks nothing and leaves the engine as it is. *)
Theorem unknown_session_is_silent (p sid : string) (E : CoreEngine) :
  get_session E sid = None ->
  (forall st, MAS.process_pipeline p sid st E = (Ok tt, E, [])) /\
  (forall fuel, MultiAgentSystem.process_pipeline fuel p sid E = (Ok tt, E, [])).
Proof.
  intros Hsess. split.
  - intros st. unfold MAS.process_pipeline, bind, get_engine. by rewrite Hsess.
  - intros fuel. unfold MultiAgentSystem.process_pipeline, bind, get_engine. by rewrite Hsess.
Qed.

(** X9.  Once [delete_session] has run on an id, a run of either
    pipeline on that id yields nothing and changes nothing, whatever the
    store held before. *)
Theorem run_after_delete_is_silent (p sid : string) (E : CoreEngine) :
  (forall st, MAS.process_pipeline p sid st (delete_session sid E)
              = (Ok tt, delete_session sid E, [])) /\
  (forall fuel, MultiAgentSystem.process_pipeline fuel p sid (delete_session sid E)
                = (Ok tt, delete_session sid E, [])).
Proof.
  assert (get_session (delete_session sid E) sid = None) as Hgone.
  { unfold delete_session, get_session.
    destruct (sessions E !! sid) eqn:Hs; simpl; [apply lookup_delete_eq | done]. }
  split.
  - intros st. unfold MAS.process_pipeline, bind, get_engine. by rewrite Hgone.
  - intros fuel. unfold MultiAgentSystem.process_pipeline, bind, get_engine. by rewrite Hgone.
Qed.

End Endings.

(** ** The decomposition engine: one node, and the whole run *)

Ltac sublist_of_sites :=
  rewrite ?sites_app, ?sites_tokens; simpl;
  repeat first [ apply sublist_nil_l | apply sublist_skip | apply sublist_cons ].

Section DecompositionMore.
Context `{Ext : Externals}.
Import MultiAgentSystem.

Ltac run := repeat (first [ apply wp_yield_tokens | wp_step ]; lazy beta iota).

(** What one iteration does to the stack, which call sites it reaches and
    how it can fail. *)
Lemma loop_body_outcome (item : TaskNode) (stack : list TaskNode) (ctx : string)
    (E : CoreEngine) :
  wp (loop_body item stack ctx) E (fun r E' tr =>
    sublist (sites tr) node_sites /\
    (type item = RESUME -> sites tr = []) /\
    match r with
    | Ok (stack', ctx') =>
        stack' = stack \/
        (type item <> RESUME /\ depth item < MAX_DEPTH /\
         exists sub_tasks,
           stack' = stack ++ [mkNode (depth item) (task item) RESUME]
                          ++ map (fun st => mkNode (depth item + 1) st SUB) (rev sub_tasks))
    | Raise e =>
        (e = AttributeError /\ model E = None) \/
        (exists message, e = CompletionError message /\ model E <> None)
    | OutOfFuel => False
    end).
Proof.
  unfold loop_body, whi_analysis, split_block, execute_leaf, inference, node_sites.
  destruct E as [[m|] ss]; destruct (type item) eqn:Hty; run.
  all: split; [sublist_of_sites |]; split; [done |].
  all: try (by left); try done.
  all: try (right; by eexists).
  all: right; split; [done |];
       match goal with H : (_ <? _)%nat = true |- _ => apply Nat.ltb_lt in H end;
       split; [done |]; eexists; by rewrite <- app_assoc.
Qed.

(** X10.  An iteration keeps the depths of the stack within bounds: if
    the node taken and the nodes below it have a depth from 1 to
    [MAX_DEPTH], so have the nodes of the stack it leaves. *)
Theorem depth_stays_bounded (item : TaskNode) (stack : list TaskNode) (ctx : string)
    (E : CoreEngine) :
  Forall depth_ok (stack ++ [item]) ->
  wp (loop_body item stack ctx) E (fun r _ _ =>
    forall stack' ctx', r = Ok (stack', ctx') -> Forall depth_ok stack').
Proof.
  intros [Hstack [Hitem _]%Forall_cons]%Forall_app.
  eapply wp_mono; [apply loop_body_outcome |].
  intros r E' tr (_ & _ & Hr) stack' ctx' ->.
  destruct Hr as [->|(_ & Hd & sub_tasks & ->)]; [done |].
  apply Forall_app. split; [done |]. apply Forall_app. split.
  - constructor; [exact Hitem | constructor].
  - apply Forall_map, Forall_forall. intros st _. unfold depth_ok in *. simpl. lia.
Qed.

(** X11.  An iteration reaches the gateway at most six times, once for
    each call site and in the order of the source; on a RESUME node it
    does not reach it at all. *)
Theorem node_call_order (item : TaskNode) (stack : list TaskNode) (ctx : string)
    (E : CoreEngine) :
  wp (loop_body item stack ctx) E (fun _ _ tr =>
    sublist (sites tr) node_sites /\ (type item = RESUME -> sites tr = [])).
Proof.
  eapply wp_mono; [apply loop_body_outcome |].
  by intros r E' tr (? & ? & _).
Qed.

(** How the loop can be left by an exception: by the attribute access of
    a leaf when no model is loaded, or by a call of the gateway that
    raises.  The exception of a stream that is iterated is caught, and
    nothing is subscripted without a test. *)
Lemma while_stack_failures (fuel : nat) (stack : list TaskNode) (ctx : string)
    (E : CoreEngine) :
  wp (while_stack fuel stack ctx) E (fun r _ _ =>
    forall e, r = Raise e ->
      (e = AttributeError /\ model E = None) \/
      (exists message, e = CompletionError message /\ model E <> None)).
Proof.
  revert stack ctx E. induction fuel as [|fuel IH]; intros stack ctx E.
  { simpl. by destruct (pop stack) as [[item below]|]. }
  destruct (pop stack) as [[item below]|] eqn:Hpop.
  - apply pop_Some in Hpop as ->. apply wp_run. intros r E' tr.
    rewrite while_stack_step. unfold bind.
    pose proof (loop_body_outcome item below ctx E) as Hbody. rewrite wp_run in Hbody.
    destruct (loop_body item below ctx E) as [[r1 E1] tr1] eqn:Hrun.
    destruct (Hbody _ _ _ eq_refl) as (_ & _ & Hr1).
    destruct (tame_loop_body _ _ _ _ _ _ _ Hrun) as [[_ Hmodel] _].
    destruct r1 as [[s1 c1]|e1|]; [| by intros [= <- <- <-] e [= <-] | by intros [= <- _ _]].
    pose proof (IH s1 c1 E1) as Hrest. rewrite wp_run in Hrest.
    destruct (while_stack fuel s1 c1 E1) as [[r2 E2] tr2] eqn:Hrun2.
    intros [= <- <- <-] e ->.
    destruct (Hrest _ _ _ eq_refl e eq_refl) as [[-> HN]|(message & -> & HN)].
    + left. split; [done | tauto].
    + right. exists message. split; [done | tauto].
  - apply pop_None in Hpop as ->. by destruct fuel.
Qed.

(** X12.  A run of the decomposition engine on an existing session comes
    to its end: from some bound on the iterations of the loop on, the run
    is one and the same.  It returns, or it is left by the
    [AttributeError] of a leaf, and then no model is loaded, or by the
    exception of a call of the gateway, and then a model is loaded; it is
    never left by a [TypeError] nor by the exception of a stream. *)
Theorem decomposition_run_completes (p sid : string) (E : CoreEngine) :
  is_Some (get_session E sid) ->
  exists fuel0 r E' tr,
    (forall fuel, fuel0 <= fuel -> process_pipeline fuel p sid E = (r, E', tr)) /\
    match r with
    | Ok _ => True
    | Raise AttributeError => model E = None
    | Raise (CompletionError _) => model E <> None
    | Raise TypeError => False
    | Raise (StreamError _) => False
    | OutOfFuel => False
    end.
Proof.
  intros [sess Hsess].
  destruct (while_stack_terminates [mkNode 1 (PyStr p) MAIN]
              (initial_context (history sess)) E)
    as (fuel0 & r1 & E1 & tr1 & Hrun & Hr1).
  pose proof (while_stack_failures fuel0 [mkNode 1 (PyStr p) MAIN]
                (initial_context (history sess)) E) as Hfail.
  rewrite wp_run in Hfail. specialize (Hfail _ _ _ Hrun).
  assert (forall fuel, fuel0 <= fuel ->
            process_pipeline fuel p sid E = process_pipeline fuel0 p sid E) as Heq.
  { intros fuel Hle. unfold process_pipeline, bind, get_engine, yield. rewrite Hsess.
    by rewrite (while_stack_mono fuel0 fuel _ _ _ _ _ _ Hrun Hr1 Hle), Hrun. }
  destruct (process_pipeline fuel0 p sid E) as [[r E'] tr] eqn:Hp.
  exists fuel0, r, E', tr. split; [exact Heq |].
  revert Hp. unfold process_pipeline, bind, get_engine, yield, append_turn.
  rewrite Hsess, Hrun.
  destruct r1 as [c|e|]; [| | done]; intros [= <- <- <-]; [done |].
  by destruct (Hfail e eq_refl) as [[-> ?]|(message & -> & ?)].
Qed.

(** X13.  The cards of a node show the goal, the plan and the verdict
    the iteration goes on with: an analysis that returns has yielded its
    status and the three cards, in this order and nothing else.  The goal
    and the plan are never empty; the goal is one of the two fixed texts
    or holds neither "sorry" nor "understand" once in lower case; the
    verdict is YES or NO.  An analysis that is left by an exception is
    left by the one of a call of the gateway, with a model loaded, and has
    yielded the status and the cards it had come to. *)
Theorem whi_cards_show_what_is_used (d : nat) (t : PyVal) (ctx : string) (E : CoreEngine) :
  wp (whi_analysis d t ctx) E (fun r _ tr =>
    match r with
    | Ok (val_w, val_h, val_i) =>
        events tr =
          [msg "status" (prefix d +:+ " WHI Analysis...") None;
           msg "card" ("W: " +:+ val_w) (Some (prefix d +:+ " WHI"));
           msg "card" ("H: " +:+ val_h) (Some (prefix d +:+ " WHI"));
           msg "card" ("I: " +:+ val_i) (Some (prefix d +:+ " WHI"))] /\
        val_w <> EmptyString /\ val_h <> EmptyString /\
        (val_w = "Chat with user" \/ val_w = "Execute task" \/
         Py.contains "sorry" (lower val_w) = false /\
         Py.contains "understand" (lower val_w) = false) /\
        (val_i = "YES" \/ val_i = "NO")
    | Raise e =>
        (exists message, e = CompletionError message) /\ model E <> None /\
        exists val_w val_h,
          events tr `prefix_of`
            [msg "status" (prefix d +:+ " WHI Analysis...") None;
             msg "card" ("W: " +:+ val_w) (Some (prefix d +:+ " WHI"));
             msg "card" ("H: " +:+ val_h) (Some (prefix d +:+ " WHI"))]
    | OutOfFuel => False
    end).
Proof.
  unfold whi_analysis, inference.
  destruct E as [[m|] ss]; run.
  all: try (split; [by eexists |]; split; [done |]; simpl;
            lazymatch goal with
            | |- exists _ _, [_; msg _ ("W: " +:+ ?w) _; msg _ ("H: " +:+ ?h) _] `prefix_of` _ =>
                exists w, h
            | |- exists _ _, [_; msg _ ("W: " +:+ ?w) _] `prefix_of` _ =>
                exists w, EmptyString
            | |- _ => exists EmptyString, EmptyString
            end;
            by repeat first [ apply prefix_cons | apply prefix_nil ]).
  all: split; [reflexivity |].
  all: repeat match goal with
       | |- context [if ?b then _ else _] => destruct b eqn:?
       end.
  all: repeat match goal with
       | H : (_ || _) = false |- _ => apply orb_false_elim in H as [? ?]
       | H : String.eqb _ _ = false |- _ => apply String.eqb_neq in H
       end.
  all: repeat split; try done; try (by left); try (by right); try (right; by left);
       try (right; right; by split).
Qed.

End DecompositionMore.

(** ** The stage pipeline: order of the calls, failures, and what is stored *)

Section PipelineMore.
Context `{Ext : Externals}.
Import MAS.

Lemma yield_tokens_run_mas (chunks : list string) (E : CoreEngine) :
  yield_tokens chunks E = (Ok tt, E, tokens chunks).
Proof.
  induction chunks as [|txt chunks IH]; [reflexivity |].
  simpl. unfold bind, yield. by rewrite IH.
Qed.

Lemma wp_yield_tokens_mas (chunks : list string) (E : CoreEngine) Q :
  Q (Ok tt) E (tokens chunks) -> wp (yield_tokens chunks) E Q.
Proof.
  intros HQ. apply wp_run. intros r E' tr. rewrite yield_tokens_run_mas.
  by intros [= <- <- <-].
Qed.

Ltac run := repeat (first [ apply wp_yield_tokens_mas | wp_step ]; lazy beta iota).

Ltac stage_run :=
  intros [[m|] ss];
  unfold select_features, facts_stage, deep_stage, topology_stage, blueprint_stage,
    debate_stage, execution_stage, simulation_stage, audit_stage, finalize,
    inference_text, inference_stream, inference;
  repeat match goal with
         | |- context [flag ?f ?k] => destruct (flag f k) eqn:?
         end;
  cbn [andb]; run.

(** *** The order of the calls *)

Lemma asks_within_bind {A B} (L1 L2 : list string) (m : Gen A) (k : A -> Gen B) :
  asks_within L1 m -> (forall a, asks_within L2 (k a)) ->
  asks_within (L1 ++ L2) (bind m k).
Proof.
  intros Hm Hk E. apply wp_bind. eapply wp_mono; [apply Hm |].
  intros [a| |] E1 tr1 H1; simpl.
  - eapply wp_mono; [apply Hk |]. intros r E2 tr2 H2.
    rewrite sites_app. by apply sublist_app.
  - by apply sublist_inserts_r.
  - by apply sublist_inserts_r.
Qed.

Lemma asks_within_yield (e : Event) : asks_within [] (yield e).
Proof. intros E. apply wp_yield. simpl. constructor. Qed.

Lemma asks_select_features (p : string) (st : Settings) :
  asks_within (if auto_mode st then ["selector"] else []) (select_features p st).
Proof.
  intros [[m|] ss]; unfold select_features, inference; destruct (auto_mode st); run;
    sublist_of_sites.
Qed.

Lemma asks_facts_stage (p : string) (feats : Flags) :
  asks_within (if flag feats "facts" then ["facts"] else []) (facts_stage p feats).
Proof. stage_run; sublist_of_sites. Qed.

Lemma asks_deep_stage (p : string) (feats : Flags) (cfs : string) :
  asks_within (if flag feats "deep" then ["deep"] else []) (deep_stage p feats cfs).
Proof. stage_run; sublist_of_sites. Qed.

Lemma asks_topology_stage (p : string) (feats : Flags) :
  asks_within (if flag feats "topology" then ["topology"] else []) (topology_stage p feats).
Proof. stage_run; sublist_of_sites. Qed.

Lemma asks_blueprint_stage (p cfs : string) :
  asks_within ["blueprint"] (blueprint_stage p cfs).
Proof. stage_run; sublist_of_sites. Qed.

Lemma asks_debate_stage (feats : Flags) (feb : string) :
  asks_within (if flag feats "debate" then ["p1"; "p2"; "v"] else []) (debate_stage feats feb).
Proof. stage_run; sublist_of_sites. Qed.

Lemma asks_execution_stage (p plan h : string) (st : Settings) :
  asks_within ["stream"] (execution_stage p plan h st).
Proof. stage_run; sublist_of_sites. Qed.

Lemma asks_simulation_stage (feats : Flags) (full_resp : string) :
  asks_within (if flag feats "simulation" then ["simulation"; "f"] else [])
    (simulation_stage feats full_resp).
Proof. stage_run; sublist_of_sites. Qed.

Lemma asks_audit_stage (feats : Flags) (full_resp : string) :
  asks_within (if flag feats "audit" then ["audit"] else []) (audit_stage feats full_resp).
Proof. stage_run; sublist_of_sites. Qed.

Lemma asks_finalize (p sid full_resp : string) : asks_within [] (finalize p sid full_resp).
Proof. stage_run; sublist_of_sites. Qed.

Lemma select_features_failure (p : string) (st : Settings) (E E1 : CoreEngine)
    (r : Res Flags) (tr1 : Trace) :
  select_features p st E = (r, E1, tr1) ->
  match r with
  | Ok _ => True
  | Raise e =>
      auto_mode st = true /\ model E <> None /\ exists message, e = CompletionError message
  | OutOfFuel => False
  end.
Proof.
  unfold select_features, inference.
  destruct (auto_mode st); [| by intros [= <- _ _]].
  unfold bind, yield, ask, on_model, ret.
  destruct (model E) as [m|]; [| by intros [= <- _ _]].
  destruct (create_completion m _) as [[txt|message] m'].
  - destruct (json_loads_object _); by intros [= <- _ _].
  - intros [= <- _ _]. repeat split; [done | by eexists].
Qed.

(** X14.  The pipeline reaches the gateway in the order of its stages,
    once at most for each call site, and only at the call sites whose
    flag is set in the flags the selection returned: the selector in auto
    mode, then facts, deep, topology, the blueprint, the three calls of
    the debate, the stream, the simulation with its repair, the audit.
    The selection returns flags, but for one case: in auto mode with a
    model loaded, the call of the selector can raise, and the selector is
    then the only call site reached. *)
Theorem stages_in_order (p sid : string) (st : Settings) (E : CoreEngine) :
  wp (process_pipeline p sid st) E (fun _ _ tr =>
    match (select_features p st E).1.1 with
    | Ok feats =>
        sublist (sites tr) ((if auto_mode st then ["selector"] else []) ++ gated feats)
    | Raise e =>
        auto_mode st = true /\ model E <> None /\
        (exists message, e = CompletionError message) /\
        sublist (sites tr) ["selector"]
    | OutOfFuel => False
    end).
Proof.
  unfold process_pipeline. apply wp_bind, wp_get_engine. lazy beta iota.
  pose proof (asks_select_features p st E) as Hsel. rewrite wp_run in Hsel.
  destruct (select_features p st E) as [[r1 E1] tr1] eqn:Hrun.
  specialize (Hsel _ _ _ eq_refl). simpl.
  pose proof (select_features_failure p st E E1 r1 tr1 Hrun) as Hfail.
  destruct (get_session E sid) as [sess|].
  2: { apply wp_ret. destruct r1 as [feats|e|]; [apply sublist_nil_l | | done].
       destruct Hfail as (? & ? & ?). repeat split; [done.. | apply sublist_nil_l]. }
  apply wp_bind, wp_yield. lazy beta iota. apply wp_bind, wp_run.
  intros r E2 tr2. rewrite Hrun. intros [= <- <- <-].
  destruct r1 as [feats|e|]; [| | done].
  2: { destruct Hfail as (Hauto & ? & ?). rewrite Hauto in Hsel.
       repeat split; done. }
  assert (asks_within (gated feats)
            (bind (yield (msg "status" "Apollo Integrity Check" None)) (fun _ =>
             bind (facts_stage p feats) (fun cfs =>
             bind (deep_stage p feats cfs) (fun _ =>
             bind (topology_stage p feats) (fun _ =>
             bind (blueprint_stage p cfs) (fun feb =>
             bind (debate_stage feats feb) (fun final_plan =>
             bind (execution_stage p final_plan (history_txt (history sess)) st)
               (fun full_resp =>
             bind (simulation_stage feats full_resp) (fun full_resp =>
             bind (audit_stage feats full_resp) (fun _ =>
             finalize p sid full_resp)))))))))))
    as Hrest.
  { unfold gated.
    rewrite <- (app_nil_r (if flag feats "audit" then _ else _)).
    apply (asks_within_bind []); [apply asks_within_yield | intros _].
    apply asks_within_bind; [apply asks_facts_stage | intros cfs].
    apply asks_within_bind; [apply asks_deep_stage | intros _].
    apply asks_within_bind; [apply asks_topology_stage | intros _].
    apply asks_within_bind; [apply asks_blueprint_stage | intros feb].
    apply asks_within_bind; [apply asks_debate_stage | intros final_plan].
    apply asks_within_bind; [apply asks_execution_stage | intros full_resp].
    apply asks_within_bind; [apply asks_simulation_stage | intros full_resp'].
    apply asks_within_bind; [apply asks_audit_stage | intros _].
    apply asks_finalize. }
  eapply wp_mono; [apply Hrest |]. intros r E3 tr3 H3.
  rewrite !sites_app. simpl. by apply sublist_app.
Qed.

(** *** The ways a run fails *)

Lemma fails_bind {A B} (m : Gen A) (k : A -> Gen B) :
  tame m -> fails_by_gateway m -> (forall a, fails_by_gateway (k a)) ->
  fails_by_gateway (bind m k).
Proof.
  intros Ht Hm Hk E. apply wp_bind, wp_run. intros r E1 tr1 Hrun.
  specialize (Hm E). rewrite wp_run in Hm. specialize (Hm _ _ _ Hrun).
  destruct (Ht _ _ _ _ Hrun) as [[_ Hmodel] _].
  destruct r as [a|e|]; [| done..].
  eapply wp_mono; [apply Hk |]. intros r2 E2 tr2.
  destruct r2 as [b|[]|]; simpl; tauto.
Qed.

Ltac fails_stage := stage_run; simpl; done.

Lemma fails_yield (e : Event) : fails_by_gateway (yield e).
Proof. by intros E. Qed.

Lemma fails_select_features (p : string) (st : Settings) :
  fails_by_gateway (select_features p st).
Proof. intros [[m|] ss]; unfold select_features, inference; destruct (auto_mode st); by run. Qed.

Lemma fails_facts_stage (p : string) (feats : Flags) : fails_by_gateway (facts_stage p feats).
Proof. fails_stage. Qed.

Lemma fails_deep_stage (p : string) (feats : Flags) (cfs : string) :
  fails_by_gateway (deep_stage p feats cfs).
Proof. fails_stage. Qed.

Lemma fails_topology_stage (p : string) (feats : Flags) :
  fails_by_gateway (topology_stage p feats).
Proof. fails_stage. Qed.

Lemma fails_blueprint_stage (p cfs : string) : fails_by_gateway (blueprint_stage p cfs).
Proof. fails_stage. Qed.

Lemma fails_debate_stage (feats : Flags) (feb : string) :
  fails_by_gateway (debate_stage feats feb).
Proof. fails_stage. Qed.

Lemma fails_execution_stage (p plan h : string) (st : Settings) :
  fails_by_gateway (execution_stage p plan h st).
Proof. fails_stage. Qed.

Lemma fails_simulation_stage (feats : Flags) (full_resp : string) :
  fails_by_gateway (simulation_stage feats full_resp).
Proof. fails_stage. Qed.

Lemma fails_audit_stage (feats : Flags) (full_resp : string) :
  fails_by_gateway (audit_stage feats full_resp).
Proof. fails_stage. Qed.

Lemma fails_finalize (p sid full_resp : string) : fails_by_gateway (finalize p sid full_resp).
Proof. fails_stage. Qed.

(** X15.  A run of the pipeline is left by an exception in these ways
    only: by the [TypeError] of subscripting [None], and then no model is
    loaded; by an exception of the library, raised by a call of the
    gateway or while the response stream is iterated, and then a model is
    loaded.  Every other run returns; no run is left by an
    [AttributeError]. *)
Theorem pipeline_failure_modes (p sid : string) (st : Settings) (E : CoreEngine) :
  wp (process_pipeline p sid st) E (fun r _ _ =>
    r = Ok tt \/
    (r = Raise TypeError /\ model E = None) \/
    (exists message,
       (r = Raise (CompletionError message) \/ r = Raise (StreamError message)) /\
       model E <> None)).
Proof.
  assert (fails_by_gateway (process_pipeline p sid st)) as Hfails.
  { clear E. intros E. unfold process_pipeline. apply wp_bind, wp_get_engine. lazy beta iota.
    destruct (get_session E sid) as [sess|]; [| done].
    revert E.
    apply fails_bind; [apply tame_yield; quiet_event | apply fails_yield | intros _].
    apply fails_bind; [apply tame_select_features | apply fails_select_features | intros feats].
    apply fails_bind; [apply tame_yield; quiet_event | apply fails_yield | intros _].
    apply fails_bind; [apply tame_facts_stage | apply fails_facts_stage | intros cfs].
    apply fails_bind; [apply tame_deep_stage | apply fails_deep_stage | intros _].
    apply fails_bind; [apply tame_topology_stage | apply fails_topology_stage | intros _].
    apply fails_bind; [apply tame_blueprint_stage | apply fails_blueprint_stage | intros feb].
    apply fails_bind; [apply tame_debate_stage | apply fails_debate_stage | intros plan].
    apply fails_bind; [apply tame_execution_stage | apply fails_execution_stage | intros full].
    apply fails_bind; [apply tame_simulation_stage | apply fails_simulation_stage | intros full'].
    apply fails_bind; [apply tame_audit_stage | apply fails_audit_stage | intros _].
    apply fails_finalize. }
  eapply wp_mono; [apply Hfails |]. intros r E' tr.
  destruct r as [[]|[| |message|message]|]; simpl; [by left | | done | | | done].
  - intros ?. right. by left.
  - intros ?. right. right. exists message. split; [by right | done].
  - intros ?. right. right. exists message. split; [by left | done].
Qed.

(** *** What is stored is what was streamed *)

Lemma app_empty_r (s : string) : s +:+ EmptyString = s.
Proof. induction s as [|c s IH]; [reflexivity |]. by rewrite app_String, IH. Qed.

Lemma spoken_app (tr1 tr2 : Trace) : spoken (tr1 ++ tr2) = spoken tr1 +:+ spoken tr2.
Proof.
  induction tr1 as [|[e|site q] tr1 IH]; simpl; [by rewrite app_empty | | exact IH].
  destruct (String.eqb (ev_type e) "token"); [| exact IH].
  by rewrite IH, app_assoc_s.
Qed.

Lemma spoken_tokens (chunks : list string) (acc : string) :
  fold_left String.app chunks acc = acc +:+ spoken (tokens chunks).
Proof.
  revert acc. induction chunks as [|txt chunks IH]; intros acc; simpl.
  - by rewrite app_empty_r.
  - rewrite IH. by rewrite app_assoc_s.
Qed.

Lemma silent_bind {A B} (m : Gen A) (k : A -> Gen B) :
  silent m -> (forall a, silent (k a)) -> silent (bind m k).
Proof.
  intros Hm Hk E. apply wp_bind. eapply wp_mono; [apply Hm |].
  intros [a| |] E1 tr1 H1; simpl; [| done..].
  eapply wp_mono; [apply Hk |]. intros r E2 tr2 H2.
  by rewrite spoken_app, H1, H2.
Qed.

Lemma silent_select_features (p : string) (st : Settings) : silent (select_features p st).
Proof. intros [[m|] ss]; unfold select_features, inference; destruct (auto_mode st); by run. Qed.

Lemma silent_facts_stage (p : string) (feats : Flags) : silent (facts_stage p feats).
Proof. by stage_run. Qed.

Lemma silent_deep_stage (p : string) (feats : Flags) (cfs : string) :
  silent (deep_stage p feats cfs).
Proof. by stage_run. Qed.

Lemma silent_topology_stage (p : string) (feats : Flags) : silent (topology_stage p feats).
Proof. by stage_run. Qed.

Lemma silent_blueprint_stage (p cfs : string) : silent (blueprint_stage p cfs).
Proof. by stage_run. Qed.

Lemma silent_debate_stage (feats : Flags) (feb : string) : silent (debate_stage feats feb).
Proof. by stage_run. Qed.

Lemma silent_audit_stage (feats : Flags) (full_resp : string) :
  silent (audit_stage feats full_resp).
Proof. by stage_run. Qed.

(** The response the execution stage returns is the text of its tokens. *)
Lemma execution_stage_spoken (p plan h : string) (st : Settings) (E : CoreEngine) :
  wp (execution_stage p plan h st) E (fun r _ tr =>
    forall full_resp, r = Ok full_resp -> full_resp = spoken tr).
Proof.
  revert E. stage_run; intros full_resp [= <-]; try reflexivity.
  rewrite spoken_tokens. simpl. by rewrite !spoken_app, app_empty, app_empty_r.
Qed.

(** The response the simulation stage returns is the one it was given,
    followed by the text of its token. *)
Lemma simulation_stage_spoken (feats : Flags) (full_resp : string) (E : CoreEngine) :
  wp (simulation_stage feats full_resp) E (fun r _ tr =>
    forall full_resp', r = Ok full_resp' -> full_resp' = full_resp +:+ spoken tr).
Proof.
  revert E. stage_run; intros full_resp' [= <-]; simpl; by rewrite ?app_empty_r.
Qed.

Lemma stored_bind {A} (sid : string) (before : list Turn) (p pre : string)
    (R : A -> string -> Prop) (m : Gen A) (k : A -> Gen unit) (E0 E : CoreEngine) :
  tame m -> same_store E0 E ->
  (forall E1, wp m E1 (fun r _ tr => forall a, r = Ok a -> R a (spoken tr))) ->
  (forall a E1 s, same_store E0 E1 -> R a s -> wp (k a) E1 (stored sid before p (pre +:+ s))) ->
  wp (bind m k) E (stored sid before p pre).
Proof.
  intros Ht Hs Hm Hk. apply wp_bind, wp_run. intros r E1 tr1 Hrun.
  specialize (Hm E). rewrite wp_run in Hm. specialize (Hm _ _ _ Hrun).
  destruct (Ht _ _ _ _ Hrun) as [Hs1 _].
  destruct r as [a|e|]; [| done..].
  eapply wp_mono; [apply (Hk a E1 (spoken tr1)); [by eapply same_store_trans | by apply Hm] |].
  intros r2 E2 tr2 H2 Hr. rewrite spoken_app, <- app_assoc_s. by apply H2.
Qed.

Lemma stored_silent {A} (sid : string) (before : list Turn) (p pre : string)
    (m : Gen A) (k : A -> Gen unit) (E0 E : CoreEngine) :
  tame m -> same_store E0 E -> silent m ->
  (forall a E1, same_store E0 E1 -> wp (k a) E1 (stored sid before p pre)) ->
  wp (bind m k) E (stored sid before p pre).
Proof.
  intros Ht Hs Hm Hk.
  apply (stored_bind sid before p pre (fun _ s => s = EmptyString) m k E0 E Ht Hs).
  - intros E1. eapply wp_mono; [apply Hm |]. by intros r E2 tr Hsp a _.
  - intros a E1 s Hs1 ->. rewrite app_empty_r. by apply Hk.
Qed.

Lemma silent_yield (e : Event) : ev_type e <> "token" -> silent (yield e).
Proof.
  intros He E. apply wp_yield. simpl.
  by destruct (String.eqb_spec (ev_type e) "token").
Qed.

(** X16.  A run of the pipeline on an existing session that comes to its
    end stores, after the prompt, the response the client was shown: the
    texts of the token events of the run, in their order, the repair of
    the simulation stage included. *)
Theorem stored_response_is_streamed (p sid : string) (st : Settings) (E : CoreEngine)
    (sess : Session) :
  get_session E sid = Some sess ->
  wp (process_pipeline p sid st) E (fun r E' tr =>
    r = Ok tt ->
    get_history sid E' =
      history sess ++ [mkTurn "user" p; mkTurn "assistant" (spoken tr)]).
Proof.
  intros Hsess.
  enough (wp (process_pipeline p sid st) E (stored sid (history sess) p EmptyString)) as H.
  { eapply wp_mono; [exact H |]. intros r E' tr Hst Hr. specialize (Hst Hr).
    by rewrite app_empty in Hst. }
  unfold process_pipeline.
  apply wp_bind, wp_get_engine. lazy beta iota. rewrite Hsess.
  pose proof (same_store_refl E) as Hs. revert Hs. generalize E at 2 3 as E1.
  intros E1 Hs.
  eapply (stored_silent _ _ _ _ _ _ E);
    [apply tame_yield; quiet_event | done | by apply silent_yield |].
  clear E1 Hs. intros _ E1 Hs.
  eapply (stored_silent _ _ _ _ _ _ E);
    [apply tame_select_features | done | apply silent_select_features |].
  clear E1 Hs. intros feats E1 Hs.
  eapply (stored_silent _ _ _ _ _ _ E);
    [apply tame_yield; quiet_event | done | by apply silent_yield |].
  clear E1 Hs. intros _ E1 Hs.
  eapply (stored_silent _ _ _ _ _ _ E);
    [apply tame_facts_stage | done | apply silent_facts_stage |].
  clear E1 Hs. intros cfs E1 Hs.
  eapply (stored_silent _ _ _ _ _ _ E);
    [apply tame_deep_stage | done | apply silent_deep_stage |].
  clear E1 Hs. intros _ E1 Hs.
  eapply (stored_silent _ _ _ _ _ _ E);
    [apply tame_topology_stage | done | apply silent_topology_stage |].
  clear E1 Hs. intros _ E1 Hs.
  eapply (stored_silent _ _ _ _ _ _ E);
    [apply tame_blueprint_stage | done | apply silent_blueprint_stage |].
  clear E1 Hs. intros feb E1 Hs.
  eapply (stored_silent _ _ _ _ _ _ E);
    [apply tame_debate_stage | done | apply silent_debate_stage |].
  clear E1 Hs. intros final_plan E1 Hs.
  eapply (stored_bind _ _ _ _ (fun full s => full = s) _ _ E);
    [apply tame_execution_stage | done | apply execution_stage_spoken |].
  clear E1 Hs. intros full_resp E1 s Hs <-. rewrite app_empty.
  eapply (stored_bind _ _ _ _ (fun full' s => full' = full_resp +:+ s) _ _ E);
    [apply tame_simulation_stage | done | apply simulation_stage_spoken |].
  clear E1 Hs. intros full_resp' E1 s Hs <-.
  eapply (stored_silent _ _ _ _ _ _ E);
    [apply tame_audit_stage | done | apply silent_audit_stage |].
  clear E1 Hs. intros _ E1 [Hs _].
  unfold finalize. wp_auto. intros _.
  unfold get_history, get_session in *. simpl.
  rewrite !lookup_alter_eq, Hs, Hsess. simpl.
  by rewrite app_empty_r, <- app_assoc.
Qed.

(** *** The flags that are read *)

Lemma bind_ext {A B} (m : Gen A) (k1 k2 : A -> Gen B) (E : CoreEngine) :
  (forall a E1, k1 a E1 = k2 a E1) -> bind m k1 E = bind m k2 E.
Proof.
  intros Hk. unfold bind. destruct (m E) as [[[a|e|] E1] tr1]; [| reflexivity..].
  by rewrite Hk.
Qed.

Lemma bind_ok {A B} (m1 m2 : Gen A) (k1 k2 : A -> Gen B) (E E1 : CoreEngine)
    (a1 a2 : A) (tr1 : Trace) :
  m1 E = (Ok a1, E1, tr1) -> m2 E = (Ok a2, E1, tr1) -> k1 a1 E1 = k2 a2 E1 ->
  bind m1 k1 E = bind m2 k2 E.
Proof. intros H1 H2 Hk. unfold bind. by rewrite H1, H2, Hk. Qed.

Lemma agree_refl (f : Flags) : agree f f.
Proof. by apply Forall_forall. Qed.

Lemma agree_stages (f1 f2 : Flags) (p sid h : string) (st1 st2 : Settings) :
  temp st1 = temp st2 -> agree f1 f2 ->
  (yield (msg "status" "Apollo Integrity Check" None);;
   let* cfs := facts_stage p f1 in
   deep_stage p f1 cfs;;
   topology_stage p f1;;
   let* feb := blueprint_stage p cfs in
   let* final_plan := debate_stage f1 feb in
   let* full_resp := execution_stage p final_plan h st1 in
   let* full_resp := simulation_stage f1 full_resp in
   audit_stage f1 full_resp;;
   finalize p sid full_resp)%gen
  = (yield (msg "status" "Apollo Integrity Check" None);;
     let* cfs := facts_stage p f2 in
     deep_stage p f2 cfs;;
     topology_stage p f2;;
     let* feb := blueprint_stage p cfs in
     let* final_plan := debate_stage f2 feb in
     let* full_resp := execution_stage p final_plan h st2 in
     let* full_resp := simulation_stage f2 full_resp in
     audit_stage f2 full_resp;;
     finalize p sid full_resp)%gen.
Proof.
  intros Htemp Hagree. unfold agree, read_flags in Hagree.
  repeat match goal with
         | H : Forall _ (_ :: _) |- _ => apply Forall_cons in H as [? H]
         end.
  unfold facts_stage, deep_stage, topology_stage, debate_stage, execution_stage,
    simulation_stage, audit_stage.
  rewrite Htemp.
  by repeat match goal with H : flag f1 _ = flag f2 _ |- _ => rewrite H; clear H end.
Qed.

Lemma bind_raise {A B} (m1 m2 : Gen A) (k1 k2 : A -> Gen B) (E E1 : CoreEngine)
    (e : Exn) (tr1 : Trace) :
  m1 E = (Raise e, E1, tr1) -> m2 E = (Raise e, E1, tr1) ->
  bind m1 k1 E = bind m2 k2 E.
Proof. intros H1 H2. unfold bind. by rewrite H1, H2. Qed.

Lemma select_features_agree (p : string) (st1 st2 : Settings) (E : CoreEngine) :
  auto_mode st1 = auto_mode st2 ->
  agree (match manual_protocols st1 with Some f => f | None => [] end)
        (match manual_protocols st2 with Some f => f | None => [] end) ->
  (exists f1 f2 E1 tr1,
     select_features p st1 E = (Ok f1, E1, tr1) /\
     select_features p st2 E = (Ok f2, E1, tr1) /\ agree f1 f2) \/
  (exists e E1 tr1,
     select_features p st1 E = (Raise e, E1, tr1) /\
     select_features p st2 E = (Raise e, E1, tr1)).
Proof.
  intros Hauto Hagree. unfold select_features, inference. rewrite <- Hauto.
  destruct (auto_mode st1); [| left; by eexists _, _, _, _].
  unfold bind, yield, ask, on_model, ret.
  destruct (model E) as [m|]; [| left; by eexists _, _, _, _].
  destruct (create_completion m _) as [[txt|message] m']; [| right; by eexists _, _, _].
  left. destruct (json_loads_object _) as [j|]; eexists _, _, _, _; eauto using agree_refl.
Qed.

(** X17.  Of the flags the caller supplies, the stages read six: two
    requests that differ only in the other keys of their flags, the key
    [plan] among them, run alike from every state. *)
Theorem unread_flags_do_not_matter (p sid : string) (st1 st2 : Settings) (E : CoreEngine) :
  auto_mode st1 = auto_mode st2 -> temp st1 = temp st2 ->
  agree (match manual_protocols st1 with Some f => f | None => [] end)
        (match manual_protocols st2 with Some f => f | None => [] end) ->
  process_pipeline p sid st1 E = process_pipeline p sid st2 E.
Proof.
  intros Hauto Htemp Hagree.
  unfold process_pipeline. apply bind_ext. intros E0 E1.
  destruct (get_session E0 sid) as [sess|]; [| reflexivity].
  apply bind_ext. intros _ E2.
  destruct (select_features_agree p st1 st2 E2 Hauto Hagree)
    as [(f1 & f2 & E3 & tr & H1 & H2 & Hf)|(e & E3 & tr & H1 & H2)].
  - eapply bind_ok; [exact H1 | exact H2 |].
    by rewrite (agree_stages f1 f2 p sid (history_txt (history sess)) st1 st2 Htemp Hf).
  - by eapply bind_raise.
Qed.

(** *** Without a model *)

Lemma wp_bind_idle {A B} (m : Gen A) (a : A) (k : A -> Gen B) ss
    (Q : Res B -> CoreEngine -> Prop) :
  idle m a ->
  wp (k a) (mkEngine None ss) (fun r E' tr => Q r E' /\ spoken tr = EmptyString) ->
  wp (bind m k) (mkEngine None ss) (fun r E' tr => Q r E' /\ spoken tr = EmptyString).
Proof.
  intros Hm Hk. destruct (Hm ss) as (tr1 & Hrun & Hsp).
  unfold wp, bind in *. rewrite Hrun.
  destruct (k a (mkEngine None ss)) as [[r E'] tr2].
  destruct Hk as [HQ Hsp2]. split; [done |]. by rewrite spoken_app, Hsp, Hsp2.
Qed.

Ltac idle_stage :=
  intros ss;
  repeat match goal with
         | |- context [flag ?f ?k] => destruct (flag f k) eqn:?
         end;
  by eexists.

Lemma idle_yield (e : Event) : ev_type e <> "token" -> idle (yield e) tt.
Proof.
  intros He ss. eexists. split; [reflexivity |]. simpl.
  by destruct (String.eqb_spec (ev_type e) "token").
Qed.

Lemma idle_select_features (p : string) (st : Settings) :
  idle (select_features p st) (match manual_protocols st with Some f => f | None => [] end).
Proof. intros ss. unfold select_features. destruct (auto_mode st); by eexists. Qed.

Lemma idle_facts_stage (p : string) (feats : Flags) : idle (facts_stage p feats) EmptyString.
Proof. unfold facts_stage. idle_stage. Qed.

Lemma idle_deep_stage (p : string) (feats : Flags) (cfs : string) :
  idle (deep_stage p feats cfs) tt.
Proof. unfold deep_stage. idle_stage. Qed.

Lemma idle_topology_stage (p : string) (feats : Flags) : idle (topology_stage p feats) tt.
Proof. unfold topology_stage. idle_stage. Qed.

Lemma idle_blueprint_stage (p cfs : string) : idle (blueprint_stage p cfs) EmptyString.
Proof. unfold blueprint_stage. idle_stage. Qed.

Lemma idle_debate_stage (feats : Flags) (feb : string) :
  flag feats "debate" = false -> idle (debate_stage feats feb) feb.
Proof. intros Hf ss. unfold debate_stage. rewrite Hf. by eexists. Qed.

Lemma idle_execution_stage (p plan h : string) (st : Settings) :
  idle (execution_stage p plan h st) EmptyString.
Proof. unfold execution_stage. idle_stage. Qed.

Lemma idle_simulation_stage (feats : Flags) :
  idle (simulation_stage feats EmptyString) EmptyString.
Proof. unfold simulation_stage. idle_stage. Qed.

Lemma idle_audit_stage (feats : Flags) (full_resp : string) :
  idle (audit_stage feats full_resp) tt.
Proof. unfold audit_stage. idle_stage. Qed.

(** X18.  With no model loaded the pipeline asks and gets nothing, and
    yields no token: when the flags of the caller hold the debate it is
    left by the [TypeError] and the store is as it was; otherwise it
    returns, and the response it stores after the prompt is the empty
    text. *)
Theorem pipeline_without_model (p sid : string) (st : Settings) ss (sess : Session) :
  get_session (mkEngine None ss) sid = Some sess ->
  wp (process_pipeline p sid st) (mkEngine None ss) (fun r E' tr =>
    (if flag (match manual_protocols st with Some f => f | None => [] end) "debate"
     then r = Raise TypeError /\ E' = mkEngine None ss
     else r = Ok tt /\
          get_history sid E' =
            history sess ++ [mkTurn "user" p; mkTurn "assistant" EmptyString]) /\
    spoken tr = EmptyString).
Proof.
  intros Hsess. unfold process_pipeline.
  apply wp_bind, wp_get_engine. lazy beta iota. rewrite Hsess.
  eapply wp_bind_idle; [by apply idle_yield |].
  eapply wp_bind_idle; [apply idle_select_features |].
  generalize (match manual_protocols st with Some f => f | None => [] end) as feats.
  intros feats.
  eapply wp_bind_idle; [by apply idle_yield |].
  eapply wp_bind_idle; [apply idle_facts_stage |].
  eapply wp_bind_idle; [apply idle_deep_stage |].
  eapply wp_bind_idle; [apply idle_topology_stage |].
  eapply wp_bind_idle; [apply idle_blueprint_stage |].
  destruct (flag feats "debate") eqn:Hdebate.
  - unfold debate_stage, inference_text, inference. rewrite Hdebate. by run.
  - eapply wp_bind_idle; [by apply idle_debate_stage |].
    eapply wp_bind_idle; [apply idle_execution_stage |].
    eapply wp_bind_idle; [apply idle_simulation_stage |].
    eapply wp_bind_idle; [apply idle_audit_stage |].
    unfold finalize. run. split; [| done]. split; [done |].
    unfold get_history, get_session in *. simpl in *.
    rewrite !lookup_alter_eq, Hsess. simpl. by rewrite <- app_assoc.
Qed.

End PipelineMore.

(** ** The decomposition engine: the plain path, and no model *)

Section DecompositionPaths.
Context `{Ext : Externals}.
Import MultiAgentSystem.

Ltac run := repeat (first [ apply wp_yield_tokens | wp_step ]; lazy beta iota).

(** X19.  With no model loaded a run of the decomposition engine on an
    existing session is left by the [AttributeError] of its first leaf,
    whatever the prompt: the four questions of the analysis have been
    asked, nothing is stored. *)
Theorem decomposition_without_model (fuel : nat) (p sid : string) ss (sess : Session) :
  get_session (mkEngine None ss) sid = Some sess ->
  wp (process_pipeline (S fuel) p sid) (mkEngine None ss) (fun r E' tr =>
    r = Raise AttributeError /\ E' = mkEngine None ss /\
    sites tr = ["p_router"; "p_what"; "p_how"; "p_is"]).
Proof.
  intros Hsess. unfold process_pipeline.
  apply wp_bind, wp_get_engine. lazy beta iota. rewrite Hsess.
  apply wp_bind, wp_yield. lazy beta iota. apply wp_bind.
  change (while_stack (S fuel) [mkNode 1 (PyStr p) MAIN] (initial_context (history sess)))
    with (bind (loop_body (mkNode 1 (PyStr p) MAIN) [] (initial_context (history sess)))
               (fun '(stack', ctx') => while_stack fuel stack' ctx')).
  unfold loop_body, whi_analysis, split_block, execute_leaf, inference. simpl type.
  run. all: done.
Qed.

(** X20.  When the text of the router's answer, in upper case, does not
    hold YES, the node is a leaf at once: the iteration asks the router
    and the execution and nothing in between, the goal and the plan of
    the execution prompt are the two fixed texts, and the iteration ends
    as the call of the execution does: with the stack as the iteration
    found it and the transcript of the streamed text after the context,
    or with the exception the call raised. *)
Theorem plain_node_is_leaf (item : TaskNode) (stack : list TaskNode) (ctx : string)
    m ss (text : string) m' :
  type item <> RESUME ->
  create_completion m
    (request ("Input: " +:+ fmt (task item) +:+ nl +:+
              "Question: Is this a complex task requiring a plan? Answer YES or NO.")
             (1 # 10) 10 [nl]) = (Returned text, m') ->
  Py.contains "YES" (upper text) = false ->
  wp (loop_body item stack ctx) (mkEngine (Some m) ss) (fun r _ tr =>
    let prompt := prompt_exec ctx (task item) "Chat with user" "Reply naturally" in
    sites tr = ["p_router"; "prompt_exec"] /\
    Ask "prompt_exec" prompt ∈ tr /\
    match create_stream m' (leaf_request prompt) with
    | (Returned (chunks, error), _) =>
        r = Ok (stack, ctx +:+ transcript (task item)
                                 (fold_left String.app chunks EmptyString))
    | (Raised message, _) => r = Raise (CompletionError message)
    end).
Proof.
  intros Hty Hc Hno. rewrite loop_body_node by done.
  unfold loop_body, whi_analysis, inference. cbn [type depth task].
  apply wp_bind, wp_bind, wp_yield; lazy beta iota.
  apply wp_bind, wp_bind, wp_ask; lazy beta iota.
  apply wp_on_model_some; intros a m0; rewrite Hc; intros [= <- <-]; lazy beta iota.
  rewrite Hno; simpl negb; lazy beta iota.
  run. apply wp_run. intros rl El trl Hl.
  pose proof (execute_leaf_run (depth item) (task item) "Chat with user" "Reply naturally"
                ctx (mkEngine (Some m') ss)) as Hleaf.
  rewrite wp_run in Hleaf. specialize (Hleaf _ _ _ Hl). cbv zeta in Hleaf. simpl in Hleaf.
  cbv zeta.
  destruct (create_stream m' _) as [[[chunks error]|message] m2];
    destruct Hleaf as (-> & -> & ->); simpl.
  - split; [rewrite ?sites_app, ?sites_tokens; by destruct error |].
    split; [among | done].
  - split; [done |]. split; [among | done].
Qed.

End DecompositionPaths.

(** ** A run that fails stores nothing *)

Section Failures.
Context `{Ext : Externals}.

Lemma all_or_nothing_bind {A B} (m : Gen A) (k : A -> Gen B) :
  tame m -> (forall a, all_or_nothing (k a)) -> all_or_nothing (bind m k).
Proof.
  intros Hm Hk E r E' tr. unfold bind.
  destruct (m E) as [[r1 E1] tr1] eqn:Hrun.
  destruct (Hm _ _ _ _ Hrun) as [[Hs _] _].
  destruct r1 as [a|e|]; [| by intros [= <- <- <-].. ].
  destruct (k a E1) as [[r2 E2] tr2] eqn:Hrun2.
  intros [= <- <- <-] Hr. rewrite <- Hs. by eapply Hk.
Qed.

Lemma all_or_nothing_finalize (p sid full_resp : string) :
  all_or_nothing (MAS.finalize p sid full_resp).
Proof. intros E r E' tr [= <- <- <-] Hr. by destruct (Hr tt). Qed.

(** X21.  A run of either pipeline that is left by an exception, or cut
    by the bound on the loop, leaves the session map as it was: the
    prompt is not stored either. *)
Theorem failed_run_stores_nothing (p sid : string) (E : CoreEngine) :
  (forall st,
     let run := MAS.process_pipeline p sid st E in
     run.1.1 <> Ok tt -> sessions run.1.2 = sessions E) /\
  (forall fuel,
     let run := MultiAgentSystem.process_pipeline fuel p sid E in
     run.1.1 <> Ok tt -> sessions run.1.2 = sessions E).
Proof.
  split.
  - intros st. cbv zeta.
    assert (all_or_nothing (MAS.process_pipeline p sid st)) as H.
    { unfold MAS.process_pipeline.
      apply all_or_nothing_bind; [apply tame_get_engine | intros E0].
      destruct (get_session E0 sid) as [sess|].
      2: { intros E1 r E' tr [= <- <- <-] Hr. by destruct (Hr tt). }
      apply all_or_nothing_bind; [apply tame_yield; quiet_event | intros _].
      apply all_or_nothing_bind; [apply tame_select_features | intros feats].
      apply all_or_nothing_bind; [apply tame_yield; quiet_event | intros _].
      apply all_or_nothing_bind; [apply tame_facts_stage | intros cfs].
      apply all_or_nothing_bind; [apply tame_deep_stage | intros _].
      apply all_or_nothing_bind; [apply tame_topology_stage | intros _].
      apply all_or_nothing_bind; [apply tame_blueprint_stage | intros feb].
      apply all_or_nothing_bind; [apply tame_debate_stage | intros final_plan].
      apply all_or_nothing_bind; [apply tame_execution_stage | intros full_resp].
      apply all_or_nothing_bind; [apply tame_simulation_stage | intros full_resp'].
      apply all_or_nothing_bind; [apply tame_audit_stage | intros _].
      apply all_or_nothing_finalize. }
    destruct (MAS.process_pipeline p sid st E) as [[r E'] tr] eqn:Hrun. simpl.
    intros Hr. eapply H; [exact Hrun |]. by intros [] ->.
  - intros fuel. cbv zeta.
    assert (all_or_nothing (MultiAgentSystem.process_pipeline fuel p sid)) as H.
    { unfold MultiAgentSystem.process_pipeline.
      apply all_or_nothing_bind; [apply tame_get_engine | intros E0].
      destruct (get_session E0 sid) as [sess|].
      2: { intros E1 r E' tr [= <- <- <-] Hr. by destruct (Hr tt). }
      apply all_or_nothing_bind; [apply tame_yield; quiet_event | intros _].
      apply all_or_nothing_bind; [apply tame_while_stack | intros ctx].
      intros E1 r E' tr [= <- <- <-] Hr. by destruct (Hr tt). }
    destruct (MultiAgentSystem.process_pipeline fuel p sid E) as [[r E'] tr] eqn:Hrun. simpl.
    intros Hr. eapply H; [exact Hrun |]. by intros [] ->.
Qed.

End Failures.

(** ** The properties above at concrete inputs *)

Section MoreRuns.
#[local] Existing Instance Scripted.ext.
Import Scripted.

Lemma delete_created_session_witness :
  get_session no_model "s2" = None /\
  delete_session "s2" (@create_session ext "s2" 5%Z "New Operation" no_model).2 = no_model.
Proof.
  split; [vm_compute; reflexivity |].
  apply (@delete_created_session ext "s2" 5%Z "New Operation" no_model). vm_compute; reflexivity.
Defined.

Lemma list_sessions_newest_first_witness :
  let values := [@mkSession ext "a" "New Operation" [] 1%Z;
                 @mkSession ext "b" "New Operation" [] 3%Z;
                 @mkSession ext "c" "New Operation" [] 2%Z] in
  (forall a b : Z, (a <? b)%Z = true -> (b <? a)%Z = false) /\
  @list_sessions ext Z.ltb values ≡ₚ values /\
  Sorted (fun a b : @Session ext => (created a <? created b)%Z = false) (@list_sessions ext Z.ltb values).
Proof.
  cbv zeta. split; [intros a b; lia |].
  apply (@list_sessions_newest_first ext Z.ltb). intros a b; lia.
Defined.

Lemma history_window_witness :
  let old := [mkTurn "user" "first"] in
  let recent := [mkTurn "user" "a"; mkTurn "assistant" "b"; mkTurn "user" "c";
                 mkTurn "assistant" "d"; mkTurn "user" "e"; mkTurn "assistant" "f"] in
  (6 <= length recent /\
   MultiAgentSystem.initial_context (old ++ recent) = MultiAgentSystem.initial_context recent) /\
  (4 <= length recent /\ MAS.history_txt (old ++ recent) = MAS.history_txt recent).
Proof.
  cbv zeta. split; split.
  - simpl; lia.
  - apply (proj1 (history_window [mkTurn "user" "first"] _)). simpl; lia.
  - simpl; lia.
  - apply (proj2 (history_window [mkTurn "user" "first"] _)). simpl; lia.
Defined.

Lemma done_marks_completion_witness :
  let E := engine (Some simple_model) "s1" [] in
  is_Some (get_session E "s1") /\
  ((forall st,
      let run := MAS.process_pipeline "What is 2+2?" "s1" st E in
      match run.1.1 with
      | Ok _ => last (events run.2) = Some done_event
      | _ => Forall (fun e => ev_type e <> "done") (events run.2)
      end) /\
   (forall fuel,
      let run := MultiAgentSystem.process_pipeline fuel "What is 2+2?" "s1" E in
      match run.1.1 with
      | Ok _ => last (events run.2) = Some done_event
      | _ => Forall (fun e => ev_type e <> "done") (events run.2)
      end)).
Proof.
  cbv zeta. split; [by eexists |].
  apply (done_marks_completion "What is 2+2?" "s1" (engine (Some simple_model) "s1" [])).
  by eexists.
Defined.

Lemma unknown_session_is_silent_witness :
  get_session no_model "s2" = None /\
  (forall st, MAS.process_pipeline "Plan" "s2" st no_model = (Ok tt, no_model, [])) /\
  (forall fuel,
     MultiAgentSystem.process_pipeline fuel "Plan" "s2" no_model = (Ok tt, no_model, [])).
Proof.
  split; [vm_compute; reflexivity |].
  apply (unknown_session_is_silent "Plan" "s2" no_model). vm_compute; reflexivity.
Defined.

Lemma depth_stays_bounded_witness :
  let item := MultiAgentSystem.mkNode 1 (PyStr "Plan and build a REST API")
                MultiAgentSystem.MAIN in
  let E := engine (Some (splitting_model two_subtasks)) "s1" [] in
  Forall depth_ok ([] ++ [item]) /\
  wp (MultiAgentSystem.loop_body item [] EmptyString) E (fun r _ _ =>
    forall stack' ctx', r = Ok (stack', ctx') -> Forall depth_ok stack').
Proof.
  cbv zeta.
  assert (Forall depth_ok
            ([] ++ [MultiAgentSystem.mkNode 1 (PyStr "Plan and build a REST API")
                      MultiAgentSystem.MAIN])) as H.
  { repeat constructor. }
  split; [exact H |]. by apply depth_stays_bounded.
Defined.

Lemma decomposition_run_completes_witness :
  let E := engine (Some simple_model) "s1" [] in
  is_Some (get_session E "s1") /\
  exists fuel0 r E' tr,
    (forall fuel, fuel0 <= fuel ->
       MultiAgentSystem.process_pipeline fuel "What is 2+2?" "s1" E = (r, E', tr)) /\
    match r with
    | Ok _ => True
    | Raise AttributeError => model E = None
    | Raise (CompletionError _) => model E <> None
    | Raise TypeError => False
    | Raise (StreamError _) => False
    | OutOfFuel => False
    end.
Proof.
  cbv zeta. split; [by eexists |].
  apply (decomposition_run_completes "What is 2+2?" "s1" (engine (Some simple_model) "s1" [])).
  by eexists.
Defined.

Lemma stored_response_is_streamed_witness :
  let E := engine (Some simple_model) "s1" [mkTurn "user" "Hello"] in
  let sess := @mkSession ext "s1" "New Operation" [mkTurn "user" "Hello"] 0%Z in
  get_session E "s1" = Some sess /\
  wp (MAS.process_pipeline "What is 2+2?" "s1" debate_only) E (fun r E' tr =>
    r = Ok tt ->
    get_history "s1" E' =
      history sess ++ [mkTurn "user" "What is 2+2?"; mkTurn "assistant" (spoken tr)]).
Proof.
  cbv zeta. split; [vm_compute; reflexivity |].
  apply (stored_response_is_streamed "What is 2+2?" "s1" debate_only
           (engine (Some simple_model) "s1" [mkTurn "user" "Hello"])).
  vm_compute; reflexivity.
Defined.

Lemma unread_flags_do_not_matter_witness :
  let st1 := {| MAS.auto_mode := false; MAS.temp := None;
                MAS.manual_protocols := Some [("plan", true); ("audit", true)] |} in
  let st2 := {| MAS.auto_mode := false; MAS.temp := None;
                MAS.manual_protocols := Some [("audit", true)] |} in
  let E := engine (Some simple_model) "s1" [] in
  MAS.auto_mode st1 = MAS.auto_mode st2 /\ MAS.temp st1 = MAS.temp st2 /\
  agree [("plan", true); ("audit", true)] [("audit", true)] /\
  MAS.process_pipeline "Plan" "s1" st1 E = MAS.process_pipeline "Plan" "s1" st2 E.
Proof.
  cbv zeta.
  assert (agree [("plan", true); ("audit", true)] [("audit", true)]) as H.
  { repeat constructor. }
  split; [reflexivity |]. split; [reflexivity |]. split; [exact H |].
  by apply unread_flags_do_not_matter.
Defined.

Lemma pipeline_without_model_witness :
  let sess := @mkSession ext "s1" "New Operation" [] 0%Z in
  let ss : gmap string (@Session ext) := {[ "s1" := sess ]} in
  get_session (@mkEngine ext None ss) "s1" = Some sess /\
  wp (MAS.process_pipeline "Plan" "s1" debate_only) (mkEngine None ss) (fun r E' tr =>
    (if flag (match MAS.manual_protocols debate_only with Some f => f | None => [] end)
          "debate"
     then r = Raise TypeError /\ E' = mkEngine None ss
     else r = Ok tt /\
          get_history "s1" E' =
            history sess ++ [mkTurn "user" "Plan"; mkTurn "assistant" EmptyString]) /\
    spoken tr = EmptyString).
Proof.
  cbv zeta. split; [vm_compute; reflexivity |].
  apply (@pipeline_without_model ext "Plan" "s1" debate_only). vm_compute; reflexivity.
Defined.

Lemma decomposition_without_model_witness :
  let sess := @mkSession ext "s1" "New Operation" [] 0%Z in
  let ss : gmap string (@Session ext) := {[ "s1" := sess ]} in
  get_session (@mkEngine ext None ss) "s1" = Some sess /\
  wp (MultiAgentSystem.process_pipeline 1 "What is 2+2?" "s1") (mkEngine None ss)
    (fun r E' tr =>
       r = Raise AttributeError /\ E' = mkEngine None ss /\
       sites tr = ["p_router"; "p_what"; "p_how"; "p_is"]).
Proof.
  cbv zeta. split; [vm_compute; reflexivity |].
  apply (@decomposition_without_model ext 0 "What is 2+2?" "s1" _
           (@mkSession ext "s1" "New Operation" [] 0%Z)).
  vm_compute; reflexivity.
Defined.

Lemma plain_node_is_leaf_witness :
  let item := MultiAgentSystem.mkNode 1 (PyStr "What is 2+2?") MultiAgentSystem.MAIN in
  let spent := {| texts := []; streams := [(["4"], None)] |} in
  MultiAgentSystem.type item <> MultiAgentSystem.RESUME /\
  @create_completion ext simple_model
    (MultiAgentSystem.request
       ("Input: " +:+ fmt (MultiAgentSystem.task item) +:+ nl +:+
        "Question: Is this a complex task requiring a plan? Answer YES or NO.")
       (1 # 10) 10 [nl]) = (Returned "NO", spent) /\
  Py.contains "YES" (@upper ext "NO") = false /\
  wp (MultiAgentSystem.loop_body item [] EmptyString)
     (@mkEngine ext (Some simple_model) ∅) (fun r _ tr =>
    let prompt :=
      MultiAgentSystem.prompt_exec EmptyString (MultiAgentSystem.task item)
        "Chat with user" "Reply naturally" in
    sites tr = ["p_router"; "prompt_exec"] /\
    Ask "prompt_exec" prompt ∈ tr /\
    match @create_stream ext spent (MultiAgentSystem.leaf_request prompt) with
    | (Returned (chunks, error), _) =>
        r = Ok ([], EmptyString +:+ MultiAgentSystem.transcript (MultiAgentSystem.task item)
                                      (fold_left String.app chunks EmptyString))
    | (Raised message, _) => r = Raise (CompletionError message)
    end).
Proof.
  cbv zeta. split; [discriminate |]. split; [reflexivity |]. split; [reflexivity |].
  apply (@plain_node_is_leaf ext
           (MultiAgentSystem.mkNode 1 (PyStr "What is 2+2?") MultiAgentSystem.MAIN)
           [] EmptyString simple_model ∅ "NO" {| texts := []; streams := [(["4"], None)] |});
    [discriminate | reflexivity | reflexivity].
Defined.

Lemma failed_run_stores_nothing_witness :
  let run := MAS.process_pipeline "Plan" "s1" debate_only no_model in
  run.1.1 <> Ok tt /\ sessions run.1.2 = sessions no_model.
Proof.
  cbv zeta. split; [vm_compute; discriminate |].
  apply (proj1 (failed_run_stores_nothing "Plan" "s1" no_model) debate_only).
  vm_compute; discriminate.
Defined.

End MoreRuns.
